(* ===== verification/_CoqProject ===== *)
-Q . S2P
Prelude.v
Usb.v
FakeHost.v
Usbutil.v
Ownership.v
UsbutilList.v
Bslhid.v
Ti3410Firmware.v
Cp210x.v
Ftdi.v
CdcAcm.v
Ti3410.v
Ti3410Bringup.v
Transport.v
Session.v
