(* ===== verification/Prelude.v ===== *)
(** * A verification development of the mspdebug USB transport layer

    ** The program

    The program is the USB transport layer of mspdebug: the backends
    [src/transport/bslhid.c] (HID bootstrap loader), [ti3410.c] (legacy
    bridge with firmware push), [cdc_acm.c], [ftdi.c], and two files whose
    names are not given, [src/unnamed/part_000] (the locator [usbutil.c])
    and [src/unnamed/part_001] (the CP210x backend [cp210x.c]).  Every
    backend fills the operation table [struct transport_class] ([destroy],
    [send], [recv], [flush], [set_modem], and for the HID backend [suspend]
    and [resume]) and has an [open] function that finds the device through
    the locator (by ["bus:device"] or by vendor/product/serial), claims an
    interface and brings the device up.  The backends reach the device only
    through libusb, and the TI3410 firmware push also through [getenv],
    [fopen] and an external Intel-HEX decoder.

    ** Files, and how they correspond to the code

    - [Prelude] (this file): the state/error monad [M S A] with its notation
      in [usb_scope] ([x <- c ;; k], [let* p := c in k], [c ;; k]) and
      [catch] (the C idiom "on error, clean up and return -1"); [outcome]
      ([Done], [Error] with the reason the C code prints, [OutOfFuel] when a
      loop ran longer than its fuel); the failure reasons with their
      classification [failure_kind] into the error taxonomy of the design;
      uint8_t/uint16_t wrap-around, little-endian split/combine and bit-mask
      lemmas; the hint databases [usb] and [usb_rw].
    - [Usb]: the environment.  Every libusb function, [time], [delay_ms],
      [malloc], [getenv], [fopen] and the Intel-HEX decoder is a constructor
      of the indexed type [call A]; a host is an instance of [UsbHost W].  A
      modelled C function runs on a [sys]: the host's world, the trace of
      the calls made with their answers, and the backend's struct.  The
      loops the backends share are defined once: [send_loop] ([while (len)
      libusb_bulk_transfer]), [flush_loop] ([while (libusb_bulk_transfer(...)
      != 0);]) and [read_loop] ([while (time(NULL) < deadline)]).  Host
      properties ([bulk_out_sane], [bulk_in_silent], [clock_ticks],
      [control_ok], [control_returns_length] (libusb's documented answer),
      [control_acked], [malloc_ok], [static_bus], [bulk_in_bytes],
      [ihex_sane] (the decoder keeps its contract, [chunk_ok])) are the hypotheses the
      theorems about arbitrary hosts take.  The ledger of handles and
      claims is computed from a trace; [emits Q] (every event appended
      satisfies [Q], with [keeps_ledger] its instance for neutral events),
      [keeps_tr], [returns] and [issues] (succeeds with a known list of
      control requests) are compositional properties of computations, with tactics that prove
      them call by call.  The tactics [run_in] and [step_in] execute
      a modelled function forward in a hypothesis.
    - [FakeHost]: a concrete host with no hardware (devices with
      descriptors, bus numbers and serial strings, an inbound queue, a
      clock ticking a second per [time] call, an environment and a file
      system); [quiet], the same with a device that never sends; [broken],
      whose IN endpoint fails; [zack], whose stack acknowledges every
      control request with 0; [bytewise W], any host seen through
      [unsigned char] buffers (what an IN transfer delivers reduced to
      [uint8_t]); [unplugged], whose device cannot be opened again once
      it was opened (or at all), so [libusb_open] fails with
      [LIBUSB_ERROR_NO_DEVICE]; [zeroed W], any host whose unwritten
      handle variables read as NULL.  They are shown to satisfy the host
      properties; the witnesses run on them.
    - [Usbutil] (Module [Usbutil]): [usbutil_find_by_loc] with the [strncpy],
      [strtok] and [atoi] it calls, [usbutil_find_by_id] with [read_serial]
      and [strcasecmp], [device_help]; [last_match], [at_loc] and [has_ids]
      state what the locator promises.
    - [Ownership]: what the spec promises of handles and claims, over the
      ledger of a trace.  [live] (every call on a handle targets one that
      is open), [balanced] (from nothing held, every call is live and
      nothing is left held unless fuel ran out), [open_contract] (an
      [open] holds exactly the struct's handle with its interface claimed
      on success and nothing on failure), [destroy_contract] and
      [releases_all] (open then destroy gives everything back); the host
      properties [open_sane] ([libusb_open] returns a handle exactly when
      it succeeds) and [uninit_null]; the locator's functions are
      balanced.  The tactics [trace_segments] and [open_contract_close]
      split a run into segments already proved and close the ledger.
    - [UsbutilList] (Module [UsbutilList]): [usbutil_list], which returns
      the lines it prints ([list_line], with the values of each [printc]
      call) and [render_line], their text ([%03d], [%04x] formats).
    - [Bslhid] (Module [Bslhid]): the struct [bslhid_transport],
      [find_interface], [open_device], [bslhid_destroy], [bslhid_flush],
      [bslhid_send] with the frame it builds, [bslhid_recv] with its checks,
      [bslhid_set_modem], [bslhid_suspend], [bslhid_resume], [bslhid_open].
    - [Ti3410Firmware] (Module [Ti3410Firmware]): [find_firmware],
      [do_extract] and [ihex_extract] (the decoder's contract),
      [load_firmware], [prepare_firmware], [do_download] and its packet loop,
      [download_firmware].
    - [Cp210x] (Module [Cp210x]): the struct, [configure_port],
      [open_interface], [open_device] with its interface loop, [usbtr_send],
      [usbtr_recv], [usbtr_destroy], [usbtr_flush], [usbtr_set_modem],
      [cp210x_open].
    - [Ftdi] (Module [Ftdi]): the struct, [configure_ftdi] with its
      eight requests as a list run by [do_cfgs], [open_device], [tr_send],
      [tr_recv] with the two status bytes stripped, [tr_destroy], and
      [tr_flush] and [tr_set_modem], which work on a fresh [malloc] instead
      of the caller's instance (its handle is read with [UninitHandle]),
      [ftdi_open].
    - [CdcAcm] (Module [CdcAcm]): the struct with its 1024-byte read
      buffer, cursor and valid length; [find_interface], [open_interface],
      [configure_port] with the line coding, [usbtr_send], [usbtr_recv] with
      its refill, [usbtr_destroy], [usbtr_flush], [usbtr_set_modem],
      [cdc_acm_open]; [pending] and [queue_recv] are the byte queue the
      buffer implements; [bulk_dir], [ep_of] and [first_suitable] are the
      declarative reading of [find_interface]'s loops.
    - [Ti3410] (Module [Ti3410]): the port of [ti3410.c] after the firmware:
      [open_device] (boot configuration switched to the active one),
      [set_termios], [set_mcr], [do_open_start], [interrupt_flush],
      [setup_port], [teardown_port], [ti3410_send], [ti3410_recv],
      [ti3410_destroy], [ti3410_flush], [ti3410_set_modem], [ti3410_open]
      (which pushes the firmware when the device shows one configuration).
    - [Ti3410Bringup] (Module [Ti3410Bringup]): the design's bring-up state
      machine ([phase], [bstep], [reach]) over what it observes of the
      calls ([observe]: device-list lookups, firmware packets, port
      requests), and the refinement of [ti3410_open] into it.
    - [Transport]: the operation table [struct transport_class] as the
      record [transport_class W T], the five tables of the code
      ([bslhid_transport_class], [ti3410_transport_class], [cdc_acm_class],
      [cp210x_class], [ftdi_class]), the closed set [backend] with the
      dispatch [backend_class], and the contract as classes of laws
      ([RecvBounded], [SendWire], [RecvBytes] with the per-backend
      condition [backend_ok]) with one instance per backend; [send_all]
      is a client that sends buffers one after another.
    - [Session]: the caller's use of an open instance as the step relation
      [session] (any request, any outcome, from an initial set of states);
      an [Invariant] of a table holds in every reachable state by rule
      induction ([session_invariant]).

    ** Theorems (groups)

    - HID framing: [bslhid_recv] returns exactly the declared payload of a
      well-formed frame and fails on every malformed transfer with the
      reason the code prints; an over-long send fails before any transfer;
      the bytes [bslhid_send] puts on the wire are the raw payload, not the
      frame it builds (finding); suspend refuses I/O; resume of an instance
      opened by serial cannot succeed, and a failed claim on resume leaves a
      closed handle in the struct (findings).
    - Shared loops: the send loop moves exactly the caller's bytes, in
      order, or stops at the first fatal transfer, and terminates when every
      transfer makes progress; the flush loop stops at the first successful
      read and never stops on a silent device (finding); the deadline loop
      always returns with one iteration of fuel per second of deadline, and
      reports the timeout on a silent device.
    - Locator: a location printed by [usbutil_list] parses back to the same
      bus and address; on a static bus [usbutil_find_by_loc] and
      [usbutil_find_by_id] return the last matching device of libusb's list;
      composing the two, the location shown in any device line of
      [usbutil_list], given back to [usbutil_find_by_loc], finds a device
      at that bus and address.
    - Firmware: on chunks that keep the decoder's contract, extraction
      succeeds exactly when they are contiguous from address 0 and fit the
      16284-byte buffer, and then yields their concatenation, so [memcpy]
      never writes past [buf]; the first gap is reported; the header is
      little-endian [size - 3] and the 8-bit sum of the rest, written over
      the first three bytes (finding); the download splits the image into
      64-byte packets that concatenate back to the image; end to end,
      [download_firmware] with more fuel than the buffer has bytes never
      runs out of fuel on a host whose transfers progress, and when it
      returns 0 the wire carries exactly the prepared image of the chunks
      the decoder returned.
    - CP210x: the modem value inverts both lines and sets both write
      enables; the baud divisor reaches the device unchanged exactly from 54
      baud up; [configure_port] sends its three requests in order;
      [usbtr_recv] terminates and times out on a silent device;
      [cp210x_open] looks the device up with vendor and product swapped
      (finding).
    - FTDI: [configure_ftdi] issues a prefix of its eight requests, all of
      them when every request succeeds; [tr_recv] strips the two status
      bytes and returns exactly the payload; [tr_flush] and [tr_set_modem]
      do not depend on the instance they are given (finding); the baud
      value is exact from 46 baud up.
    - CDC-ACM: [usbtr_recv] implements a byte queue over its buffer and
      keeps the buffer invariant; after a failed refill it delivers stale
      bytes again (finding); with libusb's answer to the line-coding
      request [cdc_acm_open] never succeeds (finding); the line coding
      reads back to the baud rate; [find_interface]'s loops are equivalent
      to "the first interface of class 10 with a bulk IN and a bulk OUT
      endpoint, with the last such endpoints" ([first_suitable]).
    - TI3410 port: with libusb's answer to its 10-byte [TI_SET_CONFIG]
      request [ti3410_open] never succeeds (finding); on a host that
      acknowledges with 0, [setup_port] issues the double open/purge
      sequence in order; every run of [ti3410_open], failed ones included,
      follows the design's bring-up state machine (no port request before
      the device has been looked up again after a firmware push);
      [open_device] holds exactly its handle and claim
      on success and nothing on failure; after a successful open,
      [ti3410_destroy] leaves the handle open and the interface claimed
      (finding).
    - Ownership: [bslhid_open], [cdc_acm_open], [ftdi_open] and (on a host
      whose unwritten handle reads as NULL) [ti3410_open] keep the open
      contract: every call targets an open handle, a failure holds
      nothing, a success holds the struct's handle and its claim; for the
      HID, CDC-ACM and FTDI backends open then destroy gives everything
      back (each backend's [destroy] is an instance of [DestroyReleases]).
      Where the contract breaks, concrete runs show it: [cp210x_open]
      after a failed second open claims and closes the handle it already
      closed, and [ti3410_open], when the boot device cannot be opened and
      the handle variable holds garbage, pushes the firmware through a
      handle that was never opened (findings).
    - Contract: on a host whose transfers report sane counts, no backend's
      [recv] returns more than [max_len] bytes, and for every backend a run
      of successful sends puts exactly the concatenation of the buffers on
      the wire; the client theorem is proved against [SendWire] alone.
    - Sessions and types: every state a CDC-ACM instance reaches from
      [cdc_acm_open] keeps its buffer invariant; for every backend, on a
      host that delivers bytes, every [recv] of a session returns bytes
      (the [uint8_t] type of [databuf]) and the CDC-ACM buffer keeps holding
      bytes, failed requests included.

    ** Fuel and bounds

    Loops of the C code that can run forever take a [nat] fuel, and
    [OutOfFuel] is an outcome of its own, so a theorem about a result is
    never vacuous.  Termination theorems state the fuel that suffices:
    [length data + 1] for a send whose transfers progress, the seconds left
    before the deadline plus one for a deadline loop on a clock that ticks
    (31 for the 30 s deadlines), and for the firmware download one more
    than the 16284 bytes of the buffer, since every packet moves at least
    one byte and [do_extract] keeps the image within the buffer.  Integers the code keeps in [uint8_t] or
    [uint16_t] are wrapped with [u8]/[u16] where the code converts.  The
    remaining lines of the sources the map does not name are [#define]s of
    request codes and register bits that no function uses, and the
    license headers and includes.

    ** Not modelled, and why

    Logging ([printc_err], [debug_hexdump]) is output only.  The [#ifdef
    __Windows__] paths ([libusb_set_configuration]) are not modelled: the
    model is of the Linux build, with the kernel-driver detach.  libusb and
    the Intel-HEX decoder are external: libusb is the host class, the
    decoder is modelled from the contract in the design ([ihex_extract]).
    The text of [usbutil_list] is modelled as the lines it prints, not as
    the [printc] output stream.  Calls made only to print a message
    ([libusb_get_bus_number] and [libusb_get_device_address] in the debug
    messages of the backends' [open_device] and of [do_download]) are left
    out of the traces; the locator's own calls to them are modelled.  The struct's
    [base.ops] pointer is the backend's module itself.  [free] is not
    modelled: the struct of a failed [open] is dropped with the state. *)

From stdpp Require Export base list.
From Stdlib Require Export ZArith Lia.

Declare Scope usb_scope.
Delimit Scope usb_scope with usb.

(** ** Failures

    The reasons a modelled C function returns its error value (-1 or NULL),
    one per message the code prints, grouped by the error taxonomy of the
    design with [failure_kind]. *)

Inductive failure : Type :=
| NoMemory                      (** [malloc] returned NULL *)
| DeviceNotFound                (** the locator returned NULL *)
| DescriptorError (rc : Z)      (** [libusb_get_device_descriptor] *)
| ConfigDescriptorError (rc : Z)(** [libusb_get_config_descriptor] *)
| NoInterface                   (** [find_interface] found nothing *)
| OpenError (rc : Z)            (** [libusb_open] left the handle NULL *)
| SetConfigurationError (rc : Z)
| ClaimError (rc : Z)
| ControlError (request : Z) (rc : Z)  (** a vendor/class control request *)
| HaltError                     (** [libusb_clear_halt] *)
| BulkError (rc : Z)            (** a non-timeout bulk transfer error *)
| ShortTransfer                 (** HID: fewer than 2 bytes received *)
| BadHeader                     (** HID: byte 0 is not 0x3f *)
| BadLength (len r : Z)         (** HID: declared length does not fit *)
| ExcessMtu (len : Z)           (** HID: payload longer than 62 *)
| Suspended                     (** HID: operation on a suspended device *)
| FirmwareNotFound
| InvalidIhex
| FirmwareGap (size addr : Z)
| FirmwareTooLarge
| FirmwareDecode                (** the Intel-HEX decoder failed *)
| ReadTimeout                   (** a read deadline elapsed *)
| Unsupported                   (** [set_modem] without modem lines *)
| NullDereference               (** the C code reads through a NULL pointer:
                                    undefined behaviour, the model stops *)
| DivideByZero.                 (** an integer division by zero in C *)

Inductive error_kind : Type :=
| DiscoveryFailure | ConfigurationFailure | ProtocolFailure
| TransferFailure | Timeout | UnsupportedOperation | ResourceFailure.

Definition failure_kind (f : failure) : error_kind :=
  match f with
  | NoMemory => ResourceFailure
  | DeviceNotFound => DiscoveryFailure
  | DescriptorError _ | ConfigDescriptorError _ | NoInterface | OpenError _
  | SetConfigurationError _ | ClaimError _ => ConfigurationFailure
  | ShortTransfer | BadHeader | BadLength _ _ | ExcessMtu _ | FirmwareGap _ _
  | FirmwareTooLarge | FirmwareDecode | InvalidIhex => ProtocolFailure
  | ControlError _ _ | HaltError | BulkError _ | Suspended
  | FirmwareNotFound => TransferFailure
  | ReadTimeout => Timeout
  | Unsupported => UnsupportedOperation
  | NullDereference | DivideByZero => ResourceFailure
  end.

#[export] Instance failure_eq_dec : EqDecision failure.
Proof. solve_decision. Defined.
#[export] Instance error_kind_eq_dec : EqDecision error_kind.
Proof. solve_decision. Defined.

(** ** Outcomes and the state/error monad *)

Inductive outcome (A : Type) : Type :=
| Done (a : A)
| Error (f : failure)
| OutOfFuel.
Arguments Done {A} a.
Arguments Error {A} f.
Arguments OutOfFuel {A}.

(** A computation on a state [S]: the state is kept on every outcome,
    because the C code has already acted on the device when it fails. *)
Definition M (S A : Type) : Type := S -> outcome A * S.

Section Monad.

Context {S : Type}.

Definition ret {A} (a : A) : M S A := fun s => (Done a, s).
Definition fail {A} (f : failure) : M S A := fun s => (Error f, s).
Definition out_of_fuel {A} : M S A := fun s => (OutOfFuel, s).

Definition bind {A B} (m : M S A) (k : A -> M S B) : M S B :=
  fun s =>
    match m s with
    | (Done a, s') => k a s'
    | (Error f, s') => (Error f, s')
    | (OutOfFuel, s') => (OutOfFuel, s')
    end.

Definition get : M S S := fun s => (Done s, s).
Definition put (s : S) : M S unit := fun _ => (Done tt, s).
Definition modify (f : S -> S) : M S unit := fun s => (Done tt, f s).

(** [when b m]: the C idiom [if (b) { m; }] with no result. *)
Definition when (b : bool) (m : M S unit) : M S unit :=
  if b then m else ret tt.

(** A C loop over a list with an early exit on the first error: the
    callback-chain of [ihex_extract] and the step lists of the
    configuration sequences. *)
Fixpoint mfold {A B} (f : A -> B -> M S A) (a : A) (l : list B) : M S A :=
  match l with
  | [] => ret a
  | b :: l' => bind (f a b) (fun a' => mfold f a' l')
  end.

(** [if (step() < 0) { cleanup; return -1; }]: on an error of [m] the
    handler runs in the state [m] left, with the failure. *)
Definition catch {A} (m : M S A) (h : failure -> M S A) : M S A :=
  fun s => match m s with
           | (Error f, s') => h f s'
           | r => r
           end.

End Monad.


Notation "x <- c ;; k" := (bind c (fun x => k))
  (at level 100, c at next level, right associativity) : usb_scope.
Notation "'let*' p ':=' c 'in' k" := (bind c (fun x => match x with p => k end))
  (at level 100, p pattern, c at next level, right associativity) : usb_scope.
Notation "c ;; k" := (bind c (fun _ => k))
  (at level 100, right associativity) : usb_scope.

Create HintDb usb discriminated.
Create Rewrite HintDb usb_rw.

(** ** Bytes and fixed-width integers

    A byte is a [Z] in [0, 256); a C conversion to [uint8_t] or [uint16_t]
    is written out as the wrap-around [u8] / [u16]. *)

Section Bytes.

Local Open Scope Z_scope.

Definition u8 (z : Z) : Z := z mod 256.
Definition u16 (z : Z) : Z := z mod 65536.

Definition is_byte (z : Z) : bool := (0 <=? z) && (z <? 256).
Definition bytes_ok (l : list Z) : bool := forallb is_byte l.

(** Little-endian bytes of [z] the way the C code writes them:
    byte [i] is [(z >> 8*i) & 0xff]. *)
Fixpoint le_split (n : nat) (z : Z) : list Z :=
  match n with
  | O => []
  | S n' => Z.land z 255 :: le_split n' (Z.shiftr z 8)
  end.

Fixpoint le_combine (l : list Z) : Z :=
  match l with
  | [] => 0
  | b :: l' => b + 256 * le_combine l'
  end.

End Bytes.

(** ** Lemmas of the monad *)

Section MonadLemmas.
Context {S : Type}.

Lemma bind_run {A B} (m : M S A) (k : A -> M S B) s :
  bind m k s = match m s with
               | (Done a, s') => k a s'
               | (Error f, s') => (Error f, s')
               | (OutOfFuel, s') => (OutOfFuel, s')
               end.
Proof. reflexivity. Qed.

Lemma bind_done {A B} (m : M S A) (k : A -> M S B) s a s' :
  m s = (Done a, s') -> bind m k s = k a s'.
Proof. intros Hm. unfold bind. now rewrite Hm. Qed.

Lemma bind_error {A B} (m : M S A) (k : A -> M S B) s f s' :
  m s = (Error f, s') -> bind m k s = (Error f, s').
Proof. intros Hm. unfold bind. now rewrite Hm. Qed.

Lemma bind_oof {A B} (m : M S A) (k : A -> M S B) s s' :
  m s = (OutOfFuel, s') -> bind m k s = (OutOfFuel, s').
Proof. intros Hm. unfold bind. now rewrite Hm. Qed.

Lemma bind_assoc {A B C} (m : M S A) (k : A -> M S B) (h : B -> M S C) s :
  bind (bind m k) h s = bind m (fun a => bind (k a) h) s.
Proof. unfold bind. destruct (m s) as [[a| |] s']; reflexivity. Qed.

Lemma bind_ret_l {A B} (a : A) (k : A -> M S B) s : bind (ret a) k s = k a s.
Proof. reflexivity. Qed.

Lemma bind_fail {A B} f (k : A -> M S B) s : bind (fail f) k s = (Error f, s).
Proof. reflexivity. Qed.

Lemma bind_out_of_fuel {A B} (k : A -> M S B) s : bind out_of_fuel k s = (OutOfFuel, s).
Proof. reflexivity. Qed.

Lemma bind_ext {A B} (m : M S A) (k1 k2 : A -> M S B) s :
  (forall a s', k1 a s' = k2 a s') -> bind m k1 s = bind m k2 s.
Proof. intros Hk. unfold bind. destruct (m s) as [[] ?]; auto. Qed.

Lemma bind_catch {A B} (m : M S A) h (k : A -> M S B) s :
  bind (catch m h) k s =
  match m s with
  | (Done a, s') => k a s'
  | (Error f, s') => bind (h f) k s'
  | (OutOfFuel, s') => (OutOfFuel, s')
  end.
Proof. unfold bind, catch. destruct (m s) as [[] ?]; reflexivity. Qed.

Lemma catch_run {A} (m : M S A) h s :
  catch m h s = match fst (m s) with
                | Error f => h f (snd (m s))
                | r => (r, snd (m s))
                end.
Proof. unfold catch. destruct (m s) as [[] ?]; reflexivity. Qed.
End MonadLemmas.

#[export] Hint Resolve bind_done bind_error bind_oof : usb.

(** ** Lemmas on bytes *)

Section ByteLemmas.
Local Open Scope Z_scope.

Lemma is_byte_spec z : is_byte z = true <-> 0 <= z < 256.
Proof. unfold is_byte. rewrite andb_true_iff, Z.leb_le, Z.ltb_lt. lia. Qed.

Lemma bytes_ok_cons b l :
  bytes_ok (b :: l) = true <-> 0 <= b < 256 /\ bytes_ok l = true.
Proof. unfold bytes_ok. simpl. rewrite andb_true_iff, is_byte_spec. tauto. Qed.

Lemma bytes_ok_app l1 l2 :
  bytes_ok (l1 ++ l2) = true <-> bytes_ok l1 = true /\ bytes_ok l2 = true.
Proof. unfold bytes_ok. rewrite forallb_app, andb_true_iff. tauto. Qed.

Lemma bytes_ok_app_intro l1 l2 :
  bytes_ok l1 = true -> bytes_ok l2 = true -> bytes_ok (l1 ++ l2) = true.
Proof. intros. now apply bytes_ok_app. Qed.

Lemma bytes_ok_take n l : bytes_ok l = true -> bytes_ok (take n l) = true.
Proof. rewrite <- (take_drop n l) at 1. intros Hl. now apply bytes_ok_app in Hl. Qed.

Lemma bytes_ok_drop n l : bytes_ok l = true -> bytes_ok (drop n l) = true.
Proof. rewrite <- (take_drop n l) at 1. intros Hl. now apply bytes_ok_app in Hl. Qed.

Lemma land_255 z : Z.land z 255 = z mod 256.
Proof. change 255 with (Z.ones 8). now rewrite Z.land_ones by lia. Qed.

Lemma shiftr_8 z : Z.shiftr z 8 = z / 256.
Proof. now rewrite Z.shiftr_div_pow2 by lia. Qed.

Lemma u8_range z : 0 <= u8 z < 256.
Proof. unfold u8. apply Z.mod_pos_bound. lia. Qed.

Lemma u16_range z : 0 <= u16 z < 65536.
Proof. unfold u16. apply Z.mod_pos_bound. lia. Qed.

Lemma length_le_split n z : length (le_split n z) = n.
Proof. revert z. induction n; intros z; simpl; auto. Qed.

Lemma le_split_bytes n z : bytes_ok (le_split n z) = true.
Proof.
  revert z. induction n as [|n IH]; intros z; [reflexivity|].
  simpl le_split. apply bytes_ok_cons. split; [|apply IH].
  rewrite land_255. apply Z.mod_pos_bound. lia.
Qed.

(** Combining the split bytes gives [z] modulo [2^(8n)]. *)
Lemma le_combine_split n z :
  le_combine (le_split n z) = z mod 2 ^ (8 * Z.of_nat n).
Proof.
  revert z. induction n as [|n IH]; intros z; simpl le_split; simpl le_combine.
  - now rewrite Z.mod_1_r.
  - rewrite IH, land_255, shiftr_8.
    replace (8 * Z.of_nat (S n)) with (8 + 8 * Z.of_nat n) by lia.
    rewrite Z.pow_add_r by lia. change (2 ^ 8) with 256.
    rewrite Z.rem_mul_r; [reflexivity | lia | apply Z.pow_pos_nonneg; lia].
Qed.

(** Splitting the combination of a byte list gives the list back. *)
Lemma le_split_combine l :
  bytes_ok l = true -> le_split (length l) (le_combine l) = l.
Proof.
  induction l as [|b l IH]; intros Hl; [reflexivity|].
  apply bytes_ok_cons in Hl as [Hb Hl].
  simpl length. simpl le_split. simpl le_combine.
  rewrite land_255, shiftr_8, (Z.mul_comm 256 (le_combine l)).
  rewrite Z.mod_add, Z.div_add, Z.mod_small, Z.div_small by lia.
  simpl Z.add. rewrite Z.add_0_l. now rewrite IH.
Qed.
End ByteLemmas.


(** A single-bit mask: [(a & (1 << n)) == 0] tests bit [n]. *)
Lemma land_pow2_eqb (a n : Z) : (0 <= n)%Z -> (Z.land a (2 ^ n) =? 0)%Z = negb (Z.testbit a n).
Proof.
  intros Hn. destruct (Z.testbit a n) eqn:E; simpl.
  - apply Z.eqb_neq. intros H0.
    assert (Hb : Z.testbit (Z.land a (2 ^ n)) n = true)
      by (rewrite Z.land_spec, E, Z.pow2_bits_true by lia; reflexivity).
    rewrite H0, Z.testbit_0_l in Hb. discriminate.
  - apply Z.eqb_eq, Z.bits_inj'. intros m Hm.
    rewrite Z.land_spec, Z.testbit_0_l, Z.pow2_bits_eqb by lia.
    destruct (Z.eqb_spec n m) as [<-|]; [rewrite E|]; apply andb_false_r || apply andb_false_l.
Qed.

(** A divisor [clock / baud] passed in a [uint16_t] arrives unchanged
    exactly from the least baud rate [lo] whose quotient fits 16 bits. *)
Lemma u16_quot_threshold (clock baud lo : Z) :
  (0 <= clock -> 0 < baud -> 1 < lo -> clock / lo < 65536 -> 65536 <= clock / (lo - 1) ->
   u16 (Z.quot clock baud) = clock / baud <-> lo <= baud)%Z.
Proof.
  intros Hc Hb Hlo Hfit Hover. unfold u16. rewrite Z.quot_div_nonneg by lia.
  split.
  - intros E. destruct (Z.le_gt_cases lo baud) as [|Hlt]; [assumption|].
    pose proof (Z.mod_pos_bound (clock / baud) 65536 ltac:(lia)) as Hm. rewrite E in Hm.
    pose proof (Z.div_le_compat_l clock baud (lo - 1) Hc ltac:(lia)). lia.
  - intros Hge. apply Z.mod_small. split; [apply Z.div_pos; lia|].
    pose proof (Z.div_le_compat_l clock lo baud Hc ltac:(lia)). lia.
Qed.

#[export] Hint Resolve u8_range u16_range le_split_bytes bytes_ok_take bytes_ok_drop bytes_ok_app_intro : usb.
#[export] Hint Rewrite length_le_split le_combine_split : usb_rw.

(** Decide the boolean integer comparisons of a goal by cases, then close
    every case by computation or by [lia]. *)
Ltac zbool :=
  repeat match goal with
  | |- context [Z.gtb ?a ?b] => rewrite (Z.gtb_ltb a b)
  | |- context [Z.geb ?a ?b] => rewrite (Z.geb_leb a b)
  | |- context [Z.ltb ?a ?b] => destruct (Z.ltb_spec a b)
  | |- context [Z.leb ?a ?b] => destruct (Z.leb_spec a b)
  | |- context [Z.eqb ?a ?b] => destruct (Z.eqb_spec a b)
  end.

Ltac zdecide := zbool; first [reflexivity | exfalso; lia | lia].
