(* ===== verification/Usb.v ===== *)
(** * The environment of the transport layer: libusb, the clock, the files

    Every function of libusb the backends call, and the few C library and
    operating-system calls they make ([malloc], [time], [delay_ms],
    [getenv], [fopen], the Intel-HEX decoder), is a constructor of
    [call A], where [A] is the type of its answer.  A host is an instance of
    [UsbHost W]: how a world [W] answers a call.  A modelled C function
    runs in [M (sys W T) A], where [sys] holds the world, the trace of the
    calls made with their answers, and the backend's struct [T].  The loops
    the backends share are defined here once. *)

From S2P Require Import Prelude.
From stdpp Require Import strings.

Local Open Scope Z_scope.
Local Open Scope usb_scope.

(** ** libusb data *)

Definition device := N.   (** [struct libusb_device *] *)
Definition handle := N.   (** [struct libusb_device_handle *]; NULL is [None] *)
Definition file := N.     (** [FILE *] *)

Record device_descriptor := mk_device_descriptor {
  idVendor : Z;
  idProduct : Z;
  bNumConfigurations : Z;
  iSerialNumber : Z
}.

Record endpoint_descriptor := mk_endpoint_descriptor {
  bEndpointAddress : Z;
  bmAttributes : Z
}.

(** An interface, as its first alternate setting [altsetting[0]]: the only
    one the code reads.  [bNumEndpoints] is the length of [endpoint]. *)
Record interface_descriptor := mk_interface_descriptor {
  bInterfaceNumber : Z;
  bInterfaceClass : Z;
  endpoint : list endpoint_descriptor
}.

(** [bNumInterfaces] is the length of [interface]. *)
Record config_descriptor := mk_config_descriptor {
  bConfigurationValue : Z;
  interface : list interface_descriptor
}.

(** [struct binfile_chunk] of the Intel-HEX decoder: [addr], [len], [data]. *)
Record binfile_chunk := mk_chunk {
  ch_addr : Z;
  ch_len : Z;
  ch_data : list Z
}.

(** The decoder's contract on a chunk: a length that is not negative and
    that its data covers ([memcpy] reads [len] bytes of [data]). *)
Definition chunk_ok (ch : binfile_chunk) : Prop :=
  (0 <= ch_len ch)%Z /\ (Z.to_nat (ch_len ch) <= length (ch_data ch))%nat.

(** libusb and usb.h constants the backends use. *)
Definition LIBUSB_ERROR_TIMEOUT : Z := -7.
Definition USB_ENDPOINT_TYPE_MASK : Z := 3.
Definition USB_ENDPOINT_TYPE_BULK : Z := 2.
Definition USB_ENDPOINT_DIR_MASK : Z := 128.
Definition USB_CLASS_HID : Z := 3.
Definition USB_TYPE_VENDOR : Z := 64.
Definition USB_RECIP_DEVICE : Z := 0.

(** The modem-line bits of [transport_modem_t] ([transport.h]). *)
Definition TRANSPORT_MODEM_DTR : Z := 1.
Definition TRANSPORT_MODEM_RTS : Z := 2.

(** A transfer result is fatal when it is neither success nor a timeout:
    the test [(rc != 0) && (rc != LIBUSB_ERROR_TIMEOUT)] of every backend. *)
Definition fatal (rc : Z) : bool :=
  negb (rc =? 0) && negb (rc =? LIBUSB_ERROR_TIMEOUT).

(** ** Calls *)

Inductive call : Type -> Type :=
| Malloc : call bool
| Init : call Z
| GetDeviceList : call (list device)
| FreeDeviceList (unref : bool) : call unit
| UnrefDevice (d : device) : call unit
| GetDeviceDescriptor (d : device) : call (Z * device_descriptor)
| GetConfigDescriptor (d : device) (index : Z) : call (Z * config_descriptor)
| GetBusNumber (d : device) : call Z
| GetDeviceAddress (d : device) : call Z
| Open (d : device) : call (Z * option handle)
| Close (h : option handle) : call unit
| KernelDriverActive (h : option handle) (intf : Z) : call Z
| DetachKernelDriver (h : option handle) (intf : Z) : call Z
| SetConfiguration (h : option handle) (cfg : Z) : call Z
| ClaimInterface (h : option handle) (intf : Z) : call Z
| ReleaseInterface (h : option handle) (intf : Z) : call Z
| GetDevice (h : option handle) : call device
(** The [handle] field of a struct just returned by [malloc] and never
    written: whatever the allocator's memory holds. *)
| UninitHandle : call (option handle)
(** [libusb_bulk_transfer] to an OUT endpoint: the bytes offered; the answer
    is the return code and the count [transferred]. *)
| BulkOut (h : option handle) (ep : Z) (data : list Z) (timeout : Z) : call (Z * Z)
(** [libusb_bulk_transfer] from an IN endpoint of at most [len] bytes: the
    answer is the return code and the bytes transferred. *)
| BulkIn (h : option handle) (ep : Z) (len : Z) (timeout : Z) : call (Z * list Z)
| ControlTransfer (h : option handle) (reqtype request value index : Z)
    (data : list Z) (timeout : Z) : call Z
| InterruptIn (h : option handle) (ep : Z) (len : Z) (timeout : Z) : call Z
| ClearHalt (h : option handle) (ep : Z) : call Z
| ResetDevice (h : option handle) : call Z
| GetStringDescriptorAscii (h : option handle) (index : Z) (max_len : Z)
    : call (Z * string)
| Time : call Z
| DelayMs (ms : Z) : call unit
| GetEnv (name : string) : call (option string)
| FOpen (path : string) : call (option file)
| FClose (f : file) : call unit
| IhexCheck (f : file) : call bool
(** The chunks the decoder passes to its callback, in order, and whether the
    file decodes to its end. *)
| IhexRead (f : file) : call (list binfile_chunk * bool).

(** A call made, with the answer it got. *)
Inductive event : Type :=
| Ev {A : Type} (c : call A) (r : A).

Class UsbHost (W : Type) := host_step : forall {A : Type}, call A -> W -> A * W.

Record sys (W T : Type) := mk_sys {
  sys_world : W;
  sys_trace : list event;
  sys_tr : T
}.
Arguments mk_sys {W T} _ _ _.
Arguments sys_world {W T} _.
Arguments sys_trace {W T} _.
Arguments sys_tr {W T} _.

Section Primitives.
Context {W : Type} `{UsbHost W} {T : Type}.

(** Make a call: the host answers, the call is appended to the trace. *)
Definition usb {A} (c : call A) : M (sys W T) A :=
  fun s => let (r, w') := host_step c (sys_world s) in
           (Done r, mk_sys w' (sys_trace s ++ [Ev c r]) (sys_tr s)).

(** Read and write the backend's struct. *)
Definition get_tr : M (sys W T) T := fun s => (Done (sys_tr s), s).
Definition set_tr (t : T) : M (sys W T) unit :=
  fun s => (Done tt, mk_sys (sys_world s) (sys_trace s) t).

End Primitives.

(** ** What went over the wire *)

(** The bytes an OUT transfer really moved: the first [transferred] bytes of
    the buffer offered. *)
Definition accepted (e : event) : list Z :=
  match e with
  | Ev c r =>
      match c in call A return A -> list Z with
      | BulkOut _ _ d _ => fun r => take (Z.to_nat (snd r)) d
      | _ => fun _ => []
      end r
  end.

Definition wire_out (tr : list event) : list Z := concat (map accepted tr).

(** Events that are calls of a given kind, used to state that a function
    made no transfer at all. *)
Definition is_transfer (e : event) : bool :=
  match e with
  | Ev (BulkOut _ _ _ _) _ | Ev (BulkIn _ _ _ _) _
  | Ev (ControlTransfer _ _ _ _ _ _ _) _ | Ev (InterruptIn _ _ _ _) _ => true
  | _ => false
  end.

(** The control requests of a trace: [(bRequest, wValue, wIndex)] of
    every [libusb_control_transfer], in order. *)
Definition ctrl (e : event) : list (Z * Z * Z) :=
  match e with
  | Ev (ControlTransfer _ _ req value index _ _) _ => [(req, value, index)]
  | _ => []
  end.

Definition controls (tr : list event) : list (Z * Z * Z) := concat (map ctrl tr).

(** ** Hosts that behave as libusb documents *)

Section HostProperties.
Context {W : Type} `{UsbHost W}.

(** [libusb_bulk_transfer] never reports more bytes than offered. *)
Definition bulk_out_sane : Prop :=
  forall h ep d tmo w,
    0 <= snd (fst (host_step (BulkOut h ep d tmo) w)) <= Z.of_nat (length d).

(** Every OUT transfer of a non-empty buffer either fails fatally or
    moves at least one byte. *)
Definition bulk_out_progress : Prop :=
  forall h ep d tmo w, d <> [] ->
    let r := fst (host_step (BulkOut h ep d tmo) w) in
    fatal (fst r) = true \/ 1 <= snd r.

(** A device with nothing to read: every IN transfer times out. *)
Definition bulk_in_silent : Prop :=
  forall h ep len tmo w,
    fst (fst (host_step (BulkIn h ep len tmo) w)) = LIBUSB_ERROR_TIMEOUT.

(** [time(NULL)] reads a clock of the world that advances by at least a
    second between two readings, and that no call turns back. *)
Definition clock_ticks (clock : W -> Z) : Prop :=
  (forall w, fst (host_step Time w) = clock w /\
             clock w + 1 <= clock (snd (host_step Time w))) /\
  (forall A (c : call A) w, clock w <= clock (snd (host_step c w))).

(** Every control request without a data stage succeeds: it returns 0,
    the number of bytes of its (empty) data stage. *)
Definition control_zero : Prop :=
  forall h rt req v i tmo w, fst (host_step (ControlTransfer h rt req v i [] tmo) w) = 0.

(** libusb's documented answer to a control request that succeeds: the
    number of bytes of its data stage. *)
Definition control_returns_length : Prop :=
  forall h rt req v i d tmo w,
    fst (host_step (ControlTransfer h rt req v i d tmo) w) = Z.of_nat (length d).

(** An IN transfer returns at most the bytes asked for. *)
Definition bulk_in_sane : Prop :=
  forall h ep len tmo w,
    Z.of_nat (length (snd (fst (host_step (BulkIn h ep len tmo) w)))) <= Z.max 0 len.

(** libusb writes [unsigned char]s: every IN transfer delivers bytes. *)
Definition bulk_in_bytes : Prop :=
  forall h ep len tmo w, bytes_ok (snd (fst (host_step (BulkIn h ep len tmo) w))) = true.

(** The Intel-HEX decoder keeps its contract in every world of [P], and no
    call leaves [P]: the file being decoded does not change. *)
Definition ihex_sane (P : W -> Prop) : Prop :=
  (forall A (c : call A) w, P w -> P (snd (host_step c w))) /\
  (forall fh w, P w -> Forall chunk_ok (fst (fst (host_step (IhexRead fh) w)))).

(** [malloc] does not fail. *)
Definition malloc_ok : Prop := forall w, fst (host_step Malloc w) = true.

(** Every control request succeeds, returning a non-negative count. *)
Definition control_ok : Prop :=
  forall h rt req v i d tmo w,
    0 <= fst (host_step (ControlTransfer h rt req v i d tmo) w).

(** The devices' descriptors do not change while the code runs. *)
Definition descriptors_fixed (D : device -> Z * device_descriptor) : Prop :=
  forall d w, fst (host_step (GetDeviceDescriptor d) w) = D d.

(** A bus whose devices stay put while the code runs, in the worlds of
    [P], which every call preserves: the device list, the answer to
    [libusb_get_device_descriptor] and the bus number and address of each
    device. *)
Record bus_view := mk_bus_view {
  bv_devices : list device;
  bv_desc : device -> Z * device_descriptor;
  bv_loc : device -> Z * Z
}.

Definition static_bus (B : bus_view) (P : W -> Prop) : Prop :=
  (forall A (c : call A) w, P w -> P (snd (host_step c w))) /\
  (forall w, P w ->
     fst (host_step GetDeviceList w) = bv_devices B /\
     (forall d, fst (host_step (GetDeviceDescriptor d) w) = bv_desc B d) /\
     (forall d, fst (host_step (GetBusNumber d) w) = fst (bv_loc B d)) /\
     (forall d, fst (host_step (GetDeviceAddress d) w) = snd (bv_loc B d))).
(** Every control request is acknowledged with 0, whatever its data
    stage: the answer the TI3410 and CDC-ACM backends wait for. *)
Definition control_acked : Prop :=
  forall h rt req v i d tmo w, fst (host_step (ControlTransfer h rt req v i d tmo) w) = 0.

(** [libusb_clear_halt] succeeds. *)
Definition halt_ok : Prop := forall h ep w, fst (host_step (ClearHalt h ep) w) = 0.

End HostProperties.

(** ** The send loop of every backend

    [while (len) { rc = libusb_bulk_transfer(h, ep, data, len, &sent, T);
    if ((rc != 0) && (rc != LIBUSB_ERROR_TIMEOUT)) return -1;
    data += sent; len -= sent; } return 0;]
    The CDC-ACM backend tests [len > 0] instead of [len]. *)

Inductive loop_cond := WhileNonZero | WhilePositive.

Definition eval_cond (c : loop_cond) (len : Z) : bool :=
  match c with
  | WhileNonZero => negb (len =? 0)
  | WhilePositive => 0 <? len
  end.

Section SendLoop.
Context {W : Type} `{UsbHost W} {T : Type}.

Fixpoint send_loop (fuel : nat) (c : loop_cond) (h : option handle)
    (ep tmo : Z) (data : list Z) (len : Z) : M (sys W T) unit :=
  match fuel with
  | O => out_of_fuel
  | S fuel' =>
      if eval_cond c len then
        let* (rc, sent) := usb (BulkOut h ep (take (Z.to_nat len) data) tmo) in
        if fatal rc then fail (BulkError rc)
        else send_loop fuel' c h ep tmo (drop (Z.to_nat sent) data) (len - sent)
      else ret tt
  end.
End SendLoop.

(** ** The flush loop of the HID, CDC-ACM and CP210x backends

  [while (libusb_bulk_transfer(h, ep, buf, len, &received, 100) != 0);]
  The loop repeats while the transfer returns an error or a timeout, and
  stops at the first transfer that succeeds. *)

Section FlushLoop.
Context {W : Type} `{UsbHost W} {T : Type}.

Fixpoint flush_loop (fuel : nat) (h : option handle) (ep len tmo : Z)
    : M (sys W T) unit :=
  match fuel with
  | O => out_of_fuel
  | S fuel' =>
      let* (rc, _) := usb (BulkIn h ep len tmo) in
      if rc =? 0 then ret tt else flush_loop fuel' h ep len tmo
  end.

End FlushLoop.

(** ** Resources held

    The handles a trace leaves open and the interfaces it leaves claimed:
    [libusb_open] opens the handle it returns, [libusb_close] closes it and
    drops its claims, a claim that returns 0 holds until it is released. *)

Record ledger := mk_ledger {
  open_handles : list handle;
  claims : list (handle * Z)
}.

Definition ledger_step (l : ledger) (e : event) : ledger :=
  match e with
  | Ev c r =>
      match c in call A return A -> ledger with
      | Open _ => fun r =>
          match snd r with
          | Some h => mk_ledger (h :: open_handles l) (claims l)
          | None => l
          end
      | Close (Some h) => fun _ =>
          mk_ledger (filter (fun h' => negb (N.eqb h' h)) (open_handles l))
                    (filter (fun p => negb (N.eqb (fst p) h)) (claims l))
      | ClaimInterface (Some h) i => fun rc =>
          if rc =? 0 then mk_ledger (open_handles l) ((h, i) :: claims l) else l
      | ReleaseInterface (Some h) i => fun _ =>
          mk_ledger (open_handles l)
                    (filter (fun p => negb (N.eqb (fst p) h && (snd p =? i))) (claims l))
      | _ => fun _ => l
      end r
  end.

Definition held_from (l : ledger) (tr : list event) : ledger := fold_left ledger_step tr l.

Definition nothing_held : ledger := mk_ledger [] [].

(** ** Computations that always return

    The locator and the other functions of the code that report failure by
    a NULL or a flag, never by the error path. *)

Definition returns {W : Type} `{UsbHost W} {T A : Type} (m : M (sys W T) A) : Prop :=
  forall s, exists a s', m s = (Done a, s').

(** ** Computations that leave the backend's struct alone *)

Definition keeps_tr {W : Type} `{UsbHost W} {T A : Type} (m : M (sys W T) A) : Prop :=
  forall s, sys_tr (snd (m s)) = sys_tr s.

(** ** Computations whose events all have a property

    [emits Q m]: whatever [m] does, it only appends events satisfying [Q]
    to the trace.  An event is neutral when it leaves every ledger as it
    is; [keeps_ledger m] ([m] neither opens, closes, claims nor releases)
    is [emits neutral m]. *)

Definition emits {W : Type} `{UsbHost W} {T A : Type} (Q : event -> Prop) (m : M (sys W T) A)
    : Prop :=
  forall s, exists evs, sys_trace (snd (m s)) = sys_trace s ++ evs /\ Forall Q evs.

Definition neutral (e : event) : Prop := forall l, ledger_step l e = l.

Definition keeps_ledger {W : Type} `{UsbHost W} {T A : Type} (m : M (sys W T) A) : Prop :=
  emits neutral m.

(** ** Computations that succeed with a known list of control requests

    [issues m Q L]: from every state, [m] succeeds with an answer
    satisfying [Q], appends exactly the control requests [L] to those of
    the trace, and leaves the backend's struct alone. *)

Definition issues {W : Type} `{UsbHost W} {T A : Type} (m : M (sys W T) A) (Q : A -> Prop)
    (L : list (Z * Z * Z)) : Prop :=
  forall s, exists a s', m s = (Done a, s') /\ Q a /\
    controls (sys_trace s') = controls (sys_trace s) ++ L /\ sys_tr s' = sys_tr s.

(** ** The read loop with a deadline (TI3410, CP210x, FTDI)

    [deadline = time(NULL) + T; while (time(NULL) < deadline) { rc =
    transfer; if fatal return -1; if (accepted) return ...; } return -1;]
    [accept] is the backend's test of a non-fatal transfer. *)

Section ReadLoop.
Context {W : Type} `{UsbHost W} {T : Type}.

Fixpoint read_loop {R : Type} (fuel : nat) (deadline : Z)
    (xfer : M (sys W T) (Z * list Z)) (accept : Z -> list Z -> option R)
    : M (sys W T) R :=
  match fuel with
  | O => out_of_fuel
  | S fuel' =>
      now <- usb Time ;;
      if now <? deadline then
        let* (rc, buf) := xfer in
        if fatal rc then fail (BulkError rc) else
        match accept rc buf with
        | Some r => ret r
        | None => read_loop fuel' deadline xfer accept
        end
      else fail ReadTimeout
  end.

End ReadLoop.

(** * Lemmas *)

Section PrimitiveLemmas.
Context {W : Type} `{UsbHost W} {T : Type}.

Lemma usb_run {A} (c : call A) (s : sys W T) :
  usb c s = (Done (fst (host_step c (sys_world s))),
             mk_sys (snd (host_step c (sys_world s)))
                    (sys_trace s ++ [Ev c (fst (host_step c (sys_world s)))])
                    (sys_tr s)).
Proof. unfold usb. now destruct (host_step c (sys_world s)). Qed.

End PrimitiveLemmas.

Section Steps.
Context {W : Type} `{UsbHost W} {T : Type}.

Lemma bind_usb {A B} (c : call A) (k : A -> M (sys W T) B) s :
  bind (usb c) k s =
  k (fst (host_step c (sys_world s)))
    (mk_sys (snd (host_step c (sys_world s)))
            (sys_trace s ++ [Ev c (fst (host_step c (sys_world s)))])
            (sys_tr s)).
Proof. unfold bind. now rewrite usb_run. Qed.

Lemma bind_get_tr {B} (k : T -> M (sys W T) B) s :
  bind get_tr k s = k (sys_tr s) s.
Proof. reflexivity. Qed.

Lemma bind_set_tr {B} t (k : unit -> M (sys W T) B) s :
  bind (set_tr t) k s = k tt (mk_sys (sys_world s) (sys_trace s) t).
Proof. reflexivity. Qed.
End Steps.

#[export] Hint Rewrite @bind_usb @bind_get_tr @bind_set_tr @bind_ret_l : usb_rw.

(** The modem-control value the CP210x and FTDI backends compute, with
    their constants: both write enables, and the bits of the lines not
    asserted. *)
Lemma inverted_lines state :
  (let value := Z.lor 0x100 0x200 in
   let value := if Z.land state 1 =? 0 then Z.lor value 1 else value in
   if Z.land state 2 =? 0 then Z.lor value 2 else value) =
  0x300 + (if Z.testbit state 0 then 0 else 1) + (if Z.testbit state 1 then 0 else 2).
Proof.
  rewrite (land_pow2_eqb state 0 ltac:(lia) : (Z.land state 1 =? 0) = _).
  rewrite (land_pow2_eqb state 1 ltac:(lia) : (Z.land state 2 =? 0) = _).
  destruct (Z.testbit state 0), (Z.testbit state 1); reflexivity.
Qed.

Lemma controls_cons e evs : controls (e :: evs) = ctrl e ++ controls evs.
Proof. reflexivity. Qed.

Lemma controls_app evs1 evs2 : controls (evs1 ++ evs2) = controls evs1 ++ controls evs2.
Proof. unfold controls. now rewrite map_app, concat_app. Qed.

Lemma wire_out_app tr1 tr2 : wire_out (tr1 ++ tr2) = wire_out tr1 ++ wire_out tr2.
Proof. unfold wire_out. now rewrite map_app, concat_app. Qed.

Lemma wire_out_cons_nil e : wire_out [e] = accepted e.
Proof. unfold wire_out. simpl. now rewrite app_nil_r. Qed.

#[export] Hint Rewrite wire_out_app wire_out_cons_nil : usb_rw.


(** Step through a modelled function: rewrite the binds of calls, then
    name the host's answer to the first call left in the goal. *)
Ltac step_usb :=
  repeat (rewrite ?bind_usb, ?bind_get_tr, ?bind_set_tr, ?bind_ret_l; cbn beta iota);
  lazymatch goal with
  | |- context [host_step ?c ?w] =>
      let E := fresh "Hstep" in
      destruct (host_step c w) as [[] ?] eqn:E || destruct (host_step c w) eqn:E
  end.

Section SendLoopProofs.
Context {W : Type} `{UsbHost W} {T : Type}.

Lemma eval_cond_zero c n : 0 <= n -> eval_cond c n = false -> n = 0.
Proof. destruct c; simpl; intros Hn E; [apply negb_false_iff, Z.eqb_eq in E | apply Z.ltb_ge in E]; lia. Qed.

Lemma eval_cond_0 c : eval_cond c 0 = false.
Proof. now destruct c. Qed.

Lemma take_all_Z (data : list Z) : take (Z.to_nat (Z.of_nat (length data))) data = data.
Proof. rewrite Nat2Z.id. apply firstn_all. Qed.

Lemma length_drop_Z (data : list Z) sent :
  0 <= sent <= Z.of_nat (length data) ->
  Z.of_nat (length data) - sent = Z.of_nat (length (drop (Z.to_nat sent) data)).
Proof. intros. rewrite length_drop. lia. Qed.

(** What the send loop moves, with its outcome. *)
Lemma send_loop_prefix (Hsane : bulk_out_sane) fuel c h ep tmo :
  forall data (s : sys W T) r s',
    send_loop fuel c h ep tmo data (Z.of_nat (length data)) s = (r, s') ->
    exists pre,
      wire_out (sys_trace s') = wire_out (sys_trace s) ++ pre /\
      pre `prefix_of` data /\
      (r = Done tt -> pre = data) /\
      (forall f, r = Error f -> exists rc, f = BulkError rc /\ fatal rc = true).
Proof.
  induction fuel as [|fuel IH]; intros data s r s' Hrun; simpl in Hrun.
  - injection Hrun as <- <-. exists []. rewrite app_nil_r.
    repeat split; [apply prefix_nil | discriminate | discriminate].
  - destruct (eval_cond c (Z.of_nat (length data))) eqn:Ec.
    + rewrite bind_usb, take_all_Z in Hrun.
      pose proof (Hsane h ep data tmo (sys_world s)) as Hs.
      destruct (host_step (BulkOut h ep data tmo) (sys_world s)) as [[rc sent] w'] eqn:E.
      simpl in Hs, Hrun.
      destruct (fatal rc) eqn:Hf.
      * injection Hrun as <- <-. exists (take (Z.to_nat sent) data). simpl.
        rewrite wire_out_app, wire_out_cons_nil. simpl.
        repeat split; [apply prefix_take | discriminate |].
        intros f [= <-]. eauto.
      * rewrite length_drop_Z in Hrun by lia.
        destruct (IH _ _ _ _ Hrun) as (pre & Hw & Hp & Hd & He).
        exists (take (Z.to_nat sent) data ++ pre).
        rewrite Hw. simpl. rewrite wire_out_app, wire_out_cons_nil, <- app_assoc.
        repeat split; auto.
        -- rewrite <- (take_drop (Z.to_nat sent) data) at 2. now apply prefix_app.
        -- intros Hr. rewrite (Hd Hr). apply take_drop.
    + apply eval_cond_zero in Ec; [|lia]. destruct data; [|discriminate].
      injection Hrun as <- <-. exists []. rewrite app_nil_r.
      repeat split; [apply prefix_nil | discriminate].
Qed.

(** C7. The send loop every backend uses moves a prefix of the caller's
    buffer, in order; when it returns 0 the bytes moved are exactly the
    buffer, and it fails only on a fatal (non-timeout) transfer error. *)
Lemma send_loop_wire (Hsane : bulk_out_sane) fuel c h ep tmo :
  forall data (s : sys W T) r s',
    send_loop fuel c h ep tmo data (Z.of_nat (length data)) s = (r, s') ->
    exists pre,
      wire_out (sys_trace s') = wire_out (sys_trace s) ++ pre /\
      pre `prefix_of` data /\
      (r = Done tt -> pre = data) /\
      (forall f, r = Error f -> exists rc, f = BulkError rc /\ fatal rc = true).
Proof. exact (send_loop_prefix Hsane fuel c h ep tmo). Qed.

(** A send loop that returns 0 has put exactly the caller's buffer on the
    wire. *)
Lemma send_loop_done_wire (Hsane : bulk_out_sane) fuel c h ep tmo data (s s' : sys W T) :
  send_loop fuel c h ep tmo data (Z.of_nat (length data)) s = (Done tt, s') ->
  wire_out (sys_trace s') = wire_out (sys_trace s) ++ data.
Proof.
  intros Hrun. destruct (send_loop_prefix Hsane _ _ _ _ _ _ _ _ _ Hrun) as (pre & Hw & _ & Hd & _).
  now rewrite Hw, (Hd eq_refl).
Qed.

(** C25. With a host that moves at least one byte per transfer or fails
    fatally, the send loop returns within [length data + 1] iterations: it
    never runs out of fuel. *)
Lemma send_loop_terminates (Hsane : bulk_out_sane) (Hprog : bulk_out_progress)
    fuel c h ep tmo :
  forall data (s : sys W T),
    (length data < fuel)%nat ->
    fst (send_loop fuel c h ep tmo data (Z.of_nat (length data)) s) <> OutOfFuel.
Proof.
  induction fuel as [|fuel IH]; intros data s Hlt; [lia|]. simpl.
  destruct (eval_cond c (Z.of_nat (length data))) eqn:Ec; [|discriminate].
  rewrite bind_usb, take_all_Z.
  assert (Hne : data <> []) by (intros ->; now rewrite eval_cond_0 in Ec).
  pose proof (Hsane h ep data tmo (sys_world s)) as Hs.
  pose proof (Hprog h ep data tmo (sys_world s) Hne) as Hp.
  destruct (host_step (BulkOut h ep data tmo) (sys_world s)) as [[rc sent] w'] eqn:E.
  simpl in Hs, Hp |- *. destruct (fatal rc) eqn:Hf; [discriminate|].
  destruct Hp as [Hp|Hp]; [discriminate|].
  rewrite length_drop_Z by lia. apply IH. rewrite length_drop. lia.
Qed.
End SendLoopProofs.

Section FlushLoopProofs.
Context {W : Type} `{UsbHost W} {T : Type}.

(** C26. The flush loop [while (libusb_bulk_transfer(...) != 0);] never
    returns on a device with nothing to read: every read times out, and no
    fuel is enough. *)
Lemma flush_loop_silent (Hsil : bulk_in_silent) fuel h ep len tmo :
  forall s : sys W T, fst (flush_loop fuel h ep len tmo s) = OutOfFuel.
Proof.
  induction fuel as [|fuel IH]; intros s; [reflexivity|]. simpl.
  rewrite bind_usb. specialize (Hsil h ep len tmo (sys_world s)).
  destruct (host_step (BulkIn h ep len tmo) (sys_world s)) as [[rc d] w'].
  simpl in Hsil |- *. subst rc. apply IH.
Qed.

(** C27. When the flush loop returns, it made reads that failed or timed out
    and then exactly one successful read: it discards one transfer, not all
    the data pending. *)
Lemma flush_loop_done fuel h ep len tmo :
  forall (s s' : sys W T),
    flush_loop fuel h ep len tmo s = (Done tt, s') ->
    exists failed d,
      Forall (fun x => fst x <> 0) failed /\
      sys_trace s' = sys_trace s ++
        map (fun x => Ev (BulkIn h ep len tmo) x) failed ++
        [Ev (BulkIn h ep len tmo) (0, d)].
Proof.
  induction fuel as [|fuel IH]; intros s s' Hrun; [discriminate|].
  simpl in Hrun. rewrite bind_usb in Hrun.
  destruct (host_step (BulkIn h ep len tmo) (sys_world s)) as [[rc d] w'] eqn:E.
  simpl in Hrun. destruct (rc =? 0) eqn:Hrc.
  - apply Z.eqb_eq in Hrc. subst rc. injection Hrun as <-.
    exists [], d. split; [constructor|]. reflexivity.
  - apply IH in Hrun as (failed & d' & Hf & Ht).
    exists ((rc, d) :: failed), d'. split.
    + constructor; [simpl; now apply Z.eqb_neq|exact Hf].
    + rewrite Ht. simpl. now rewrite <- app_assoc.
Qed.
End FlushLoopProofs.

Section ReadLoopDone.
Context {W : Type} `{UsbHost W} {T : Type} {R : Type}.

(** The result of the loop is the answer of its last transfer, which the
    backend's test accepted. *)
Lemma read_loop_done deadline xfer (accept : Z -> list Z -> option R) :
  forall fuel (s s' : sys W T) r,
    read_loop fuel deadline xfer accept s = (Done r, s') ->
    exists s1 rc buf, xfer s1 = (Done (rc, buf), s') /\ fatal rc = false /\
      accept rc buf = Some r.
Proof.
  intros fuel. induction fuel as [|fuel IH]; intros s s' r Hrun; [discriminate|].
  cbn [read_loop] in Hrun. rewrite bind_usb in Hrun.
  destruct (_ <? deadline); [|discriminate]. unfold bind in Hrun.
  match type of Hrun with context [xfer ?s1] =>
    destruct (xfer s1) as [[[rc buf]| |] s2] eqn:E end; try discriminate.
  destruct (fatal rc) eqn:Hf; [discriminate|].
  destruct (accept rc buf) eqn:Ha.
  - unfold ret in Hrun. injection Hrun as -> ->. exact (ex_intro _ _ (ex_intro _ rc (ex_intro _ buf (conj E (conj Hf Ha))))).
  - eauto.
Qed.
End ReadLoopDone.

Section ReadLoopProofs.
Context {W : Type} `{UsbHost W} {T : Type} {R : Type}.
Variable clock : W -> Z.
Hypothesis Hclk : clock_ticks clock.

(** A transfer that returns and does not turn the clock back. *)
Definition xfer_ok (xfer : M (sys W T) (Z * list Z)) : Prop :=
  forall s, fst (xfer s) <> OutOfFuel /\
            clock (sys_world s) <= clock (sys_world (snd (xfer s))).

(** One iteration: the clock is read, then, before the deadline, the
    transfer runs in a world at least a second later. *)
Lemma read_loop_step fuel deadline xfer (accept : Z -> list Z -> option R)
    (s : sys W T) :
  read_loop (S fuel) deadline xfer accept s =
  let now := clock (sys_world s) in
  let s1 := mk_sys (snd (host_step Time (sys_world s)))
                   (sys_trace s ++ [Ev Time now]) (sys_tr s) in
  if now <? deadline then
    bind xfer (fun x => let (rc, buf) := x in
      if fatal rc then fail (BulkError rc) else
      match accept rc buf with
      | Some r => ret r
      | None => read_loop fuel deadline xfer accept
      end) s1
  else (Error ReadTimeout, s1).
Proof.
  cbn [read_loop]. rewrite bind_usb. destruct Hclk as [Ht _].
  destruct (Ht (sys_world s)) as [Hnow _].
  destruct (host_step Time (sys_world s)) as [now w1] eqn:E. simpl in Hnow |- *.
  subst now. destruct (_ <? deadline); reflexivity.
Qed.

Lemma clock_after_time (s : sys W T) :
  clock (sys_world s) + 1 <= clock (snd (host_step Time (sys_world s))).
Proof. destruct Hclk as [Ht _]. apply Ht. Qed.

Lemma usb_xfer_ok (c : call (Z * list Z)) : xfer_ok (usb c).
Proof.
  intros s. rewrite usb_run. simpl. split; [congruence|]. apply (proj2 Hclk).
Qed.

(** The fuel the deadline loop needs. *)
Lemma read_loop_fuel deadline xfer (accept : Z -> list Z -> option R) :
  xfer_ok xfer ->
  forall fuel (s : sys W T), Z.max 0 (deadline - clock (sys_world s)) < Z.of_nat fuel ->
    fst (read_loop fuel deadline xfer accept s) <> OutOfFuel.
Proof.
  intros Hx fuel. induction fuel as [|fuel IH]; intros s Hf; [lia|].
  rewrite read_loop_step. cbv zeta. pose proof (clock_after_time s) as Hc.
  destruct (_ <? deadline) eqn:Hd; [|cbn; congruence]. unfold bind.
  match goal with |- context [xfer ?s1] => destruct (Hx s1) as [Hn Hm];
    destruct (xfer s1) as [[[rc buf]| |] s2] eqn:E end; simpl in Hn, Hm |- *;
    [|congruence|congruence].
  destruct (fatal rc); [cbn; congruence|]. destruct (accept rc buf); [cbn; congruence|].
  apply IH. apply Z.ltb_lt in Hd. lia.
Qed.

(** C24. The deadline loop of [recv] ends: with one iteration of fuel per
    second left before the deadline, and one more, it never runs out of
    fuel, whatever the device answers. *)
Theorem read_loop_terminates deadline xfer (accept : Z -> list Z -> option R) :
  xfer_ok xfer ->
  forall fuel (s : sys W T), Z.max 0 (deadline - clock (sys_world s)) < Z.of_nat fuel ->
    fst (read_loop fuel deadline xfer accept s) <> OutOfFuel.
Proof. exact (read_loop_fuel deadline xfer accept). Qed.

(** On a device that never gives an accepted answer, the loop reports the
    deadline, [ReadTimeout], once enough fuel is given. *)
Lemma read_loop_timeout deadline xfer (accept : Z -> list Z -> option R) :
  (forall s, exists rc buf, fst (xfer s) = Done (rc, buf) /\ fatal rc = false /\
     accept rc buf = None /\ clock (sys_world s) <= clock (sys_world (snd (xfer s)))) ->
  forall fuel (s : sys W T), Z.max 0 (deadline - clock (sys_world s)) < Z.of_nat fuel ->
    fst (read_loop fuel deadline xfer accept s) = Error ReadTimeout.
Proof.
  intros Hx fuel. induction fuel as [|fuel IH]; intros s Hf; [lia|].
  rewrite read_loop_step. cbv zeta. pose proof (clock_after_time s) as Hc.
  destruct (_ <? deadline) eqn:Hd; [|reflexivity]. unfold bind.
  match goal with |- context [xfer ?s1] => destruct (Hx s1) as (rc & buf & Hd1 & Hf1 & Ha & Hm);
    destruct (xfer s1) as [o s2] eqn:E end; simpl in Hd1, Hm |- *. subst o.
  rewrite Hf1, Ha. apply IH. apply Z.ltb_lt in Hd. lia.
Qed.
End ReadLoopProofs.

Section KeepsTr.
Context {W : Type} `{UsbHost W} {T : Type}.

Lemma keeps_tr_ret {A} (a : A) : keeps_tr (T := T) (ret a).
Proof. intros s. reflexivity. Qed.

Lemma keeps_tr_fail {A} f : keeps_tr (T := T) (A := A) (fail f).
Proof. intros s. reflexivity. Qed.

Lemma keeps_tr_oof {A} : keeps_tr (T := T) (A := A) out_of_fuel.
Proof. intros s. reflexivity. Qed.

Lemma keeps_tr_usb {A} (c : call A) : keeps_tr (T := T) (usb c).
Proof. intros s. now rewrite usb_run. Qed.

Lemma keeps_tr_get : keeps_tr (T := T) get_tr.
Proof. intros s. reflexivity. Qed.

Lemma keeps_tr_run {A} (m : M (sys W T) A) s o s' :
  keeps_tr m -> m s = (o, s') -> sys_tr s' = sys_tr s.
Proof. intros Hk E. specialize (Hk s). now rewrite E in Hk. Qed.

Lemma keeps_tr_bind {A B} (m : M (sys W T) A) (k : A -> M (sys W T) B) :
  keeps_tr m -> (forall a, keeps_tr (k a)) -> keeps_tr (bind m k).
Proof.
  intros Hm Hk s. specialize (Hm s). unfold bind.
  destruct (m s) as [[a| |] s'] eqn:E; simpl in *; [rewrite Hk|..]; exact Hm.
Qed.
End KeepsTr.

#[export] Hint Resolve keeps_tr_ret keeps_tr_fail keeps_tr_oof keeps_tr_usb keeps_tr_get : usb.

(** Prove [keeps_tr] of a composed computation, case by case. *)
Ltac solve_keeps :=
  repeat first
    [ apply keeps_tr_bind; [| intros [? ?] || intros ?]
    | apply keeps_tr_ret | apply keeps_tr_fail | apply keeps_tr_oof
    | apply keeps_tr_usb | apply keeps_tr_get
    | match goal with |- keeps_tr (if ?b then _ else _) => destruct b end
    | match goal with |- keeps_tr (when ?b _) => destruct b; cbn [when] end
    | match goal with |- keeps_tr (match ?x with _ => _ end) => destruct x end ].

Section LoopsKeep.
Context {W : Type} `{UsbHost W} {T : Type}.

Lemma send_loop_keeps fuel c h ep tmo data len :
  keeps_tr (T := T) (send_loop fuel c h ep tmo data len).
Proof.
  revert data len. induction fuel as [|fuel IH]; intros data len; simpl; solve_keeps; auto.
Qed.

Lemma flush_loop_keeps fuel h ep len tmo :
  keeps_tr (T := T) (flush_loop fuel h ep len tmo).
Proof. induction fuel as [|fuel IH]; simpl; solve_keeps; auto. Qed.
End LoopsKeep.

#[export] Hint Resolve send_loop_keeps flush_loop_keeps : usb.

(** Run a hypothesis [H : m s = (r, s')] forward by one step: a call is
    answered by the host (the answer is named and a pair is split), a
    condition or an option is split into its cases, a sub-computation is
    split into its outcomes. *)
Ltac split_answer r :=
  lazymatch type of r with
  | (_ * _)%type => let a := fresh "a" in let b := fresh "b" in destruct r as [a b]
  | unit => destruct r
  | _ => idtac
  end.

Ltac step_in H :=
  cbn beta iota zeta delta [sys_world sys_trace sys_tr] in H;
  lazymatch type of H with
  | bind get_tr _ _ = _ => rewrite bind_get_tr in H
  | bind (set_tr _) _ _ = _ => rewrite bind_set_tr in H
  | bind (ret _) _ _ = _ => rewrite bind_ret_l in H
  | bind (fail _) _ _ = _ => rewrite bind_fail in H
  | bind out_of_fuel _ _ = _ => rewrite bind_out_of_fuel in H
  | bind (bind _ _) _ _ = _ => rewrite bind_assoc in H
  | bind (usb ?c) ?k ?s = _ =>
      rewrite (bind_usb c k s) in H;
      let r := fresh "r" in let w := fresh "w" in let E := fresh "Hc" in
      destruct (host_step c (sys_world s)) as [r w] eqn:E; cbn [fst snd] in H;
      split_answer r
  | usb ?c ?s = _ =>
      rewrite (usb_run c s) in H;
      let r := fresh "r" in let w := fresh "w" in let E := fresh "Hc" in
      destruct (host_step c (sys_world s)) as [r w] eqn:E; cbn [fst snd] in H
  | bind (if ?b then _ else _) _ _ = _ => destruct b eqn:?
  | (if ?b then _ else _) _ = _ => destruct b eqn:?
  | bind (match ?x with None => _ | Some _ => _ end) _ _ = _ => destruct x eqn:?
  | bind (match ?x with Some _ => _ | None => _ end) _ _ = _ => destruct x eqn:?
  | (match ?x with None => _ | Some _ => _ end) _ = _ => destruct x eqn:?
  | (match ?x with Some _ => _ | None => _ end) _ = _ => destruct x eqn:?
  | bind (match ?x with Done _ => _ | Error _ => _ | OutOfFuel => _ end) _ _ = _ =>
      destruct x eqn:?
  | (match ?x with Done _ => _ | Error _ => _ | OutOfFuel => _ end) _ = _ => destruct x eqn:?
  | bind (when ?b _) _ _ = _ => destruct b eqn:?; cbn [when] in H
  | bind (match ?x with (_, _) => _ end) _ _ = _ =>
      let a := fresh "a" in let b := fresh "b" in destruct x as [a b] eqn:?
  | (match ?x with (_, _) => _ end) _ = _ =>
      let a := fresh "a" in let b := fresh "b" in destruct x as [a b] eqn:?
  | bind (catch ?m ?h) ?k ?s = _ =>
      let E := fresh "Hm" in let o := fresh "o" in let s1 := fresh "s" in
      rewrite (bind_catch m h k s) in H; destruct (m s) as [o s1] eqn:E;
      destruct o
  | catch ?m ?h ?s = _ =>
      let E := fresh "Hm" in let o := fresh "o" in let s1 := fresh "s" in
      unfold catch at 1 in H; destruct (m s) as [o s1] eqn:E;
      destruct o
  | bind ?m ?k ?s = _ =>
      let E := fresh "Hm" in let o := fresh "o" in let s1 := fresh "s" in
      unfold bind at 1 in H; destruct (m s) as [o s1] eqn:E;
      destruct o
  | ret _ _ = _ => unfold ret in H
  | set_tr _ _ = _ => unfold set_tr in H
  | get_tr _ = _ => unfold get_tr in H
  | fail _ _ = _ => unfold fail in H
  end.

(** Run [H] until it is solved by a mismatch of outcomes or cannot move. *)
Ltac run_in H := repeat (first [discriminate H | step_in H]).

(** Carry a predicate [P] on worlds that every call preserves ([Hpres])
    along the [host_step] equations [run_in] left. *)
Ltac carry_inv P Hpres :=
  repeat match goal with
  | Hc : host_step ?c ?w0 = (_, ?w), Hp : P ?w0 |- _ =>
      lazymatch goal with
      | _ : P w |- _ => fail
      | _ => let Hw := fresh "Hp" in
             pose proof (Hpres _ c w0 Hp) as Hw; rewrite Hc in Hw; cbn [snd] in Hw
      end
  end.

(** Reduce the struct accesses and the [ret] of a goal's computation. *)
Ltac simpl_binds :=
  repeat progress (rewrite ?bind_assoc, ?bind_get_tr, ?bind_set_tr, ?bind_ret_l;
                   cbn [sys_tr sys_world sys_trace]).

Section Returns.
Context {W : Type} `{UsbHost W} {T : Type}.

Lemma returns_ret {A} (a : A) : returns (T := T) (ret a).
Proof. intros s. eauto. Qed.

Lemma returns_usb {A} (c : call A) : returns (T := T) (usb c).
Proof. intros s. rewrite usb_run. eauto. Qed.

Lemma returns_get : returns (T := T) get_tr.
Proof. intros s. eauto. Qed.

Lemma returns_set t : returns (T := T) (set_tr t).
Proof. intros s. eexists _, _. reflexivity. Qed.

Lemma returns_bind {A B} (m : M (sys W T) A) (k : A -> M (sys W T) B) :
  returns m -> (forall a, returns (k a)) -> returns (bind m k).
Proof.
  intros Hm Hk s. destruct (Hm s) as (a & s1 & E).
  unfold bind. rewrite E. apply Hk.
Qed.
End Returns.

Ltac solve_returns :=
  repeat first
    [ apply returns_bind; [| intros [? ?] || intros ?]
    | apply returns_ret | apply returns_usb | apply returns_get | apply returns_set
    | match goal with |- returns (if ?b then _ else _) => destruct b end
    | match goal with |- returns (match ?x with _ => _ end) => destruct x end ].

Section Issues.
Context {W : Type} `{UsbHost W} {T : Type}.

Lemma issues_ret {A} (a : A) (Q : A -> Prop) : Q a -> issues (T := T) (ret a) Q [].
Proof. intros Ha s. exists a, s. rewrite app_nil_r. auto. Qed.

Lemma issues_get : issues (T := T) get_tr (fun _ => True) [].
Proof. intros s. exists (sys_tr s), s. rewrite app_nil_r. auto. Qed.

(** A call whose answer the host fixes. *)
Lemma issues_usb_const {A} (c : call A) r :
  (forall w, fst (host_step c w) = r) -> issues (T := T) (usb c) (eq r) (ctrl (Ev c r)).
Proof.
  intros Hc s. rewrite usb_run, Hc. eexists _, _. split; [reflexivity|].
  cbn [sys_trace sys_tr]. rewrite controls_app, controls_cons, app_nil_r. auto.
Qed.

Lemma issues_control h rt req v i d tmo r :
  (forall w, fst (host_step (ControlTransfer h rt req v i d tmo) w) = r) ->
  issues (T := T) (usb (ControlTransfer h rt req v i d tmo)) (eq r) [(req, v, i)].
Proof. apply issues_usb_const. Qed.

(** A call that is not a control request, whatever its answer. *)
Lemma issues_usb {A} (c : call A) :
  (forall r, ctrl (Ev c r) = []) -> issues (T := T) (usb c) (fun _ => True) [].
Proof.
  intros Hc s. rewrite usb_run. eexists _, _. split; [reflexivity|].
  cbn [sys_trace sys_tr]. rewrite controls_app, controls_cons, Hc. auto.
Qed.

(** A call that is not a control request, with an answer the host fixes. *)
Lemma issues_usb_eq {A} (c : call A) r :
  (forall w, fst (host_step c w) = r) -> (forall r', ctrl (Ev c r') = []) ->
  issues (T := T) (usb c) (eq r) [].
Proof. intros Hc Hn. rewrite <- (Hn r). now apply issues_usb_const. Qed.

Lemma issues_bind {A B} (m : M (sys W T) A) (k : A -> M (sys W T) B) Q R L1 L2 :
  issues m Q L1 -> (forall a, Q a -> issues (k a) R L2) -> issues (bind m k) R (L1 ++ L2).
Proof.
  intros Hm Hk s. destruct (Hm s) as (a & s1 & E & Ha & Hc1 & Ht1).
  destruct (Hk a Ha s1) as (b & s2 & E2 & Hb & Hc2 & Ht2).
  exists b, s2. unfold bind. rewrite E. rewrite Hc2, Hc1, app_assoc. repeat split; congruence.
Qed.

Lemma issues_conseq {A} (m : M (sys W T) A) (Q Q' : A -> Prop) L L' :
  issues m Q L -> (forall a, Q a -> Q' a) -> L = L' -> issues m Q' L'.
Proof.
  intros Hm HQ <- s. destruct (Hm s) as (a & s' & ? & ? & ?). exists a, s'. auto.
Qed.
End Issues.

(** Build [issues] of a composed computation, call by call; the requests
    are collected in an existential and compared at the end. *)
Ltac solve_issues :=
  repeat first
    [ eapply issues_bind; [| intros ? ?]
    | apply issues_get
    | apply issues_ret; solve [trivial | exact I]
    | match goal with H : ?a = ?b |- _ => subst a || subst b end
    | match goal with |- issues (if ?b then _ else _) _ _ => destruct b eqn:? end ].

Lemma held_from_app l tr1 tr2 : held_from l (tr1 ++ tr2) = held_from (held_from l tr1) tr2.
Proof. unfold held_from. apply fold_left_app. Qed.

Lemma held_from_neutral l evs : Forall neutral evs -> held_from l evs = l.
Proof.
  intros Hn. revert l. induction Hn as [|e evs He _ IH]; intros l; [reflexivity|].
  unfold held_from in *. cbn [fold_left]. now rewrite He, IH.
Qed.

Section Emits.
Context {W : Type} `{UsbHost W} {T : Type}.
Variable Q : event -> Prop.

Lemma emits_pure {A} (m : M (sys W T) A) :
  (forall s, sys_trace (snd (m s)) = sys_trace s) -> emits Q m.
Proof. intros Hm s. exists []. rewrite Hm, app_nil_r. auto. Qed.

Lemma emits_usb {A} (c : call A) : (forall r, Q (Ev c r)) -> emits (T := T) Q (usb c).
Proof. intros Hc s. rewrite usb_run. eexists. split; [reflexivity|]. auto. Qed.

Lemma emits_bind {A B} (m : M (sys W T) A) (k : A -> M (sys W T) B) :
  emits Q m -> (forall a, emits Q (k a)) -> emits Q (bind m k).
Proof.
  intros Hm Hk s. destruct (Hm s) as (evs & E & Hn). unfold bind.
  destruct (m s) as [[a| |] s'] eqn:Em; cbn [snd] in *; [|eauto..].
  destruct (Hk a s') as (evs' & E' & Hn'). exists (evs ++ evs').
  rewrite E', E, app_assoc. auto using Forall_app_2.
Qed.

Lemma emits_catch {A} (m : M (sys W T) A) (h : failure -> M (sys W T) A) :
  emits Q m -> (forall f, emits Q (h f)) -> emits Q (catch m h).
Proof.
  intros Hm Hh s. destruct (Hm s) as (evs & E & Hn). unfold catch.
  destruct (m s) as [[a|f|] s'] eqn:Em; cbn [snd] in *; [eauto| |eauto].
  destruct (Hh f s') as (evs' & E' & Hn'). exists (evs ++ evs').
  rewrite E', E, app_assoc. auto using Forall_app_2.
Qed.

(** The events of a run of [m]. *)
Lemma emits_run {A} (m : M (sys W T) A) s o s' :
  emits Q m -> m s = (o, s') -> exists evs, sys_trace s' = sys_trace s ++ evs /\ Forall Q evs.
Proof. intros Hm E. destruct (Hm s) as (evs & Ht & Hq). rewrite E in Ht. eauto. Qed.
End Emits.


(** Prove [emits] of a composed computation, call by call; [tac] proves
    the property of the event of each call. *)
Ltac solve_emits_with tac :=
  repeat first
    [ apply emits_bind; [| intros [? ?] || intros ?]
    | apply emits_catch; [| intros ?]
    | apply emits_usb; intros ?; tac
    | apply emits_pure; intros ?; reflexivity
    | match goal with |- emits _ (if ?b then _ else _) => destruct b end
    | match goal with |- emits _ (when ?b _) => destruct b; cbn [when] end
    | match goal with |- emits _ (match ?x with _ => _ end) => destruct x end ].

Ltac solve_keeps_ledger := unfold keeps_ledger; solve_emits_with ltac:(intros ?; reflexivity).
