(* ===== verification/FakeHost.v ===== *)
(** * A fake device and locator layer

    One concrete host: a list of devices with their descriptors and serial
    strings, a queue of inbound bulk transfers, a clock that advances by one
    second at every [time] call, an environment variable and a file system
    for the firmware search.  Every transfer out is accepted whole; a read
    from an empty queue times out.  The witnesses of the development run
    on it. *)

From S2P Require Import Prelude Usb.
From stdpp Require Import strings.

Local Open Scope Z_scope.

Record fake_device := mk_fake_device {
  fd_bus : Z;
  fd_addr : Z;
  fd_desc : device_descriptor;
  fd_config : config_descriptor;
  fd_serial : string
}.

Record fake := mk_fake {
  fk_devices : list fake_device;    (** device [d] is the [d]-th of the list *)
  fk_inbound : list (list Z);       (** the transfers the device will send *)
  fk_clock : Z;
  fk_env : option string;           (** [MSPDEBUG_TI3410_FW] *)
  fk_files : list string;           (** the paths [fopen] opens *)
  fk_ihex : list binfile_chunk * bool;
  fk_claim_rc : Z                   (** what [libusb_claim_interface] returns *)
}.

Definition no_desc : device_descriptor := mk_device_descriptor 0 0 0 0.
Definition no_config : config_descriptor := mk_config_descriptor 0 [].

Definition fake_dev (w : fake) (d : device) : option fake_device :=
  nth_error (fk_devices w) (N.to_nat d).

Definition fake_pop (w : fake) (len : Z) : (Z * list Z) * fake :=
  match fk_inbound w with
  | [] => ((LIBUSB_ERROR_TIMEOUT, []), w)
  | x :: rest =>
      ((0, take (Z.to_nat len) x),
       mk_fake (fk_devices w) rest (fk_clock w) (fk_env w) (fk_files w) (fk_ihex w)
         (fk_claim_rc w))
  end.

Definition fake_tick (w : fake) : fake :=
  mk_fake (fk_devices w) (fk_inbound w) (fk_clock w + 1) (fk_env w) (fk_files w) (fk_ihex w)
    (fk_claim_rc w).

Definition fake_step {A : Type} (c : call A) : fake -> A * fake :=
  match c in call A return fake -> A * fake with
  | Malloc => fun w => (true, w)
  | Init => fun w => (0, w)
  | GetDeviceList => fun w =>
      (map N.of_nat (seq 0 (length (fk_devices w))), w)
  | FreeDeviceList _ => fun w => (tt, w)
  | UnrefDevice _ => fun w => (tt, w)
  | GetDeviceDescriptor d => fun w =>
      match fake_dev w d with
      | Some fd => ((0, fd_desc fd), w)
      | None => ((-1, no_desc), w)
      end
  | GetConfigDescriptor d _ => fun w =>
      match fake_dev w d with
      | Some fd => ((0, fd_config fd), w)
      | None => ((-1, no_config), w)
      end
  | GetBusNumber d => fun w =>
      (match fake_dev w d with Some fd => fd_bus fd | None => 0 end, w)
  | GetDeviceAddress d => fun w =>
      (match fake_dev w d with Some fd => fd_addr fd | None => 0 end, w)
  | Open d => fun w =>
      match fake_dev w d with
      | Some _ => ((0, Some (d + 1)%N), w)
      | None => ((-4, None), w)
      end
  | Close _ => fun w => (tt, w)
  | KernelDriverActive _ _ => fun w => (0, w)
  | DetachKernelDriver _ _ => fun w => (0, w)
  | SetConfiguration _ _ => fun w => (0, w)
  | ClaimInterface _ _ => fun w => (fk_claim_rc w, w)
  | ReleaseInterface _ _ => fun w => (0, w)
  | UninitHandle => fun w => (Some 0xDEAD%N, w)
  | GetDevice h => fun w =>
      (match h with Some h => N.pred h | None => 0%N end, w)
  | BulkOut _ _ d _ => fun w => ((0, Z.of_nat (length d)), w)
  | BulkIn _ _ len _ => fun w => fake_pop w len
  | ControlTransfer _ _ _ _ _ d _ => fun w => (Z.of_nat (length d), w)
  | InterruptIn _ _ _ _ => fun w => (0, w)
  | ClearHalt _ _ => fun w => (0, w)
  | ResetDevice _ => fun w => (0, w)
  | GetStringDescriptorAscii h _ _ => fun w =>
      match h with
      | Some h =>
          match fake_dev w (N.pred h) with
          | Some fd => ((0, fd_serial fd), w)
          | None => ((-1, EmptyString), w)
          end
      | None => ((-1, EmptyString), w)
      end
  | Time => fun w => (fk_clock w, fake_tick w)
  | DelayMs _ => fun w => (tt, w)
  | GetEnv _ => fun w => (fk_env w, w)
  | FOpen p => fun w =>
      (if existsb (String.eqb p) (fk_files w) then Some 1%N else None, w)
  | FClose _ => fun w => (tt, w)
  | IhexCheck _ => fun w => (true, w)
  | IhexRead _ => fun w => (fk_ihex w, w)
  end.

#[export] Instance fake_host : UsbHost fake := @fake_step.

(** A starting state: the world, an empty trace, the backend's struct. *)
Definition start {W T : Type} (w : W) (t : T) : sys W T := mk_sys w [] t.

(** A world with devices and inbound transfers, the clock at 0, no firmware
    files, claims succeeding. *)
Definition fake_world (devs : list fake_device) (inbound : list (list Z)) : fake :=
  mk_fake devs inbound 0 None [] ([], true) 0.

(** The USB bootstrap loader (HID): one HID interface with a bulk IN
    endpoint 0x81 and a bulk OUT endpoint 0x01, at bus 1, address 2. *)
Definition hid_config : config_descriptor :=
  mk_config_descriptor 1
    [mk_interface_descriptor 0 USB_CLASS_HID
       [mk_endpoint_descriptor 0x81 USB_ENDPOINT_TYPE_BULK;
        mk_endpoint_descriptor 0x01 USB_ENDPOINT_TYPE_BULK]].

Definition hid_device : fake_device :=
  mk_fake_device 1 2 (mk_device_descriptor 0x2047 0x0200 1 3) hid_config "HID0001".

(** The bus of a fake world, as libusb shows it. *)
Definition fake_bus (devs : list fake_device) : bus_view :=
  mk_bus_view (map N.of_nat (seq 0 (length devs)))
    (fun d => match nth_error devs (N.to_nat d) with
              | Some fd => (0, fd_desc fd) | None => (-1, no_desc) end)
    (fun d => match nth_error devs (N.to_nat d) with
              | Some fd => (fd_bus fd, fd_addr fd) | None => (0, 0) end).

(** A CP210x bridge (vendor 0x10c4, product 0xea60) with one vendor-class
    interface, at bus 1, address 5. *)
Definition cp_config : config_descriptor :=
  mk_config_descriptor 1 [mk_interface_descriptor 0 255 []].

Definition cp_device : fake_device :=
  mk_fake_device 1 5 (mk_device_descriptor 0x10c4 0xea60 1 3) cp_config "CP0001".

(** A device with nothing to send: every read times out; every other call
    is answered as by the fake host. *)
Record quiet := mk_quiet { quiet_fake : fake }.

Definition quiet_step {A : Type} (c : call A) (q : quiet) : A * quiet :=
  match c in call A return A * quiet with
  | BulkIn _ _ _ _ => ((LIBUSB_ERROR_TIMEOUT, []), q)
  | c => let (r, w) := fake_step c (quiet_fake q) in (r, mk_quiet w)
  end.

#[export] Instance quiet_host : UsbHost quiet := @quiet_step.

(** A device whose IN endpoint has failed: every read returns
    [LIBUSB_ERROR_IO] (-1) with no data. *)
Record broken := mk_broken { broken_fake : fake }.

Definition broken_step {A : Type} (c : call A) (q : broken) : A * broken :=
  match c in call A return A * broken with
  | BulkIn _ _ _ _ => ((-1, []), q)
  | c => let (r, w) := fake_step c (broken_fake q) in (r, mk_broken w)
  end.

#[export] Instance broken_host : UsbHost broken := @broken_step.

(** A device stack that acknowledges every control request with 0 (no
    data-stage count), the answer the TI3410 and CDC-ACM backends test
    for; every other call as by the fake host. *)
Record zack := mk_zack { zack_fake : fake }.

Definition zack_step {A : Type} (c : call A) (q : zack) : A * zack :=
  match c in call A return A * zack with
  | ControlTransfer _ _ _ _ _ _ _ => (0, q)
  | c => let (r, w) := fake_step c (zack_fake q) in (r, mk_zack w)
  end.

#[export] Instance zack_host : UsbHost zack := @zack_step.

(** A device that is unplugged after it was opened once: the first
    [libusb_open] is answered as by the fake host, every later one fails
    with [LIBUSB_ERROR_NO_DEVICE] (-4) and writes no handle; every other
    call as by the fake host. *)
Record unplugged := mk_unplugged { unplugged_fake : fake; unplugged_gone : bool }.

Definition unplugged_step {A : Type} (c : call A) (q : unplugged) : A * unplugged :=
  match c in call A return A * unplugged with
  | Open d =>
      if unplugged_gone q then ((-4, None), q)
      else let (r, w) := fake_step (Open d) (unplugged_fake q) in (r, mk_unplugged w true)
  | c => let (r, w) := fake_step c (unplugged_fake q) in (r, mk_unplugged w (unplugged_gone q))
  end.

#[export] Instance unplugged_host : UsbHost unplugged := @unplugged_step.

(** A host whose uninitialised memory reads as zero: the handle variable
    that a failed [libusb_open] leaves unwritten is NULL; every other call
    as by the wrapped host. *)
Record zeroed (W : Type) := mk_zeroed { zeroed_world : W }.
Arguments mk_zeroed {W}.
Arguments zeroed_world {W}.

Definition zeroed_step {W : Type} `{UsbHost W} {A : Type} (c : call A) (q : zeroed W)
    : A * zeroed W :=
  match c in call A return A * zeroed W with
  | UninitHandle => (None, q)
  | c => (fst (host_step c (zeroed_world q)), mk_zeroed (snd (host_step c (zeroed_world q))))
  end.

#[export] Instance zeroed_host {W : Type} `{UsbHost W} : UsbHost (zeroed W) := @zeroed_step W _.

(** A host seen through the [unsigned char] buffers of the C code: the
    values an IN transfer of the wrapped host delivers are stored as
    [uint8_t]; every other answer is the wrapped host's. *)
Record bytewise (W : Type) := mk_bytewise { bytewise_world : W }.
Arguments mk_bytewise {W}.
Arguments bytewise_world {W}.

Definition u8_answer {A : Type} (c : call A) : A -> A :=
  match c in call A return A -> A with
  | BulkIn _ _ _ _ => fun r => (fst r, map u8 (snd r))
  | _ => fun r => r
  end.

#[export] Instance bytewise_host {W : Type} `{UsbHost W} : UsbHost (bytewise W) :=
  fun A c q => (u8_answer c (fst (host_step c (bytewise_world q))),
                mk_bytewise (snd (host_step c (bytewise_world q)))).

(** Fixtures for the witnesses, on the fake host. *)

Definition send_demo : outcome unit * sys fake unit :=
  send_loop 5 WhileNonZero (Some 1%N) 1 100 [1; 2; 3] 3 (start (fake_world [] []) tt).

Definition flush_demo : outcome unit * sys fake unit :=
  flush_loop 3 (Some 1%N) 0x81 64 100 (start (fake_world [] [[5; 6]; [7]]) tt).


(** * Lemmas and witnesses *)

(** The fake host behaves as libusb documents. *)
Lemma fake_bulk_out_sane : bulk_out_sane (W := fake).
Proof. intros h ep d tmo w. simpl. lia. Qed.

Lemma fake_bulk_in_sane : bulk_in_sane (W := fake).
Proof.
  intros h ep len tmo w. cbn. unfold fake_pop.
  destruct (fk_inbound w); cbn; [lia|]. rewrite length_take. lia.
Qed.

Lemma fake_bulk_out_progress : bulk_out_progress (W := fake).
Proof.
  intros h ep d tmo w Hd. right. simpl. destruct d; [congruence|]. simpl. lia.
Qed.


Lemma fake_control_length : control_returns_length (W := fake).
Proof. intros ? ? ? ? ? ? ? ?. reflexivity. Qed.

(** The fake bus is static: no call changes the device list. *)
Lemma fake_static devs : static_bus (fake_bus devs) (fun w => fk_devices w = devs).
Proof.
  split.
  - intros A c w <-.
    destruct c; unfold host_step, fake_host, fake_step, fake_pop; cbn; repeat case_match; reflexivity.
  - intros w <-. unfold host_step, fake_host, fake_step, fake_dev.
    repeat split; intros d; cbn; destruct (nth_error _ _); reflexivity.
Qed.

(** The fake clock ticks a second at every [time] call. *)
Lemma fake_clock_ticks : clock_ticks (W := fake) fk_clock.
Proof.
  split.
  - intros w. simpl. lia.
  - intros A c w.
    destruct c; unfold host_step, fake_host, fake_step, fake_pop; cbn; repeat case_match; simpl; lia.
Qed.

Lemma quiet_clock_ticks : clock_ticks (W := quiet) (fun q => fk_clock (quiet_fake q)).
Proof.
  split.
  - intros w. simpl. lia.
  - intros A c [w]. pose proof (proj2 fake_clock_ticks A c w) as Hc.
    unfold host_step, fake_host in Hc. unfold host_step, quiet_host, quiet_step.
    destruct c; cbv beta iota in *; cbn [quiet_fake];
      try (match goal with |- context [fake_step ?c ?w] =>
             destruct (fake_step c w) as [r w'] eqn:E end; simpl in *; lia);
      simpl; lia.
Qed.

Lemma quiet_silent : bulk_in_silent (W := quiet).
Proof. intros ? ? ? ? ?. reflexivity. Qed.

Lemma quiet_bulk_in_bytes : bulk_in_bytes (W := quiet).
Proof. intros ? ? ? ? ?. reflexivity. Qed.

Lemma fake_malloc_ok : malloc_ok (W := fake).
Proof. intros w. reflexivity. Qed.

Lemma fake_control_ok : control_ok (W := fake).
Proof. intros ? ? ? ? ? ? ? ?. simpl. lia. Qed.

Lemma fake_halt_ok : halt_ok (W := fake).
Proof. intros ? ? ?. reflexivity. Qed.

Lemma zack_acked : control_acked (W := zack).
Proof. intros ? ? ? ? ? ? ? ?. reflexivity. Qed.

Lemma zack_bulk_in_sane : bulk_in_sane (W := zack).
Proof.
  intros h ep len tmo w. pose proof (fake_bulk_in_sane h ep len tmo (zack_fake w)) as Hb.
  unfold host_step, zack_host, zack_step. unfold host_step, fake_host in Hb.
  destruct (fake_step (BulkIn h ep len tmo) (zack_fake w)). exact Hb.
Qed.

Lemma bytewise_bulk_in_bytes {W : Type} `{UsbHost W} : bulk_in_bytes (W := bytewise W).
Proof.
  intros h ep len tmo w. cbn. unfold bytes_ok. apply forallb_forall.
  intros x Hx. apply in_map_iff in Hx as (y & <- & _). apply is_byte_spec, u8_range.
Qed.

(** The fake decoder answers the chunks of its world, which no call
    changes. *)
Lemma fake_ihex_sane : ihex_sane (W := fake) (fun w => Forall chunk_ok (fst (fk_ihex w))).
Proof.
  split.
  - intros A c w Hw.
    destruct c; unfold host_step, fake_host, fake_step, fake_pop, fake_tick; cbn;
      repeat case_match; cbn; exact Hw.
  - intros fh w Hw. exact Hw.
Qed.

Lemma zack_halt_ok : halt_ok (W := zack).
Proof. intros ? ? ?. reflexivity. Qed.

(** Witnesses of the shared loops, on the fake host. *)


Lemma send_loop_wire_witness :
  exists pre,
    wire_out (sys_trace (snd send_demo)) =
      wire_out (sys_trace (start (fake_world [] []) tt)) ++ pre /\
    pre `prefix_of` [1; 2; 3] /\
    (fst send_demo = Done tt -> pre = [1; 2; 3]) /\
    (forall f, fst send_demo = Error f -> exists rc, f = BulkError rc /\ fatal rc = true).
Proof.
  refine (send_loop_wire (W := fake) (T := unit) _
           5 WhileNonZero (Some 1%N) 1 100 [1; 2; 3]
           (start (fake_world [] []) tt) (fst send_demo) (snd send_demo) _).
  - intros ? ? ? ? ?; simpl; lia.
  - vm_compute. reflexivity.
Defined.

Lemma send_loop_terminates_witness :
  fst (send_loop 5 WhileNonZero (Some 1%N) 1 100 [1; 2; 3] (Z.of_nat (length [1; 2; 3]))
         (start (fake_world [] []) tt)) <> OutOfFuel.
Proof.
  apply (send_loop_terminates (W := fake) (T := unit)).
  - intros ? ? ? ? ?; simpl; lia.
  - intros h ep d tmo w Hd. right. destruct d; [congruence|]. simpl. lia.
  - simpl. lia.
Defined.

Lemma flush_loop_silent_witness :
  fst (flush_loop 8 (Some 1%N) 0x81 64 100 (start (mk_quiet (fake_world [] [])) tt)) = OutOfFuel.
Proof.
  apply (flush_loop_silent (W := quiet) (T := unit)).
  intros ? ? ? ? ?. reflexivity.
Defined.


Lemma flush_loop_done_witness :
  exists failed d,
    Forall (fun x => fst x <> 0) failed /\
    sys_trace (snd flush_demo) = sys_trace (start (fake_world [] [[5; 6]; [7]]) tt) ++
      map (fun x => Ev (BulkIn (Some 1%N) 0x81 64 100) x) failed ++
      [Ev (BulkIn (Some 1%N) 0x81 64 100) (0, d)].
Proof.
  apply (flush_loop_done (W := fake) (T := unit) 3 (Some 1%N) 0x81 64 100
           (start (fake_world [] [[5; 6]; [7]]) tt) (snd flush_demo)).
  vm_compute. reflexivity.
Defined.

Lemma read_loop_terminates_witness :
  fst (read_loop 3 2 (usb (BulkIn (Some 1%N) 0x81 64 100))
         (fun rc buf => if rc =? 0 then Some buf else None)
         (start (fake_world [] []) tt)) <> OutOfFuel.
Proof.
  apply (read_loop_terminates fk_clock fake_clock_ticks);
    [apply (usb_xfer_ok fk_clock fake_clock_ticks) | simpl; lia].
Defined.
