(* ===== verification/Usbutil.v ===== *)
(** * The device locator: [src/unnamed/part_000] ([usbutil.c])

    [usbutil_find_by_loc] parses a location ["<bus>:<device>"] with
    [strtok] and [atoi] and returns the last device of libusb's list at that
    bus and address; [usbutil_find_by_id] returns the last device with the
    vendor and product IDs and, when a serial is requested, a serial string
    equal to it up to case.  C strings are [list ascii] up to their first
    NUL; [atoi] is on unbounded integers (the parsed numbers are bus and
    device numbers, below 256, far from [int] overflow). *)

From S2P Require Import Prelude Usb FakeHost.
From stdpp Require Import strings.
From Stdlib Require Import Ascii String.

Local Open Scope Z_scope.
Local Open Scope usb_scope.

Module Usbutil.

(** ** C strings *)

Definition NUL : ascii := ascii_of_nat 0.

(** The characters of a C string: up to the first NUL. *)
Fixpoint cstr_chars (s : list ascii) : list ascii :=
  match s with
  | [] => []
  | c :: s' => if Ascii.eqb c NUL then [] else c :: cstr_chars s'
  end.

Definition cstr (s : string) : list ascii := cstr_chars (list_ascii_of_string s).

(** ** strtok with the delimiters [":\t\r\n"] *)

Definition is_delim (c : ascii) : bool :=
  match nat_of_ascii c with
  | 58%nat | 9%nat | 13%nat | 10%nat => true
  | _ => false
  end.

Fixpoint skip_delims (s : list ascii) : list ascii :=
  match s with
  | c :: s' => if is_delim c then skip_delims s' else s
  | [] => []
  end.

(** The token and the text after the delimiter that ends it (which [strtok]
    overwrites with a NUL and skips). *)
Fixpoint token (s : list ascii) : list ascii * list ascii :=
  match s with
  | [] => ([], [])
  | c :: s' => if is_delim c then ([], s') else let (t, r) := token s' in (c :: t, r)
  end.

Definition strtok (s : list ascii) : option (list ascii * list ascii) :=
  match skip_delims s with
  | [] => None
  | s1 => Some (token s1)
  end.

(** ** atoi *)

Definition is_space (c : ascii) : bool :=
  match nat_of_ascii c with
  | 32%nat | 9%nat | 10%nat | 11%nat | 12%nat | 13%nat => true
  | _ => false
  end.

Fixpoint skip_spaces (s : list ascii) : list ascii :=
  match s with
  | c :: s' => if is_space c then skip_spaces s' else s
  | [] => []
  end.

Definition digit_val (c : ascii) : option Z :=
  let n := nat_of_ascii c in
  if (48 <=? n)%nat && (n <=? 57)%nat then Some (Z.of_nat n - 48) else None.

Fixpoint atoi_digits (acc : Z) (s : list ascii) : Z :=
  match s with
  | c :: s' =>
      match digit_val c with
      | Some d => atoi_digits (10 * acc + d) s'
      | None => acc
      end
  | [] => acc
  end.

Definition atoi (s : list ascii) : Z :=
  match skip_spaces s with
  | c :: s' =>
      if Ascii.eqb c "-"%char then - atoi_digits 0 s'
      else if Ascii.eqb c "+"%char then atoi_digits 0 s'
      else atoi_digits 0 (c :: s')
  | [] => 0
  end.

(** ** usbutil_find_by_loc *)

(** [strncpy(buf, loc, 64); buf[63] = 0;] then two [strtok] calls; [None]
    when either token is missing. *)
Definition parse_loc (loc : string) : option (Z * Z) :=
  let buf := take 63 (cstr loc) in
  match strtok buf with
  | None => None
  | Some (bus_text, rest) =>
      match strtok rest with
      | None => None
      | Some (dev_text, _) => Some (atoi bus_text, atoi dev_text)
      end
  end.

(** The location as [usbutil_list] prints it, ["%03d:%03d"]. *)
Definition digit (n : Z) : ascii := ascii_of_nat (Z.to_nat (48 + n)).

Definition fmt03d (n : Z) : list ascii :=
  [digit (n / 100); digit ((n / 10) mod 10); digit (n mod 10)].

Definition format_loc (bus addr : Z) : string :=
  string_of_list_ascii (fmt03d bus ++ ":"%char :: fmt03d addr).

Section Locator.
Context {W : Type} `{UsbHost W} {T : Type}.

(** The device loop: the address is read only when the bus matches
    ([&&]); every device that does not match is unreferenced; the last
    match wins. *)
Fixpoint match_loc (devs : list device) (target_bus target_dev : Z)
    (found : option device) : M (sys W T) (option device) :=
  match devs with
  | [] => ret found
  | d :: rest =>
      b <- usb (GetBusNumber d) ;;
      if b =? target_bus then
        a <- usb (GetDeviceAddress d) ;;
        if a =? target_dev then match_loc rest target_bus target_dev (Some d)
        else usb (UnrefDevice d) ;; match_loc rest target_bus target_dev found
      else usb (UnrefDevice d) ;; match_loc rest target_bus target_dev found
  end.

Definition usbutil_find_by_loc (loc : option string) : M (sys W T) (option device) :=
  match loc with
  | None => ret None
  | Some loc =>
      match parse_loc loc with
      | None => ret None
      | Some (target_bus, target_dev) =>
          devs <- usb GetDeviceList ;;
          found <- match_loc devs target_bus target_dev None ;;
          usb (FreeDeviceList false) ;;
          ret found
      end
  end.

(** ** usbutil_find_by_id *)

Definition read_serial (dev : device) (max_len : Z) : M (sys W T) (option string) :=
  let* (rc, dh) := usb (Open dev) in
  if negb (rc =? 0) then ret None else
  let* (rc, desc) := usb (GetDeviceDescriptor dev) in
  if negb (rc =? 0) then usb (Close dh) ;; ret None else
  let* (rc, buf) := usb (GetStringDescriptorAscii dh (iSerialNumber desc) max_len) in
  if rc <? 0 then usb (Close dh) ;; ret None else
  usb (Close dh) ;;
  ret (Some buf).

Definition tolower (c : ascii) : ascii :=
  let n := nat_of_ascii c in
  if (65 <=? n)%nat && (n <=? 90)%nat then ascii_of_nat (n + 32) else c.

(** [!strcasecmp(a, b)] *)
Definition strcasecmp_eq (a b : string) : bool :=
  bool_decide (map tolower (cstr a) = map tolower (cstr b)).

Fixpoint match_id (devs : list device) (vendor product : Z)
    (requested_serial : option string) (found : option device)
    : M (sys W T) (option device) :=
  match devs with
  | [] => ret found
  | d :: rest =>
      let* (rc, desc) := usb (GetDeviceDescriptor d) in
      if negb (rc =? 0) then match_id rest vendor product requested_serial found
      else if (idVendor desc =? vendor) && (idProduct desc =? product) then
        match requested_serial with
        | None => match_id rest vendor product requested_serial (Some d)
        | Some req =>
            buf <- read_serial d 128 ;;
            match buf with
            | Some buf =>
                if strcasecmp_eq req buf
                then match_id rest vendor product requested_serial (Some d)
                else usb (UnrefDevice d) ;;
                     match_id rest vendor product requested_serial found
            | None =>
                usb (UnrefDevice d) ;;
                match_id rest vendor product requested_serial found
            end
        end
      else match_id rest vendor product requested_serial found
  end.

Definition usbutil_find_by_id (vendor product : Z) (requested_serial : option string)
    : M (sys W T) (option device) :=
  devs <- usb GetDeviceList ;;
  found <- match_id devs vendor product requested_serial None ;;
  usb (FreeDeviceList false) ;;
  ret found.
End Locator.

(** ** What the locator promises

    The device the loops keep: the last one of the list that the test
    accepts, or what was found before. *)
Fixpoint last_match {A} (p : A -> bool) (l : list A) (found : option A) : option A :=
  match l with
  | [] => found
  | x :: l' => last_match p l' (if p x then Some x else found)
  end.

Definition at_loc (B : bus_view) (bus addr : Z) (d : device) : bool :=
  (fst (bv_loc B d) =? bus) && (snd (bv_loc B d) =? addr).

Definition has_ids (B : bus_view) (vendor product : Z) (d : device) : bool :=
  (fst (bv_desc B d) =? 0) && (idVendor (snd (bv_desc B d)) =? vendor) &&
  (idProduct (snd (bv_desc B d)) =? product).

(** The help strings [usbutil_list] prints next to a device. *)
Definition device_help_table : list (Z * Z * string) :=
  [(0x0451, 0xf432, "eZ430-RF2500"); (0x0451, 0xf430, "FET430UIF");
   (0x2047, 0x0010, "FET430UIF (V3 firmware)");
   (0x15ba, 0x0002, "Olimex MSP430-JTAG-TINY (v1)");
   (0x15ba, 0x0008, "Olimex MSP430-JTAG-ISO");
   (0x15ba, 0x0031, "Olimex MSP430-JTAG-TINY (v2)");
   (0x15ba, 0x0100, "Olimex MSP430-JTAG-ISO-MK2 (v2)");
   (0x2047, 0x0200, "USB bootstrap loader")]%string.

Fixpoint device_help_from (tbl : list (Z * Z * string)) (desc : device_descriptor) : string :=
  match tbl with
  | [] => EmptyString
  | (v, p, help) :: rest =>
      if (idProduct desc =? p) && (idVendor desc =? v) then help
      else device_help_from rest desc
  end.

Definition device_help (desc : device_descriptor) : string :=
  device_help_from device_help_table desc.


(** * Lemmas *)

(** Scanning from a device already found gives the last match after it,
    that device when there is none. *)
Lemma last_match_from {A} (p : A -> bool) l x :
  last_match p l (Some x) = Some (default x (last_match p l None)).
Proof.
  revert x. induction l as [|y l IH]; intros x; [reflexivity|]. cbn.
  destruct (p y); rewrite IH; [|reflexivity]. destruct (last_match p l None); reflexivity.
Qed.

Section LocatorLemmas.
Context {W : Type} `{UsbHost W} {T : Type}.

Lemma match_loc_keeps devs b d found : keeps_tr (T := T) (match_loc devs b d found).
Proof. revert found. induction devs; intros found; simpl; solve_keeps; auto. Qed.

Lemma match_loc_returns devs b d found : returns (T := T) (match_loc devs b d found).
Proof. revert found. induction devs; intros found; simpl; solve_returns; auto. Qed.

(** The locator leaves the backend's struct alone and always returns: a
    device or NULL, never the error path. *)
Lemma usbutil_find_by_loc_keeps loc : keeps_tr (T := T) (usbutil_find_by_loc loc).
Proof.
  unfold usbutil_find_by_loc. solve_keeps; auto using match_loc_keeps.
Qed.

Lemma usbutil_find_by_loc_returns loc : returns (T := T) (usbutil_find_by_loc loc).
Proof.
  unfold usbutil_find_by_loc. solve_returns; auto using match_loc_returns.
Qed.

Lemma read_serial_keeps d n : keeps_tr (T := T) (read_serial d n).
Proof. unfold read_serial. solve_keeps. Qed.

Lemma read_serial_returns d n : returns (T := T) (read_serial d n).
Proof. unfold read_serial. solve_returns. Qed.

Lemma match_id_keeps devs v p ser found : keeps_tr (T := T) (match_id devs v p ser found).
Proof.
  revert found. induction devs; intros found; simpl; solve_keeps; auto using read_serial_keeps.
Qed.

Lemma match_id_returns devs v p ser found : returns (T := T) (match_id devs v p ser found).
Proof.
  revert found. induction devs; intros found; simpl; solve_returns; auto using read_serial_returns.
Qed.

Lemma usbutil_find_by_id_keeps v p ser : keeps_tr (T := T) (usbutil_find_by_id v p ser).
Proof. unfold usbutil_find_by_id. solve_keeps; auto using match_id_keeps. Qed.

Lemma usbutil_find_by_id_returns v p ser : returns (T := T) (usbutil_find_by_id v p ser).
Proof. unfold usbutil_find_by_id. solve_returns; auto using match_id_returns. Qed.
End LocatorLemmas.

Section StaticBus.
Context {W : Type} `{UsbHost W}.
Variables (B : bus_view) (P : W -> Prop).
Hypothesis Hbus : static_bus B P.

Lemma static_keep {A} (c : call A) w : P w -> P (snd (host_step c w)).
Proof. intros Hp. now apply (proj1 Hbus). Qed.

Lemma static_answers w : P w ->
  fst (host_step GetDeviceList w) = bv_devices B /\
  (forall d, fst (host_step (GetDeviceDescriptor d) w) = bv_desc B d) /\
  (forall d, fst (host_step (GetBusNumber d) w) = fst (bv_loc B d)) /\
  (forall d, fst (host_step (GetDeviceAddress d) w) = snd (bv_loc B d)).
Proof. apply (proj2 Hbus). Qed.
End StaticBus.

(** One call of the locator on a static bus [Hbus]: its answer is the
    bus's, and the next world is again one of the bus's worlds. *)
Ltac bus_call Hbus Hrun :=
  rewrite bind_usb in Hrun;
  lazymatch type of Hrun with
  | context [host_step ?c (sys_world ?s)] =>
      let Hp := fresh "Hp" in let Ha := fresh "Ha" in
      lazymatch type of Hbus with static_bus _ ?P =>
        assert (Hp : P (sys_world s)) by assumption end;
      pose proof (static_keep _ _ Hbus c _ Hp);
      destruct (static_answers _ _ Hbus _ Hp) as (Ha & ? & ? & ?);
      cbn [sys_world sys_trace sys_tr] in Hrun;
      repeat match goal with E : forall d, fst (host_step _ _) = _ |- _ =>
               rewrite ?E in Hrun; clear E end;
      try rewrite Ha in Hrun; clear Ha
  end.

Section LocatorSpec.
Context {W : Type} `{UsbHost W} {T : Type}.
Variables (B : bus_view) (P : W -> Prop).
Hypothesis Hbus : static_bus B P.

(** The device loop of [usbutil_find_by_loc] keeps the last device at the
    location, and leaves a world of [P]. *)
Lemma match_loc_last devs b a :
  forall found (s s' : sys W T) r, P (sys_world s) ->
    match_loc devs b a found s = (Done r, s') ->
    r = last_match (at_loc B b a) devs found /\ P (sys_world s').
Proof.
  induction devs as [|d rest IH]; intros found s s' r Hp Hrun.
  - injection Hrun as -> <-. split; [reflexivity|exact Hp].
  - cbn [match_loc last_match] in Hrun |- *. unfold at_loc. bus_call Hbus Hrun.
    destruct (fst (bv_loc B d) =? b) eqn:Eb; simpl.
    + bus_call Hbus Hrun. destruct (snd (bv_loc B d) =? a) eqn:Ea; simpl.
      * eapply IH; [|exact Hrun]. simpl. auto.
      * bus_call Hbus Hrun. eapply IH; [|exact Hrun]. simpl. auto.
    + bus_call Hbus Hrun. eapply IH; [|exact Hrun]. simpl. auto.
Qed.

(** Used by [usbutil_find_by_loc_last]: the device loop and what follows. *)
Lemma find_by_loc_tail devs b a (s s' : sys W T) r :
  P (sys_world s) ->
  bind (match_loc devs b a None) (fun found => usb (FreeDeviceList false) ;; ret found) s
    = (Done r, s') ->
  r = last_match (at_loc B b a) devs None.
Proof.
  intros Hp Hrun. run_in Hrun. injection Hrun as -> _. eapply match_loc_last; eauto.
Qed.

(** What [usbutil_find_by_loc] returns on a static bus. *)
Lemma find_by_loc_result loc b a (s : sys W T) :
  P (sys_world s) -> parse_loc loc = Some (b, a) ->
  fst (usbutil_find_by_loc (Some loc) s) =
    Done (last_match (at_loc B b a) (bv_devices B) None).
Proof.
  intros Hp Hl. destruct (usbutil_find_by_loc_returns (Some loc) s) as (r & s' & Hrun).
  rewrite Hrun. simpl. f_equal. unfold usbutil_find_by_loc in Hrun. rewrite Hl in Hrun.
  bus_call Hbus Hrun. eapply find_by_loc_tail; [|exact Hrun]. simpl. assumption.
Qed.

(** C17. On a static bus, [usbutil_find_by_loc] of a location that parses
    to bus [b] and address [a] returns the last device of libusb's list at
    that bus and address, and NULL when there is none. *)
Theorem usbutil_find_by_loc_last loc b a (s : sys W T) :
  P (sys_world s) -> parse_loc loc = Some (b, a) ->
  fst (usbutil_find_by_loc (Some loc) s) =
    Done (last_match (at_loc B b a) (bv_devices B) None).
Proof. exact (find_by_loc_result loc b a s). Qed.

(** The device loop of [usbutil_find_by_id] with no serial requested keeps
    the last device whose descriptor reads and has the IDs. *)
Lemma match_id_last devs v p :
  forall found (s s' : sys W T) r, P (sys_world s) ->
    match_id devs v p None found s = (Done r, s') ->
    r = last_match (has_ids B v p) devs found /\ P (sys_world s').
Proof.
  induction devs as [|d rest IH]; intros found s s' r Hp Hrun.
  - injection Hrun as -> <-. split; [reflexivity|exact Hp].
  - cbn [match_id last_match] in Hrun |- *. unfold has_ids. bus_call Hbus Hrun.
    destruct (bv_desc B d) as [rc desc]. simpl in Hrun |- *.
    destruct (rc =? 0); simpl in Hrun |- *; [|eapply IH; [|exact Hrun]; simpl; auto].
    destruct ((idVendor desc =? v) && (idProduct desc =? p));
      eapply IH; try exact Hrun; simpl; auto.
Qed.

Lemma find_by_id_tail devs v p (s s' : sys W T) r :
  P (sys_world s) ->
  bind (match_id devs v p None None) (fun found => usb (FreeDeviceList false) ;; ret found) s
    = (Done r, s') ->
  r = last_match (has_ids B v p) devs None.
Proof.
  intros Hp Hrun. run_in Hrun. injection Hrun as -> _. eapply match_id_last; eauto.
Qed.

(** On a static bus, [usbutil_find_by_id] with no serial requested returns
    the last device of libusb's list with the vendor and product IDs. *)
Lemma usbutil_find_by_id_last v p (s : sys W T) :
  P (sys_world s) ->
  fst (usbutil_find_by_id v p None s) = Done (last_match (has_ids B v p) (bv_devices B) None).
Proof.
  intros Hp. destruct (usbutil_find_by_id_returns v p None s) as (r & s' & Hrun).
  rewrite Hrun. simpl. f_equal. unfold usbutil_find_by_id in Hrun.
  bus_call Hbus Hrun. eapply find_by_id_tail; [|exact Hrun]. simpl. assumption.
Qed.
End LocatorSpec.

Lemma last_match_none {A} (p : A -> bool) l :
  (forall x, In x l -> p x = false) -> last_match p l None = None.
Proof.
  induction l as [|x l IH]; intros Hl; [reflexivity|]. simpl.
  rewrite (Hl x (or_introl eq_refl)). apply IH. intros y Hy. apply Hl. now right.
Qed.

(** ** The location format *)

Lemma digit_facts n : 0 <= n < 10 ->
  Ascii.eqb (digit n) NUL = false /\ is_delim (digit n) = false /\
  is_space (digit n) = false /\ digit_val (digit n) = Some n /\
  Ascii.eqb (digit n) "-"%char = false /\ Ascii.eqb (digit n) "+"%char = false.
Proof.
  intros Hn. rewrite <- (Z2Nat.id n) by lia.
  assert (Hk : (Z.to_nat n < 10)%nat) by lia. revert Hk. generalize (Z.to_nat n).
  intros k Hk. do 10 (destruct k as [|k]; [vm_compute; repeat split|]). lia.
Qed.

Lemma fmt03d_digits n : 0 <= n < 1000 ->
  Forall (fun c => exists k, 0 <= k < 10 /\ c = digit k) (fmt03d n).
Proof.
  intros Hn. unfold fmt03d.
  repeat constructor; eexists; (split; [|reflexivity]);
    first [apply Z.mod_pos_bound; lia | split; [apply Z.div_pos | apply Z.div_lt_upper_bound]; lia].
Qed.

Lemma cstr_chars_digits l rest :
  Forall (fun c => exists k, 0 <= k < 10 /\ c = digit k) l ->
  cstr_chars (l ++ rest) = l ++ cstr_chars rest.
Proof.
  induction 1 as [|c l (k & Hk & ->) _ IH]; [reflexivity|].
  simpl. destruct (digit_facts k Hk) as (-> & _). now rewrite IH.
Qed.

Lemma cstr_chars_digits_all l :
  Forall (fun c => exists k, 0 <= k < 10 /\ c = digit k) l -> cstr_chars l = l.
Proof.
  induction 1 as [|c l (k & Hk & ->) _ IH]; [reflexivity|].
  simpl. destruct (digit_facts k Hk) as (-> & _). now rewrite IH.
Qed.

Lemma token_digits l rest :
  Forall (fun c => exists k, 0 <= k < 10 /\ c = digit k) l ->
  token (l ++ ":"%char :: rest) = (l, rest).
Proof.
  induction 1 as [|c l (k & Hk & ->) _ IH]; [reflexivity|].
  simpl. destruct (digit_facts k Hk) as (_ & -> & _). now rewrite IH.
Qed.

Lemma token_digits_end l :
  Forall (fun c => exists k, 0 <= k < 10 /\ c = digit k) l -> token l = (l, []).
Proof.
  induction 1 as [|c l (k & Hk & ->) _ IH]; [reflexivity|].
  simpl. destruct (digit_facts k Hk) as (_ & -> & _). now rewrite IH.
Qed.

Lemma strtok_digits l rest :
  Forall (fun c => exists k, 0 <= k < 10 /\ c = digit k) l -> l <> [] ->
  strtok (l ++ ":"%char :: rest) = Some (l, rest).
Proof.
  intros Hl Hne. destruct Hl as [|c l (k & Hk & ->) Hl]; [congruence|].
  unfold strtok. simpl. destruct (digit_facts k Hk) as (_ & Hd & _).
  rewrite Hd. rewrite token_digits by exact Hl. simpl. now rewrite Hd.
Qed.

Lemma strtok_digits_end l :
  Forall (fun c => exists k, 0 <= k < 10 /\ c = digit k) l -> l <> [] ->
  strtok l = Some (l, []).
Proof.
  intros Hl Hne. destruct Hl as [|c l (k & Hk & ->) Hl]; [congruence|].
  unfold strtok. simpl. destruct (digit_facts k Hk) as (_ & Hd & _).
  rewrite Hd. rewrite token_digits_end by exact Hl. simpl. now rewrite Hd.
Qed.

Lemma atoi_fmt03d n : 0 <= n < 1000 -> atoi (fmt03d n) = n.
Proof.
  intros Hn. unfold atoi, fmt03d.
  assert (Ha : 0 <= n / 100 < 10) by (split; [apply Z.div_pos | apply Z.div_lt_upper_bound]; lia).
  assert (Hb : 0 <= (n / 10) mod 10 < 10) by (apply Z.mod_pos_bound; lia).
  assert (Hc : 0 <= n mod 10 < 10) by (apply Z.mod_pos_bound; lia).
  destruct (digit_facts _ Ha) as (_ & _ & Sa & Va & Ma & Pa).
  destruct (digit_facts _ Hb) as (_ & _ & _ & Vb & _ & _).
  destruct (digit_facts _ Hc) as (_ & _ & _ & Vc & _ & _).
  simpl. rewrite Sa, Ma, Pa. simpl. rewrite Va, Vb, Vc.
  change 100 with (10 * 10). rewrite <- Z.div_div by lia.
  pose proof (Z.div_mod n 10 ltac:(lia)). pose proof (Z.div_mod (n / 10) 10 ltac:(lia)).
  lia.
Qed.

(** The parse of a printed location. *)
Lemma parse_format_loc bus addr :
  0 <= bus < 1000 -> 0 <= addr < 1000 ->
  parse_loc (format_loc bus addr) = Some (bus, addr).
Proof.
  intros Hb Ha. unfold parse_loc, format_loc, cstr.
  rewrite list_ascii_of_string_of_list_ascii.
  pose proof (fmt03d_digits _ Hb) as Db. pose proof (fmt03d_digits _ Ha) as Da.
  rewrite (cstr_chars_digits _ _ Db).
  change (cstr_chars (":"%char :: fmt03d addr)) with (":"%char :: cstr_chars (fmt03d addr)).
  rewrite (cstr_chars_digits_all _ Da).
  rewrite take_ge by (rewrite length_app; simpl; unfold fmt03d; simpl; lia).
  rewrite strtok_digits by (exact Db || discriminate).
  rewrite strtok_digits_end by (exact Da || discriminate).
  now rewrite !atoi_fmt03d.
Qed.

(** A location printed as [usbutil_list] prints it, ["%03d:%03d"],
    with a bus and an address below 1000, is parsed back by the [strtok] and
    [atoi] of [usbutil_find_by_loc] to the same bus and address. *)
Theorem parse_loc_format bus addr :
  0 <= bus < 1000 -> 0 <= addr < 1000 ->
  parse_loc (format_loc bus addr) = Some (bus, addr).
Proof. exact (parse_format_loc bus addr). Qed.

Lemma usbutil_find_by_loc_last_witness :
  fst (usbutil_find_by_loc (Some "001:005") (start (fake_world [cp_device] []) tt)) =
    Done (last_match (at_loc (fake_bus [cp_device]) 1 5) (bv_devices (fake_bus [cp_device])) None).
Proof.
  apply (usbutil_find_by_loc_last _ _ (fake_static [cp_device])); [reflexivity|].
  vm_compute. reflexivity.
Defined.

Lemma parse_loc_format_witness :
  parse_loc (format_loc 1 2) = Some (1, 2).
Proof. apply parse_loc_format; lia. Defined.

End Usbutil.
