(* ===== verification/Ownership.v ===== *)
(** * Ownership of handles: which calls work on an open handle

    libusb gives a caller a handle with [libusb_open] and takes it back with
    [libusb_close]; every other call that takes a handle ([claim],
    [release], a transfer, a descriptor read, [libusb_close] itself) is only
    meaningful on a handle that is open at that moment: on NULL it
    dereferences nothing, on a closed handle it reads freed memory.
    [live_from l tr] checks this along a trace from the ledger [l];
    [balanced m] says that [m], started with nothing held, works only on
    handles it opened and gives all of them back.  On a host whose
    [libusb_open] returns a handle exactly when it succeeds ([open_sane],
    what libusb documents) both locators of [usbutil.c] are balanced.  The
    backends' theorems compose these lemmas with the run of their [open]. *)

From S2P Require Import Prelude Usb FakeHost Usbutil.
From stdpp Require Import strings.

Local Open Scope Z_scope.
Local Open Scope usb_scope.

(** ** The handle a call works on

    [None]: the call takes no handle; [Some oh]: it works on [oh]. *)
Definition call_handle {A} (c : call A) : option (option handle) :=
  match c with
  | Close h | KernelDriverActive h _ | DetachKernelDriver h _ | SetConfiguration h _
  | ClaimInterface h _ | ReleaseInterface h _ | GetDevice h | BulkOut h _ _ _
  | BulkIn h _ _ _ | ControlTransfer h _ _ _ _ _ _ | InterruptIn h _ _ _ | ClearHalt h _
  | ResetDevice h | GetStringDescriptorAscii h _ _ => Some h
  | _ => None
  end.

(** An event is live in a ledger when its call takes no handle or takes
    one that the ledger holds open. *)
Definition live (l : ledger) (e : event) : bool :=
  match e with
  | Ev c _ =>
      match call_handle c with
      | None => true
      | Some None => false
      | Some (Some h) => existsb (N.eqb h) (open_handles l)
      end
  end.

Fixpoint live_from (l : ledger) (tr : list event) : bool :=
  match tr with
  | [] => true
  | e :: tr' => live l e && live_from (ledger_step l e) tr'
  end.

(** [libusb_open] returns a handle exactly when it returns 0. *)
Definition open_sane (W : Type) `{UsbHost W} : Prop :=
  forall d w, match fst (host_step (Open d) w) with
              | (rc, Some _) => rc = 0
              | (rc, None) => rc <> 0
              end.

(** The handle variable that a failed [libusb_open] leaves unwritten
    reads as NULL. *)
Definition uninit_null (W : Type) `{UsbHost W} : Prop :=
  forall w, fst (host_step UninitHandle w) = None.

(** The events of a computation that works on [h] only and neither opens,
    closes, claims nor releases: what a transfer loop on the open handle
    emits. *)
Definition works_on (h : handle) (e : event) : Prop :=
  neutral e /\ match e with
               | Ev c _ => match call_handle c with None => True | Some oh => oh = Some h end
               end.

(** From nothing held, [m] works only on open handles and, unless it ran
    out of fuel (a loop that has not returned), gives back every handle it
    opens. *)
Definition balanced {W : Type} `{UsbHost W} {T A : Type} (m : M (sys W T) A) : Prop :=
  forall s, exists evs, sys_trace (snd (m s)) = sys_trace s ++ evs /\
    live_from nothing_held evs = true /\
    (fst (m s) = OutOfFuel \/ held_from nothing_held evs = nothing_held).

(** What an [open] leaves held: on success exactly the handle of the
    struct, with the interface [intf t] claimed on it; on failure nothing.
    A run that ran out of fuel has not returned (the flush loop of some
    backends may spin for ever) and is not constrained. *)
Definition owns_after {T A : Type} (hd : T -> option handle) (intf : T -> Z)
    (o : outcome A) (t : T) (l : ledger) : Prop :=
  match o with
  | Done _ => exists h, hd t = Some h /\ l = mk_ledger [h] [(h, intf t)]
  | Error _ => l = nothing_held
  | OutOfFuel => True
  end.

(** The contract of an [open]: from nothing held, every call it makes
    works on an open handle, and it leaves held what [owns_after] says. *)
Definition open_contract {W : Type} `{UsbHost W} {T A : Type} (hd : T -> option handle)
    (intf : T -> Z) (m : M (sys W T) A) : Prop :=
  forall s, exists evs, sys_trace (snd (m s)) = sys_trace s ++ evs /\
    live_from nothing_held evs = true /\
    owns_after hd intf (fst (m s)) (sys_tr (snd (m s))) (held_from nothing_held evs).

(** The contract of a [destroy]: on a struct whose handle is [h], from
    the ledger a successful [open] leaves, it works on open handles only
    and gives everything back. *)
Definition destroy_contract {W : Type} `{UsbHost W} {T : Type} (hd : T -> option handle)
    (intf : T -> Z) (m : M (sys W T) unit) : Prop :=
  forall s h, hd (sys_tr s) = Some h ->
    let l := mk_ledger [h] [(h, intf (sys_tr s))] in
    exists evs, sys_trace (snd (m s)) = sys_trace s ++ evs /\
      live_from l evs = true /\ held_from l evs = nothing_held.

(** A caller that opens and, when the open succeeds, destroys: every
    call works on an open handle, and once the open has returned nothing
    is left held. *)
Definition releases_all {W : Type} `{UsbHost W} {T A : Type} (op : M (sys W T) A)
    (destroy : M (sys W T) unit) : Prop :=
  forall s, exists evs, sys_trace (snd (bind op (fun _ => destroy) s)) = sys_trace s ++ evs /\
    live_from nothing_held evs = true /\
    (fst (op s) <> OutOfFuel -> held_from nothing_held evs = nothing_held).

(** ** Lemmas on traces *)

Lemma live_from_app l tr1 tr2 :
  live_from l (tr1 ++ tr2) = live_from l tr1 && live_from (held_from l tr1) tr2.
Proof.
  revert l. induction tr1 as [|e tr1 IH]; intros l; [reflexivity|].
  cbn [app live_from]. rewrite IH, andb_assoc. reflexivity.
Qed.

Lemma held_from_cons l e tr : held_from l (e :: tr) = held_from (ledger_step l e) tr.
Proof. reflexivity. Qed.

Lemma existsb_open h l : In h (open_handles l) -> existsb (N.eqb h) (open_handles l) = true.
Proof. intros Hin. apply existsb_exists. exists h. auto using N.eqb_refl. Qed.

Lemma works_on_live h l evs :
  Forall (works_on h) evs -> In h (open_handles l) ->
  live_from l evs = true /\ held_from l evs = l.
Proof.
  intros Hw Hin. induction Hw as [|[A c r] evs [Hn Hh] _ IH]; [auto|].
  cbn [live_from]. unfold held_from in *. cbn [fold_left]. rewrite Hn.
  destruct IH as [-> ->]. split; [|reflexivity].
  unfold live. destruct (call_handle c) as [oh|]; [|reflexivity]. subst oh.
  rewrite andb_true_r. now apply existsb_open.
Qed.

Lemma live_works_on_app h l evs rest :
  Forall (works_on h) evs -> In h (open_handles l) ->
  live_from l (evs ++ rest) = live_from l rest /\ held_from l (evs ++ rest) = held_from l rest.
Proof.
  intros Hw Hin. destruct (works_on_live h l evs Hw Hin) as [Hl Hh].
  rewrite live_from_app, held_from_app, Hl, Hh. auto.
Qed.

Lemma live_balanced_app evs rest :
  live_from nothing_held evs = true -> held_from nothing_held evs = nothing_held ->
  live_from nothing_held (evs ++ rest) = live_from nothing_held rest /\
  held_from nothing_held (evs ++ rest) = held_from nothing_held rest.
Proof. intros Hl Hh. rewrite live_from_app, held_from_app, Hl, Hh. auto. Qed.

(** An [open] and a [destroy] that keep their contracts on the same
    handle and interface fields release everything. *)
Lemma open_then_destroy {W : Type} `{UsbHost W} {T A : Type} (hd : T -> option handle)
    (intf : T -> Z) (op : M (sys W T) A) (destroy : M (sys W T) unit) :
  open_contract hd intf op -> destroy_contract hd intf destroy -> releases_all op destroy.
Proof.
  intros Ho Hd s. destruct (Ho s) as (evs & E & Hl & Hown). unfold bind.
  destruct (op s) as [[a|f|] s1]; cbn [fst snd] in *.
  - destruct Hown as (h & Hh & Hheld). destruct (Hd s1 h Hh) as (evs' & E' & Hl' & Hh').
    exists (evs ++ evs'). rewrite E', E, app_assoc, live_from_app, held_from_app, Hl, Hheld.
    auto.
  - exists evs. auto.
  - exists evs. split; [exact E|]. split; [exact Hl|]. congruence.
Qed.

(** The events of a computation that takes no handle and neither opens
    nor closes: the device-list and descriptor calls of the locator. *)
Definition handle_free (e : event) : Prop :=
  neutral e /\ match e with Ev c _ => call_handle c = None end.

Section Balanced.
Context {W : Type} `{UsbHost W} {T : Type}.

Lemma balanced_run {A} (m : M (sys W T) A) s o s' :
  balanced m -> m s = (o, s') ->
  exists evs, sys_trace s' = sys_trace s ++ evs /\
    live_from nothing_held evs = true /\
    (o = OutOfFuel \/ held_from nothing_held evs = nothing_held).
Proof. intros Hm E. destruct (Hm s) as (evs & Ht & Hq). rewrite E in Ht, Hq. eauto. Qed.

Lemma balanced_bind {A B} (m : M (sys W T) A) (k : A -> M (sys W T) B) :
  balanced m -> (forall a, balanced (k a)) -> balanced (bind m k).
Proof.
  intros Hm Hk s. destruct (Hm s) as (evs & E & Hl & Hh). unfold bind.
  destruct (m s) as [[a|f|] s'] eqn:Em; cbn [fst snd] in *;
    [| exists evs; destruct Hh as [Hh|Hh]; [discriminate Hh | auto] | exists evs; auto].
  destruct Hh as [Hh|Hh]; [discriminate Hh|].
  destruct (Hk a s') as (evs' & E' & Hl' & Hh'). exists (evs ++ evs').
  rewrite E', E, app_assoc. destruct (live_balanced_app evs evs' Hl Hh) as [-> ->]. auto.
Qed.

Lemma balanced_free {A} (m : M (sys W T) A) : emits handle_free m -> balanced m.
Proof.
  intros Hm s. destruct (Hm s) as (evs & E & Hf). exists evs. split; [exact E|]. clear E.
  enough (live_from nothing_held evs = true /\ held_from nothing_held evs = nothing_held)
    by tauto.
  induction Hf as [|[B c r] evs [Hn Hc] _ [IHl IHh]]; [auto|].
  unfold held_from in *. cbn [live_from fold_left]. rewrite Hn, IHl, IHh.
  unfold live. rewrite Hc. auto.
Qed.

Lemma balanced_pure {A} (m : M (sys W T) A) :
  (forall s, sys_trace (snd (m s)) = sys_trace s) -> balanced m.
Proof. intros Hm. apply balanced_free, emits_pure, Hm. Qed.

Lemma balanced_usb {A} (c : call A) :
  call_handle c = None -> (forall r, neutral (Ev c r)) -> balanced (T := T) (usb c).
Proof. intros Hc Hn. apply balanced_free, emits_usb. intros r. split; auto. Qed.
End Balanced.

(** Prove [emits handle_free] call by call. *)
Ltac solve_free := solve_emits_with ltac:(split; [intros ?; reflexivity | reflexivity]).

(** Prove [balanced] call by call; [tac] closes the sub-computations. *)
Ltac solve_balanced_with tac :=
  repeat first
    [ solve [tac]
    | apply balanced_bind; [| intros [? ?] || intros ?]
    | apply balanced_usb; [reflexivity | intros ? ?; reflexivity]
    | apply balanced_pure; intros ?; reflexivity
    | match goal with |- balanced (if ?b then _ else _) => destruct b end
    | match goal with |- balanced (match ?x with _ => _ end) => destruct x end ].

(** Rewrite each [libusb_open] answer with what [open_sane] says of it. *)
Ltac use_open_sane Hos :=
  repeat match goal with
  | Hc : host_step (Open ?d) ?w = ((?rc, ?oh), _) |- _ =>
      let Ho := fresh "Ho" in
      pose proof (Hos d w) as Ho; rewrite Hc in Ho; cbn [fst] in Ho; clear Hc;
      (tryif is_var oh then destruct oh else idtac); try subst rc
  end.

Section Locator.
Context {W : Type} `{UsbHost W} {T : Type}.
Hypothesis Hos : open_sane W.

Lemma read_serial_balanced d n : balanced (T := T) (Usbutil.read_serial d n).
Proof.
  intros s. destruct (Usbutil.read_serial d n s) as [o s'] eqn:Hrun. cbn [snd].
  unfold Usbutil.read_serial in Hrun. run_in Hrun.
  all: injection Hrun as <- <-; cbn [sys_trace]; eexists; split;
    [rewrite <- ?app_assoc; reflexivity|].
  all: use_open_sane Hos.
  all: repeat match goal with H : negb (?x =? 0) = _ |- _ =>
         destruct (Z.eqb_spec x 0); simpl in H; try discriminate H; clear H end.
  all: try congruence.
  all: cbn; rewrite ?N.eqb_refl; auto.
Qed.
End Locator.

Section Locators.
Context {W : Type} `{UsbHost W} {T : Type}.
Hypothesis Hos : open_sane W.

Lemma match_id_balanced devs v p rs found :
  balanced (T := T) (Usbutil.match_id devs v p rs found).
Proof.
  revert found. induction devs as [|d devs IH]; intros found; cbn [Usbutil.match_id];
    solve_balanced_with ltac:(apply IH || apply read_serial_balanced, Hos).
Qed.

Lemma find_by_id_balanced v p rs : balanced (T := T) (Usbutil.usbutil_find_by_id v p rs).
Proof.
  unfold Usbutil.usbutil_find_by_id. solve_balanced_with ltac:(apply match_id_balanced).
Qed.

Lemma match_loc_free devs b d found : emits (T := T) handle_free (Usbutil.match_loc devs b d found).
Proof.
  revert found. induction devs as [|x devs IH]; intros found; cbn [Usbutil.match_loc];
    solve_free; apply IH.
Qed.

Lemma find_by_loc_balanced loc : balanced (T := T) (Usbutil.usbutil_find_by_loc loc).
Proof.
  apply balanced_free. unfold Usbutil.usbutil_find_by_loc.
  destruct loc as [loc|]; [|solve_free].
  destruct (Usbutil.parse_loc loc) as [[b d]|]; solve_free. apply match_loc_free.
Qed.
End Locators.

Section Loops.
Context {W : Type} `{UsbHost W} {T : Type}.

Lemma flush_loop_works_on fuel h ep len tmo :
  emits (T := T) (works_on h) (flush_loop fuel (Some h) ep len tmo).
Proof.
  induction fuel as [|fuel IH]; cbn [flush_loop];
    solve_emits_with ltac:(split; [intros ?; reflexivity | reflexivity]); exact IH.
Qed.
End Loops.

(** The fake host opens exactly the devices it has. *)
Lemma fake_open_sane : open_sane fake.
Proof. intros d w. cbn. destruct (fake_dev w d); cbn; lia. Qed.

Lemma zeroed_open_sane {W : Type} `{UsbHost W} : open_sane W -> open_sane (zeroed W).
Proof. intros Hos d w. exact (Hos d (zeroed_world w)). Qed.

Lemma zeroed_uninit_null {W : Type} `{UsbHost W} : uninit_null (zeroed W).
Proof. intros w. reflexivity. Qed.

(** [emits] from the states satisfying [P] only: a computation that
    reads the handle from the struct works on that handle. *)
Definition emits_at {W : Type} `{UsbHost W} {T A : Type} (P : sys W T -> Prop)
    (Q : event -> Prop) (m : M (sys W T) A) : Prop :=
  forall s, P s -> exists evs, sys_trace (snd (m s)) = sys_trace s ++ evs /\ Forall Q evs.

Lemma emits_at_run {W : Type} `{UsbHost W} {T A : Type} (P : sys W T -> Prop) Q
    (m : M (sys W T) A) s o s' :
  emits_at P Q m -> P s -> m s = (o, s') ->
  exists evs, sys_trace s' = sys_trace s ++ evs /\ Forall Q evs.
Proof. intros Hm Hp E. destruct (Hm s Hp) as (evs & Ht & Hq). rewrite E in Ht. eauto. Qed.

(** A computation that never takes its error path: the flush loop. *)
Definition never_fails {W : Type} `{UsbHost W} {T A : Type} (m : M (sys W T) A) : Prop :=
  forall s f s', m s <> (Error f, s').

Section NeverFails.
Context {W : Type} `{UsbHost W} {T : Type}.

Lemma flush_loop_never_fails fuel h ep len tmo :
  never_fails (T := T) (flush_loop fuel h ep len tmo).
Proof.
  induction fuel as [|fuel IH]; intros s f s' E; [discriminate E|].
  cbn [flush_loop] in E. rewrite bind_usb in E.
  destruct (fst (host_step _ _)) as [rc buf]. destruct (rc =? 0); [discriminate E|exact (IH _ _ _ E)].
Qed.
End NeverFails.

Create HintDb own discriminated.
#[export] Hint Resolve find_by_id_balanced find_by_loc_balanced flush_loop_works_on
  flush_loop_never_fails
  Usbutil.usbutil_find_by_id_keeps Usbutil.usbutil_find_by_loc_keeps : own.

(** Replace the run of each sub-computation that [run_in] left,
    [Hm : m s = (o, s')], by the events it appends and what its lemma in
    [own] says of them. *)
Ltac trace_segments :=
  repeat match goal with
  | Hm : ?m ?s = (Error ?f, ?s') |- _ =>
      let m' := eval simpl in m in
      let Hn := fresh "Hn" in assert (Hn : never_fails m') by eauto with own;
      destruct (Hn s f s' Hm)
  | Hm : ?m ?s = (?o, ?s') |- _ =>
      first
        [ let Hb := fresh "Hb" in assert (Hb : balanced m) by eauto with own;
          let evs := fresh "evs" in let Et := fresh "Et" in
          let Hh := fresh "Hh" in
          destruct (balanced_run m s o s' Hb Hm) as (evs & Et & ? & Hh);
          try (destruct Hh as [Hh|Hh]; [discriminate Hh|])
        | let m' := eval simpl in m in
          let Hb := fresh "Hb" in eassert (Hb : emits (works_on _) m') by eauto with own;
          let evs := fresh "evs" in let Et := fresh "Et" in
          destruct (emits_run _ m' s o s' Hb Hm) as (evs & Et & ?)
        | let Hb := fresh "Hb" in eassert (Hb : emits_at _ (works_on _) m) by eauto with own;
          let evs := fresh "evs" in let Et := fresh "Et" in
          destruct (emits_at_run _ _ m s o s' Hb ltac:(cbn; reflexivity) Hm) as (evs & Et & ?) ];
      try (let Ek := fresh "Ek" in
           assert (Ek : sys_tr s' = sys_tr s)
             by (apply (keeps_tr_run m s o s'); [eauto with own usb | exact Hm]);
           rewrite Ek in * );
      clear Hm; repeat match goal with Hb : balanced _ |- _ => clear Hb
                                  | Hb : emits _ _ |- _ => clear Hb
                                  | Hb : emits_at _ _ _ |- _ => clear Hb end;
      match goal with Et : sys_trace s' = _ |- _ => rewrite Et in * end
  end.

(** The equations on the struct's handle that [run_in] left by splitting
    a [match] on it. *)
Ltac handle_eqs :=
  repeat match goal with
  | E : ?x = Some _ |- _ => progress cbn in E
  | E : ?x = None |- _ => progress cbn in E
  | E : _ = ?y |- _ => lazymatch y with context [sys_tr (mk_sys _ _ _)] => cbn in E end
  | E : Some _ = Some _ |- _ => injection E as E; subst
  | E : ?x = Some _ |- _ => is_var x; subst x
  | E1 : ?x = Some _, E2 : ?x = None |- _ => rewrite E2 in E1; discriminate E1
  | E : Some _ = None |- _ => discriminate E
  | E : None = Some _ |- _ => discriminate E
  end.

(** Evaluate [live_from] and [held_from] along a trace made of concrete
    events and of the segments [trace_segments] introduced. *)
Ltac ledger_eval :=
  repeat first
    [ progress cbn [live_from app live ledger_step call_handle fst snd open_handles claims]
    | progress change (open_handles nothing_held) with (@nil handle)
    | progress change (claims nothing_held) with (@nil (handle * Z))
    | rewrite held_from_cons
    | match goal with E : (?x =? ?y) = _ |- context [?x =? ?y] => rewrite E end
    | match goal with
      | Hl : live_from nothing_held ?evs = true,
        Hh : held_from nothing_held ?evs = nothing_held
        |- context [?f nothing_held (?evs ++ ?rest)] =>
          let E1 := fresh in let E2 := fresh in
          destruct (live_balanced_app evs rest Hl Hh) as [E1 E2]; rewrite ?E1, ?E2; clear E1 E2
      | Hl : live_from nothing_held ?evs = true |- context [live_from nothing_held ?evs] =>
          rewrite Hl
      | Hh : held_from nothing_held ?evs = nothing_held |- context [held_from nothing_held ?evs] =>
          rewrite Hh
      | Hd : forall l, In ?h (open_handles l) -> live_from l ?evs = true /\ _
        |- context [live_from ?l (?evs ++ ?rest)] =>
          let E1 := fresh in let E2 := fresh in
          destruct (Hd l) as [E1 E2]; [cbn; auto|];
          rewrite live_from_app, held_from_app, E1, E2; clear E1 E2
      | Hd : forall l, In ?h (open_handles l) -> live_from l ?evs = true /\ _
        |- context [live_from ?l ?evs] =>
          let E1 := fresh in let E2 := fresh in
          destruct (Hd l) as [E1 E2]; [cbn; auto|]; rewrite E1; rewrite ?E2; clear E1 E2
      | Hw : Forall (works_on ?h) ?evs |- context [?f ?l (?evs ++ ?rest)] =>
          let E1 := fresh in let E2 := fresh in
          destruct (live_works_on_app h l evs rest Hw) as [E1 E2];
            [cbn; auto | rewrite ?E1, ?E2; clear E1 E2]
      | Hw : Forall (works_on ?h) ?evs |- context [?f ?l ?evs] =>
          let E1 := fresh in let E2 := fresh in
          destruct (works_on_live h l evs Hw) as [E1 E2];
            [cbn; auto | rewrite ?E1, ?E2; clear E1 E2]
      end ].

(** Rewrite each read of an unwritten handle variable with [uninit_null]. *)
Ltac use_uninit_null Hnull :=
  repeat match goal with
  | Hc : host_step UninitHandle ?w = (?r, _) |- _ =>
      let Hn := fresh "Hn" in
      pose proof (Hnull w) as Hn; rewrite Hc in Hn; cbn [fst] in Hn; clear Hc;
      first [discriminate Hn | subst r]
  end.

(** The return codes tested with [rc != 0] on the path [run_in] took. *)
Ltac rc_facts :=
  repeat match goal with
  | H : negb (?x =? ?y) = _ |- _ =>
      let E := fresh "Erc" in destruct (x =? y) eqn:E; cbn in H; try discriminate H; clear H
  end.

(** Close a goal of [open_contract] once the ledger is evaluated. *)
Ltac ledger_close :=
  unfold owns_after, held_from; cbn; rewrite ?N.eqb_refl, ?Z.eqb_refl; cbn;
  split; [reflexivity | eauto].

Ltac ledger_finish :=
  cbn [sys_trace sys_tr]; eexists; split; [rewrite <- ?app_assoc; reflexivity|];
  ledger_eval; ledger_close.

(** Finish a proof of [open_contract] after [run_in Hrun] split the run
    of the [open] into its paths (a path that ends in a loop leaves the
    loop's run as [Hrun]): the runs of inlined code that [run_in]
    left ([run_subs]) are run too, the loops and the locator are replaced
    by their segments, and the ledger is evaluated along the trace. *)
Ltac run_subs :=
  repeat match goal with
  | Hm : ?m ?s = (?o, ?s') |- _ =>
      lazymatch m with bind _ _ => idtac | catch _ _ => idtac end;
      run_in Hm; injection Hm; intros; subst
  end.

Ltac open_contract_close_with Hos Hrun tac :=
  lazymatch type of Hrun with
  | (_, _) = _ => injection Hrun as <- <-
  | _ = (?o, _) => destruct o
  end; run_subs; tac; use_open_sane Hos; handle_eqs; trace_segments;
  handle_eqs; rc_facts; ledger_finish.

Ltac open_contract_close Hos Hrun := open_contract_close_with Hos Hrun idtac.

(** Finish a proof of [destroy_contract] after [run_in Hrun], where [Hh]
    gives the struct's handle. *)
Ltac destroy_finish Hh :=
  cbn [sys_trace sys_tr]; eexists; split; [rewrite <- ?app_assoc; reflexivity|];
  cbn; rewrite ?Hh; cbn; rewrite ?N.eqb_refl, ?Z.eqb_refl; cbn; auto.

Ltac destroy_close Hh Hrun :=
  injection Hrun as <- <-; rewrite ?Hh in *; handle_eqs; destroy_finish Hh.

(** Close a goal of [balanced] once the ledger is evaluated. *)
Ltac balanced_finish :=
  cbn [sys_trace sys_tr]; eexists; split; [rewrite <- ?app_assoc; reflexivity|];
  ledger_eval; unfold held_from; cbn; rewrite ?N.eqb_refl, ?Z.eqb_refl; cbn;
  split; [reflexivity | first [left; reflexivity | right; reflexivity]].
