(* ===== verification/UsbutilList.v ===== *)
(** * The device listing: [usbutil_list] of [src/unnamed/part_000]

    [usbutil_list] walks libusb's device list, skips a device whose
    descriptor cannot be read, prints a header ["Devices on bus %03d:"]
    whenever the bus number changes, then one line per device: its
    location ["%03d:%03d"], its IDs ["%04x:%04x"], the help string of
    [device_help] and, when [read_serial] succeeds, its serial number.
    The model returns the lines printed, each as the values [printc] is
    given ([list_line]); [render_line] is the text [printc] writes.  Bus
    numbers and addresses are [uint8_t] and IDs [uint16_t] in libusb, so the
    fixed-width formats print them in full.

    The theorem of this file composes the listing with the locator: the
    location a device line shows, typed back to [usbutil_find_by_loc] on
    the same bus, finds a device at that bus and address. *)

From S2P Require Import Prelude Usb FakeHost Usbutil.
From stdpp Require Import strings.
From Stdlib Require Import Ascii String.

Local Open Scope Z_scope.
Local Open Scope usb_scope.

Module UsbutilList.
Import Usbutil.

(** A line [usbutil_list] prints, with the values its [printc] calls get. *)
Inductive list_line :=
| BusHeader (bus : Z)
| DeviceLine (bus addr vendor product : Z) (help : string) (serial : option string).

(** [%04x]: four lowercase hexadecimal digits. *)
Definition hex_digit (n : Z) : ascii :=
  if n <? 10 then digit n else ascii_of_nat (Z.to_nat (87 + n)).

Definition fmt04x (n : Z) : list ascii :=
  [hex_digit ((n / 4096) mod 16); hex_digit ((n / 256) mod 16);
   hex_digit ((n / 16) mod 16); hex_digit (n mod 16)].

Definition newline : string := String (ascii_of_nat 10) EmptyString.

(** The text of a line: the format strings of the three [printc] calls. *)
Definition render_line (l : list_line) : string :=
  match l with
  | BusHeader bus =>
      "Devices on bus " +:+ string_of_list_ascii (fmt03d bus) +:+ ":" +:+ newline
  | DeviceLine bus addr vendor product help serial =>
      "    " +:+ string_of_list_ascii (fmt03d bus ++ ":"%char :: fmt03d addr) +:+ " " +:+
      string_of_list_ascii (fmt04x vendor ++ ":"%char :: fmt04x product) +:+ " " +:+ help +:+
      match serial with
      | Some sn => " [serial: " +:+ string_of_list_ascii (cstr sn) +:+ "]" +:+ newline
      | None => newline
      end
  end.

Section Listing.
Context {W : Type} `{UsbHost W} {T : Type}.

(** The [while ((dev = devs[i++]) != NULL)] loop, from the bus printed
    last ([bus]). *)
Fixpoint list_devices (devs : list device) (bus : Z) : M (sys W T) (list list_line) :=
  match devs with
  | [] => ret []
  | dev :: rest =>
      let* (rc, desc) := usb (GetDeviceDescriptor dev) in
      if negb (rc =? 0) then list_devices rest bus else
      b <- usb (GetBusNumber dev) ;;
      hdr <- (if negb (bus =? b) then b' <- usb (GetBusNumber dev) ;; ret (Some b')
              else ret None) ;;
      let bus := match hdr with Some b' => b' | None => bus end in
      addr <- usb (GetDeviceAddress dev) ;;
      serial <- read_serial dev 128 ;;
      lines <- list_devices rest bus ;;
      ret (match hdr with Some b' => [BusHeader b'] | None => [] end ++
           DeviceLine bus addr (idVendor desc) (idProduct desc) (device_help desc) serial
           :: lines)
  end.

Definition usbutil_list : M (sys W T) (list list_line) :=
  devs <- usb GetDeviceList ;;
  lines <- list_devices devs (-1) ;;
  usb (FreeDeviceList true) ;;
  ret lines.
End Listing.

(** * Lemmas *)

Lemma last_match_found {A} (p : A -> bool) l found y :
  last_match p l found = Some y -> p y = true \/ found = Some y.
Proof.
  revert found. induction l as [|x l IH]; intros found E; [now right|].
  cbn in E. destruct (IH _ E) as [Hy|Hy]; [now left|].
  destruct (p x) eqn:Hp; [left; congruence|now right].
Qed.

Lemma last_match_some {A} (p : A -> bool) l x : last_match p l (Some x) <> None.
Proof. revert x. induction l as [|y l IH]; intros x; cbn; [discriminate|]. destruct (p y); apply IH. Qed.

Lemma last_match_in {A} (p : A -> bool) l x found :
  In x l -> p x = true -> last_match p l found <> None.
Proof.
  revert found. induction l as [|y l IH]; intros found Hx Hp; [destruct Hx|].
  destruct Hx as [<-|Hx]; cbn; [rewrite Hp; apply last_match_some | now apply IH].
Qed.

(** The device line of the location [bus:addr] shows it at characters
    4 to 10. *)
Lemma render_device_loc bus addr v p help serial :
  String.substring 4 7 (render_line (DeviceLine bus addr v p help serial)) = format_loc bus addr.
Proof. reflexivity. Qed.

Section ListingSpec.
Context {W : Type} `{UsbHost W} {T : Type}.
Variables (B : bus_view) (P : W -> Prop).
Hypothesis Hbus : static_bus B P.

Lemma read_serial_static d n (s s' : sys W T) r :
  P (sys_world s) -> read_serial d n s = (r, s') -> P (sys_world s').
Proof.
  intros Hp Hrun. unfold read_serial in Hrun. run_in Hrun.
  all: injection Hrun as _ <-; cbn [sys_world].
  all: repeat match goal with
       | Hc : host_step ?c ?w0 = (?r, ?w) |- _ =>
           let K := fresh "K" in
           pose proof (static_keep _ _ Hbus c w0) as K; rewrite Hc in K; cbn [snd] in K;
           clear Hc; specialize (K ltac:(assumption))
       end.
  all: assumption.
Qed.
Lemma list_devices_lines devs :
  forall bus (s s' : sys W T) lines, P (sys_world s) ->
    list_devices devs bus s = (Done lines, s') ->
    P (sys_world s') /\
    forall b a v p h sn, In (DeviceLine b a v p h sn) lines -> exists d, In d devs /\ bv_loc B d = (b, a).
Proof.
  induction devs as [|d rest IH]; intros bus s s' lines Hp Hrun.
  - injection Hrun as <- <-. split; [exact Hp | intros; contradiction].
  - cbn [list_devices] in Hrun. bus_call Hbus Hrun. destruct (bv_desc B d) as [rc desc].
    cbv beta iota in Hrun. destruct (negb (rc =? 0)).
    { apply IH in Hrun as [Hp' Hl]; [|cbn [sys_world]; assumption]. split; [exact Hp'|].
      intros * Hin. destruct (Hl _ _ _ _ _ _ Hin) as (x & Hx & E). exists x. split; [now right|exact E]. }
    bus_call Hbus Hrun. destruct (negb (bus =? fst (bv_loc B d))) eqn:Eb.
    all: rewrite ?bind_assoc in Hrun; try bus_call Hbus Hrun; rewrite ?bind_ret_l in Hrun;
      cbv beta iota in Hrun.
    all: bus_call Hbus Hrun.
    all: unfold bind at 1 in Hrun; destruct (read_serial d 128 _) as [[sn| |] s2] eqn:Er;
      try discriminate.
    all: apply read_serial_static in Er; [|cbn [sys_world]; assumption].
    all: unfold bind at 1 in Hrun; destruct (list_devices rest _ s2) as [[ls| |] s3] eqn:El;
      try discriminate.
    all: apply IH in El as [HpE HlE]; [|assumption].
    all: injection Hrun as <- <-; split; [exact HpE|].
    all: intros b a v p h sn' Hin; cbn [app In] in Hin.
    all: repeat destruct Hin as [Hin|Hin]; try discriminate Hin.
    all: try (destruct (HlE _ _ _ _ _ _ Hin) as (x & Hx & E); exists x; split; [now right|exact E]).
    all: injection Hin as <- <- _ _ _ _; exists d; split; [now left|].
    all: rewrite ?negb_false_iff, ?Z.eqb_eq in Eb; subst; apply surjective_pairing.
Qed.

(** C20. On a static bus whose bus numbers and addresses are below 1000,
    the location shown by any device line [usbutil_list] prints
    (characters 4 to 10 of the line), given to [usbutil_find_by_loc],
    finds a device of the bus at that bus number and address. *)
Theorem usbutil_list_find_by_loc (s s1 s2 : sys W T) lines b a v p h sn :
  P (sys_world s) ->
  (forall d, In d (bv_devices B) -> 0 <= fst (bv_loc B d) < 1000 /\ 0 <= snd (bv_loc B d) < 1000) ->
  usbutil_list s = (Done lines, s1) -> In (DeviceLine b a v p h sn) lines ->
  P (sys_world s2) ->
  exists d, fst (usbutil_find_by_loc
                   (Some (String.substring 4 7 (render_line (DeviceLine b a v p h sn)))) s2)
              = Done (Some d) /\ bv_loc B d = (b, a).
Proof.
  intros Hp Hr Hrun Hin Hp2. unfold usbutil_list in Hrun. bus_call Hbus Hrun.
  unfold bind at 1 in Hrun.
  destruct (list_devices (bv_devices B) (-1) _) as [[ls| |] s3] eqn:El; try discriminate.
  apply list_devices_lines in El as [_ Hl]; [|cbn [sys_world]; assumption].
  run_in Hrun. injection Hrun as -> _.
  destruct (Hl _ _ _ _ _ _ Hin) as (d & Hd & Eloc).
  destruct (Hr d Hd) as [Hb Ha]. rewrite Eloc in Hb, Ha. cbn in Hb, Ha.
  rewrite render_device_loc, (find_by_loc_result B P Hbus _ b a s2 Hp2 (parse_format_loc b a Hb Ha)).
  destruct (last_match (at_loc B b a) (bv_devices B) None) as [d'|] eqn:Em.
  - exists d'. split; [reflexivity|].
    destruct (last_match_found _ _ _ _ Em) as [Hd'|]; [|discriminate].
    unfold at_loc in Hd'. apply andb_true_iff in Hd' as [E1 E2]. apply Z.eqb_eq in E1, E2.
    rewrite (surjective_pairing (bv_loc B d')), E1, E2. reflexivity.
  - exfalso. apply (last_match_in (at_loc B b a) (bv_devices B) d None Hd); [|exact Em].
    unfold at_loc. rewrite Eloc. cbn. now rewrite !Z.eqb_refl.
Qed.
End ListingSpec.
(** ** Witness *)

Lemma usbutil_list_find_by_loc_witness :
  let devs := [hid_device; cp_device] in
  let s := start (fake_world devs []) tt in
  exists d, fst (usbutil_find_by_loc
                   (Some (String.substring 4 7
                            (render_line (DeviceLine 1 5 0x10c4 0xea60 "" (Some "CP0001"))))) s)
              = Done (Some d) /\ bv_loc (fake_bus devs) d = (1, 5).
Proof.
  intros devs s.
  apply (usbutil_list_find_by_loc (fake_bus devs) (fun w => fk_devices w = devs) (fake_static devs)
           s (snd (usbutil_list s)) s
           [BusHeader 1; DeviceLine 1 2 0x2047 0x0200 "USB bootstrap loader" (Some "HID0001");
            DeviceLine 1 5 0x10c4 0xea60 "" (Some "CP0001")]).
  - reflexivity.
  - intros d Hd. cbn in Hd. destruct Hd as [<-|[<-|[]]]; cbv [fake_bus bv_loc devs]; simpl; lia.
  - vm_compute. reflexivity.
  - cbn. auto.
  - reflexivity.
Defined.

End UsbutilList.
