(* ===== verification/Bslhid.v ===== *)
(** * The HID framing backend: [src/transport/bslhid.c]

    The struct [bslhid_transport], the interface search [find_interface],
    [open_device], and the operations [bslhid_send], [bslhid_recv],
    [bslhid_flush], [bslhid_set_modem], [bslhid_suspend], [bslhid_resume],
    [bslhid_destroy], [bslhid_open], as functions on the struct in the
    monad of [Usb].  The frame of the wire format is [bslhid_frame]; the
    theorems state what [bslhid_send] and [bslhid_recv] do with it, and how
    suspend and resume move the handle. *)

From S2P Require Import Prelude Usb Usbutil FakeHost Ownership.
From stdpp Require Import strings.


Local Open Scope Z_scope.
Local Open Scope usb_scope.

Module Bslhid.

Definition BSLHID_VID : Z := 0x2047.
Definition BSLHID_PID : Z := 0x0200.
Definition BSLHID_CLASS : Z := USB_CLASS_HID.
Definition BSLHID_XFER_SIZE : Z := 64.
Definition BSLHID_MTU : Z := BSLHID_XFER_SIZE - 2.
Definition BSLHID_HEADER : Z := 0x3F.
Definition BSLHID_TIMEOUT : Z := 5000.

Record bslhid_transport := mk_bslhid_transport {
  cfg_number : Z;
  int_number : Z;
  handle : option Usb.handle;
  in_ep : Z;
  out_ep : Z;
  path : string;      (** [char path[8]] *)
  serial : string     (** [char serial[128]] *)
}.

(** [memset(tr, 0, sizeof tr)]: the zeroed struct *)
Definition bslhid_zero : bslhid_transport :=
  mk_bslhid_transport 0 0 None 0 0 String.EmptyString String.EmptyString.

Definition set_handle (tr : bslhid_transport) (h : option Usb.handle) : bslhid_transport :=
  mk_bslhid_transport (cfg_number tr) (int_number tr) h (in_ep tr) (out_ep tr)
    (path tr) (serial tr).

Definition set_eps (tr : bslhid_transport) (i o : Z) : bslhid_transport :=
  mk_bslhid_transport (cfg_number tr) (int_number tr) (handle tr) i o
    (path tr) (serial tr).

Definition set_intf (tr : bslhid_transport) (cfg intf : Z) : bslhid_transport :=
  mk_bslhid_transport cfg intf (handle tr) (in_ep tr) (out_ep tr)
    (path tr) (serial tr).

Definition set_ids (tr : bslhid_transport) (p s : string) : bslhid_transport :=
  mk_bslhid_transport (cfg_number tr) (int_number tr) (handle tr) (in_ep tr)
    (out_ep tr) p s.

(** ** find_interface *)

(** The endpoint loop: a bulk endpoint with the direction bit set is the IN
    endpoint, otherwise the OUT endpoint; a later one overrides an earlier. *)
Definition scan_endpoint (io : Z * Z) (ep : endpoint_descriptor) : Z * Z :=
  let type := Z.land (bmAttributes ep) USB_ENDPOINT_TYPE_MASK in
  let addr := bEndpointAddress ep in
  if negb (type =? USB_ENDPOINT_TYPE_BULK) then io
  else if negb (Z.land addr USB_ENDPOINT_DIR_MASK =? 0) then (addr, snd io)
  else (fst io, addr).

(** The interface loop, from interface number [i]: the struct as the loop
    leaves it (it writes [in_ep] and [out_ep] for every HID interface it
    tries) and whether an interface with both endpoints was found. *)
Fixpoint scan_interfaces (cfg i : Z) (ifs : list interface_descriptor)
    (tr : bslhid_transport) : bool * bslhid_transport :=
  match ifs with
  | [] => (false, tr)
  | desc :: rest =>
      if negb (bInterfaceClass desc =? BSLHID_CLASS)
      then scan_interfaces cfg (i + 1) rest tr
      else
        let '(ie, oe) := fold_left scan_endpoint (endpoint desc) (-1, -1) in
        let tr' := set_eps tr ie oe in
        if (0 <=? ie) && (0 <=? oe) then (true, set_intf tr' cfg i)
        else scan_interfaces cfg (i + 1) rest tr'
  end.

Section Operations.
Context {W : Type} `{UsbHost W}.
Abbreviation MB := (M (sys W bslhid_transport)).

Definition find_interface (dev : device) : MB unit :=
  let* (rc, c) := usb (GetConfigDescriptor dev 0) in
  if negb (rc =? 0) then fail (ConfigDescriptorError rc) else
  tr <- get_tr ;;
  let (ok, tr') := scan_interfaces (bConfigurationValue c) 0 (interface c) tr in
  set_tr tr' ;;
  if ok then ret tt else fail NoInterface.

(** [open_device], Linux build: the kernel driver is detached when
    active (a failure is only a warning); a failed claim closes the
    handle, but the field keeps its value. *)
Definition open_device (dev : device) : MB unit :=
  let* (rc, _) := usb (GetDeviceDescriptor dev) in
  if negb (rc =? 0) then fail (DescriptorError rc) else
  find_interface dev ;;
  let* (rc, oh) := usb (Open dev) in
  tr <- get_tr ;;
  let tr := match oh with Some h => set_handle tr (Some h) | None => tr end in
  set_tr tr ;;
  match handle tr with
  | None => fail (OpenError rc)
  | Some _ =>
      active <- usb (KernelDriverActive (handle tr) (int_number tr)) ;;
      when (active =? 1) (usb (DetachKernelDriver (handle tr) (int_number tr)) ;; ret tt) ;;
      rc <- usb (ClaimInterface (handle tr) (int_number tr)) ;;
      if negb (rc =? 0) then usb (Close (handle tr)) ;; fail (ClaimError rc)
      else ret tt
  end.

Definition bslhid_destroy : MB unit :=
  tr <- get_tr ;;
  match handle tr with
  | None => ret tt
  | Some _ =>
      usb (ReleaseInterface (handle tr) (int_number tr)) ;;
      d <- usb (GetDevice (handle tr)) ;;
      usb (UnrefDevice d) ;;
      usb (Close (handle tr))
  end.

Definition bslhid_flush (fuel : nat) : MB unit :=
  tr <- get_tr ;;
  match handle tr with
  | None => ret tt
  | Some _ => flush_loop fuel (handle tr) (in_ep tr) BSLHID_XFER_SIZE 100
  end.
End Operations.

(** The 64-byte frame [bslhid_send] builds in [outbuf]: [memset] to 0xac,
    header, length, payload. *)
Definition bslhid_frame (data : list Z) : list Z :=
  let len := Z.of_nat (length data) in
  [BSLHID_HEADER; len] ++ data ++ repeat 0xAC (Z.to_nat (BSLHID_MTU - len)).

Section Transfers.
Context {W : Type} `{UsbHost W}.
Abbreviation MB := (M (sys W bslhid_transport)).

(** [bslhid_send]: the frame is built, but the loop transfers [data],
    [len] bytes, from the caller's buffer. *)
Definition bslhid_send (fuel : nat) (data : list Z) : MB unit :=
  tr <- get_tr ;;
  match handle tr with
  | None => fail Suspended
  | Some _ =>
      let len := Z.of_nat (length data) in
      if len >? BSLHID_MTU then fail (ExcessMtu len) else
      let outbuf := bslhid_frame data in
      send_loop fuel WhileNonZero (handle tr) (out_ep tr) BSLHID_TIMEOUT data len
  end.

(** The checks of [bslhid_recv] on the bytes [inbuf] of one transfer. *)
Definition bslhid_check (inbuf : list Z) (max_len : Z) : outcome (list Z) :=
  let r := Z.of_nat (length inbuf) in
  if r <? 2 then Error ShortTransfer
  else if negb (nth 0 inbuf 0 =? BSLHID_HEADER) then Error BadHeader
  else
    let len := nth 1 inbuf 0 in
    if (len >? max_len) || (len + 2 >? r) then Error (BadLength len r)
    else Done (take (Z.to_nat len) (drop 2 inbuf)).

Definition bslhid_recv (max_len : Z) : MB (list Z) :=
  tr <- get_tr ;;
  match handle tr with
  | None => fail Suspended
  | Some _ =>
      let* (rc, inbuf) := usb (BulkIn (handle tr) (in_ep tr) BSLHID_XFER_SIZE BSLHID_TIMEOUT) in
      if fatal rc then fail (BulkError rc) else
      match bslhid_check inbuf max_len with
      | Done d => ret d
      | Error f => fail f
      | OutOfFuel => out_of_fuel
      end
  end.

Definition bslhid_set_modem (state : Z) : MB unit := fail Unsupported.

Definition bslhid_suspend : MB unit :=
  tr <- get_tr ;;
  match handle tr with
  | None => ret tt
  | Some _ =>
      usb (ReleaseInterface (handle tr) (int_number tr)) ;;
      usb (Close (handle tr)) ;;
      set_tr (set_handle tr None)
  end.

(** [bslhid_resume] looks the device up by the recorded path. *)
Definition bslhid_resume : MB unit :=
  tr <- get_tr ;;
  match handle tr with
  | Some _ => ret tt
  | None =>
      usb Init ;;
      dev <- Usbutil.usbutil_find_by_loc (Some (path tr)) ;;
      match dev with
      | None => fail DeviceNotFound
      | Some dev => open_device dev
      end
  end.

(** [bslhid_open]: [dev_path] (NULL is [None]) or [requested_serial]; the
    identity is copied truncated to the array, 7 or 127 characters.  With
    both NULL the code calls [strlen(NULL)]. *)
Definition bslhid_open (fuel : nat) (dev_path requested_serial : option string) : MB unit :=
  ok <- usb Malloc ;;
  if negb ok then fail NoMemory else
  set_tr bslhid_zero ;;
  usb Init ;;
  dev <- match dev_path with
         | Some p =>
             set_tr (set_ids bslhid_zero (String.substring 0 7 p) String.EmptyString) ;;
             Usbutil.usbutil_find_by_loc (Some p)
         | None =>
             match requested_serial with
             | None => fail NullDereference     (* strlen(requested_serial) *)
             | Some s =>
                 set_tr (set_ids bslhid_zero String.EmptyString (String.substring 0 127 s)) ;;
                 Usbutil.usbutil_find_by_id BSLHID_VID BSLHID_PID requested_serial
             end
         end ;;
  match dev with
  | None => fail DeviceNotFound
  | Some dev =>
      open_device dev ;;
      bslhid_flush fuel
  end.
End Transfers.

(** Fixtures for the witnesses, on the fake host. *)

(** An open instance of the bootstrap loader at bus 1, address 2. *)
Definition live_hid : bslhid_transport :=
  mk_bslhid_transport 1 0 (Some 1%N) 0x81 0x01 "001:002" String.EmptyString.

Definition frame_state : sys fake bslhid_transport :=
  start (fake_world [hid_device] [bslhid_frame [1; 2; 3]]) live_hid.

(** A transfer with header 0x3e: the receive check reports a bad header. *)
Definition bad_header_state : sys fake bslhid_transport :=
  start (fake_world [hid_device] [[0x3E; 1; 7]]) live_hid.

Definition send_state : sys fake bslhid_transport :=
  start (fake_world [hid_device] []) live_hid.

(** An instance opened by serial number and suspended: empty path. *)
Definition suspended_by_serial : sys fake bslhid_transport :=
  start (fake_world [hid_device] [])
        (mk_bslhid_transport 1 0 None 0x81 0x01 String.EmptyString "HID0001").

(** A suspended instance whose device is back but refuses the claim. *)
Definition busy_state : sys fake bslhid_transport :=
  start (mk_fake [hid_device] [] 0 None [] ([], true) (-6))
        (mk_bslhid_transport 1 0 None 0x81 0x01 "001:002" String.EmptyString).



(** * Theorems *)

Lemma length_bslhid_frame data :
  (length data <= 62)%nat -> length (bslhid_frame data) = 64%nat.
Proof.
  intros Hl. unfold bslhid_frame, BSLHID_MTU, BSLHID_XFER_SIZE.
  rewrite length_app, length_app, repeat_length. simpl. lia.
Qed.


(** A well-formed transfer: header, a declared length that is at most
    [max_len] and fits in what was received, then the payload. *)
Definition well_formed (inbuf : list Z) (max_len : Z) : Prop :=
  exists len rest, inbuf = BSLHID_HEADER :: len :: rest /\
    len <= max_len /\ (Z.to_nat len <= length rest)%nat.

(** The receive check on bytes: it returns the declared payload exactly
    when the transfer is well formed, and a protocol failure otherwise. *)
Lemma bslhid_check_spec inbuf max_len :
  bytes_ok inbuf = true ->
  match bslhid_check inbuf max_len with
  | Done d => exists len rest, inbuf = BSLHID_HEADER :: len :: rest /\
      len <= max_len /\ (Z.to_nat len <= length rest)%nat /\
      d = take (Z.to_nat len) rest /\ Z.of_nat (length d) = len
  | Error f => failure_kind f = ProtocolFailure /\ ~ well_formed inbuf max_len
  | OutOfFuel => False
  end.
Proof.
  intros Hb. unfold bslhid_check, well_formed.
  destruct inbuf as [|b0 [|b1 rest]]; simpl.
  - split; [reflexivity|]. intros (len & rest & E & _). discriminate.
  - split; [reflexivity|]. intros (len & rest' & E & _). discriminate.
  - apply bytes_ok_cons in Hb as [_ Hb]. apply bytes_ok_cons in Hb as [Hb1 _].
    replace (Z.of_nat (S (S (length rest))) <? 2) with false by zdecide.
    destruct (b0 =? BSLHID_HEADER) eqn:Eh; simpl.
    + apply Z.eqb_eq in Eh. subst b0.
      destruct ((b1 >? max_len) || (b1 + 2 >? Z.of_nat (S (S (length rest))))) eqn:El;
        simpl.
      * split; [reflexivity|]. intros (len & rest' & E & Hm & Hr).
        injection E as <- <-.
        apply orb_true_iff in El as [El|El]; rewrite Z.gtb_ltb, Z.ltb_lt in El; lia.
      * apply orb_false_iff in El as [E1 E2].
        rewrite Z.gtb_ltb, Z.ltb_ge in E1, E2.
        exists b1, rest. rewrite drop_0. repeat split; try reflexivity; try lia.
        rewrite length_take. lia.
    + split; [reflexivity|]. intros (len & rest' & E & _).
      injection E as -> _ _. now rewrite Z.eqb_refl in Eh.
Qed.

Section Proofs.
Context {W : Type} `{UsbHost W}.

(** The answer the host gives to the single transfer of [bslhid_recv]. *)
Definition recv_answer (s : sys W bslhid_transport) : Z * list Z :=
  fst (host_step (BulkIn (handle (sys_tr s)) (in_ep (sys_tr s))
                         BSLHID_XFER_SIZE BSLHID_TIMEOUT) (sys_world s)).

Lemma bslhid_recv_run max_len (s : sys W bslhid_transport) h :
  handle (sys_tr s) = Some h ->
  fst (bslhid_recv max_len s) =
  (if fatal (fst (recv_answer s)) then Error (BulkError (fst (recv_answer s)))
   else bslhid_check (snd (recv_answer s)) max_len).
Proof.
  intros Hh. unfold bslhid_recv, recv_answer. rewrite bind_get_tr, Hh, bind_usb.
  destruct (fst (host_step _ _)) as [rc inbuf]. simpl.
  destruct (fatal rc); [reflexivity|].
  destruct (bslhid_check inbuf max_len); reflexivity.
Qed.


(** C2. [bslhid_recv] on a transfer that did not fail returns exactly the
    declared payload when the transfer is a well-formed frame (header 0x3f,
    declared length at most [max_len] and within the bytes received), and
    otherwise fails with a protocol failure: short transfer, bad header or
    bad length. *)
Theorem bslhid_recv_protocol (s : sys W bslhid_transport) h max_len :
  handle (sys_tr s) = Some h ->
  fatal (fst (recv_answer s)) = false -> bytes_ok (snd (recv_answer s)) = true ->
  match fst (bslhid_recv max_len s) with
  | Done d => exists len rest, snd (recv_answer s) = BSLHID_HEADER :: len :: rest /\
      len <= max_len /\ (Z.to_nat len <= length rest)%nat /\
      d = take (Z.to_nat len) rest /\ Z.of_nat (length d) = len
  | Error f => failure_kind f = ProtocolFailure /\ ~ well_formed (snd (recv_answer s)) max_len
  | OutOfFuel => False
  end.
Proof.
  intros Hh Hf Hb. rewrite (bslhid_recv_run _ _ _ Hh), Hf.
  now apply bslhid_check_spec.
Qed.

(** C3. [bslhid_send] of more than 62 bytes fails with the MTU error before
    any call: the state, and so the trace, is unchanged. *)
Theorem bslhid_send_excess_mtu fuel data (s : sys W bslhid_transport) :
  is_Some (handle (sys_tr s)) -> (62 < length data)%nat ->
  bslhid_send fuel data s = (Error (ExcessMtu (Z.of_nat (length data))), s).
Proof.
  intros [h Hh] Hl. unfold bslhid_send. rewrite bind_get_tr, Hh.
  unfold BSLHID_MTU, BSLHID_XFER_SIZE.
  replace (Z.of_nat (length data) >? 64 - 2) with true by lia. reflexivity.
Qed.

(** C4. What [bslhid_send] puts on the wire is the caller's payload, not
    the 64-byte frame it builds: when it returns 0, the bytes moved are
    exactly [data], which differs from [bslhid_frame data]. *)
Theorem bslhid_send_wire_payload (Hsane : bulk_out_sane) fuel data
    (s s' : sys W bslhid_transport) :
  bslhid_send fuel data s = (Done tt, s') ->
  wire_out (sys_trace s') = wire_out (sys_trace s) ++ data /\
  data <> bslhid_frame data.
Proof.
  unfold bslhid_send. rewrite bind_get_tr.
  destruct (handle (sys_tr s)) as [h|] eqn:Hh; [|discriminate].
  destruct (Z.of_nat (length data) >? BSLHID_MTU) eqn:Hm; [discriminate|].
  intros Hrun.
  destruct (send_loop_prefix Hsane _ _ _ _ _ _ _ _ _ Hrun) as (pre & Hw & _ & Hd & _).
  rewrite Hw, (Hd eq_refl). split; [reflexivity|].
  intros E. apply (f_equal (@length Z)) in E.
  unfold BSLHID_MTU, BSLHID_XFER_SIZE in Hm.
  rewrite length_bslhid_frame in E; lia.
Qed.

Lemma open_device_claim_error dev (s s' : sys W bslhid_transport) rc :
  open_device dev s = (Error (ClaimError rc), s') ->
  exists h pre, handle (sys_tr s') = Some h /\
    sys_trace s' = pre ++ [Ev (Close (Some h)) tt].
Proof.
  intros Hrun. unfold open_device in Hrun. run_in Hrun.
  all: injection Hrun as Hf <-; subst.
  all: first [ eexists _, _; split; [eassumption | reflexivity]
             | unfold find_interface in Hm; run_in Hm ].
Qed.

(** C28. [bslhid_suspend] on an open instance releases the interface,
    closes the handle and sets it to NULL; the suspended instance then
    refuses [bslhid_send] and [bslhid_recv] without any call. *)
Theorem bslhid_suspend_refuses fuel data max_len (s s' : sys W bslhid_transport) h :
  handle (sys_tr s) = Some h ->
  bslhid_suspend s = (Done tt, s') ->
  handle (sys_tr s') = None /\
  (exists rc, sys_trace s' = sys_trace s ++
     [Ev (ReleaseInterface (Some h) (int_number (sys_tr s))) rc; Ev (Close (Some h)) tt]) /\
  bslhid_send fuel data s' = (Error Suspended, s') /\
  bslhid_recv max_len s' = (Error Suspended, s').
Proof.
  intros Hh Hrun. unfold bslhid_suspend in Hrun. run_in Hrun; [|congruence].
  match goal with E : Some _ = Some h |- _ => injection E as -> end.
  injection Hrun as <-. repeat split.
  exists r. now rewrite <- app_assoc.
Qed.

(** C29. [bslhid_resume] looks the device up only by the recorded path:
    when the path does not parse as ["bus:device"] (it is empty after
    [bslhid_open] by serial number), resume fails with DiscoveryFailure
    after [libusb_init] alone, whatever devices are present. *)
Theorem bslhid_resume_unparsable_path (s : sys W bslhid_transport) :
  handle (sys_tr s) = None -> Usbutil.parse_loc (path (sys_tr s)) = None ->
  exists s', bslhid_resume s = (Error DeviceNotFound, s') /\
    sys_trace s' = sys_trace s ++ [Ev Init (fst (host_step Init (sys_world s)))] /\
    failure_kind DeviceNotFound = DiscoveryFailure.
Proof.
  intros Hh Hp. unfold bslhid_resume. rewrite bind_get_tr, Hh, bind_usb.
  unfold Usbutil.usbutil_find_by_loc. cbn. rewrite Hp.
  eexists; split; [reflexivity | split; reflexivity].
Qed.

(** C30. When the claim fails during [bslhid_resume], the handle is closed
    but not set to NULL: the instance keeps the closed handle, and a second
    [bslhid_resume] returns 0 at once, without any call, so that the
    instance looks restored. *)
Theorem bslhid_resume_claim_failure (s s' : sys W bslhid_transport) rc :
  bslhid_resume s = (Error (ClaimError rc), s') ->
  exists h, handle (sys_tr s') = Some h /\
    (exists pre, sys_trace s' = pre ++ [Ev (Close (Some h)) tt]) /\
    bslhid_resume s' = (Done tt, s').
Proof.
  intros Hrun. unfold bslhid_resume in Hrun. run_in Hrun.
  all: try (match goal with Hm : Usbutil.usbutil_find_by_loc ?l ?s = (Error _, _) |- _ =>
              destruct (Usbutil.usbutil_find_by_loc_returns l s) as (? & ? & ?); congruence end).
  apply open_device_claim_error in Hrun as (h & pre & Hh & Ht).
  exists h. split; [exact Hh|]. split; [eauto|].
  unfold bslhid_resume. now rewrite bind_get_tr, Hh.
Qed.

End Proofs.

(** ** Ownership of the handle *)

Section Ownership.
Context {W : Type} `{UsbHost W}.

(** The interface loop leaves the handle alone. *)
Lemma bslhid_scan_handle cfg i ifs tr :
  handle (snd (scan_interfaces cfg i ifs tr)) = handle tr.
Proof.
  revert i tr. induction ifs as [|desc rest IH]; intros i tr; [reflexivity|].
  cbn [scan_interfaces]. destruct (negb _); [apply IH|].
  destruct (fold_left scan_endpoint (endpoint desc) (-1, -1)) as [ie oe].
  destruct ((0 <=? ie) && (0 <=? oe)); [reflexivity|]. rewrite IH. reflexivity.
Qed.

Ltac scan_handles :=
  repeat match goal with
  | E : scan_interfaces ?c ?i ?f ?t = (_, _) |- _ =>
      let Eh := fresh "Eh" in
      pose proof (bslhid_scan_handle c i f t) as Eh; rewrite E in Eh; simpl in Eh; clear E
  end.

(** [bslhid_open] keeps the ownership contract: on a host whose
    [libusb_open] returns a handle exactly when it succeeds, every call it
    makes works on an open handle; a failure leaves nothing open or
    claimed; a success holds exactly the struct's handle with the HID
    interface claimed. *)
Theorem bslhid_open_contract (Hos : open_sane W) fuel dev_path requested_serial :
  open_contract handle int_number (bslhid_open fuel dev_path requested_serial).
Proof.
  intros s. destruct (bslhid_open fuel dev_path requested_serial s) as [o s'] eqn:Hrun.
  cbn [fst snd]. unfold bslhid_open, open_device, find_interface, bslhid_flush in Hrun.
  run_in Hrun.
  all: open_contract_close_with Hos Hrun scan_handles.
Qed.
End Ownership.


(** * Witnesses on the fake host *)





Lemma bslhid_recv_protocol_witness :
  match fst (bslhid_recv 10 bad_header_state) with
  | Done d => exists len rest, snd (recv_answer bad_header_state) = BSLHID_HEADER :: len :: rest /\
      len <= 10 /\ (Z.to_nat len <= length rest)%nat /\
      d = take (Z.to_nat len) rest /\ Z.of_nat (length d) = len
  | Error f => failure_kind f = ProtocolFailure /\
      ~ well_formed (snd (recv_answer bad_header_state)) 10
  | OutOfFuel => False
  end.
Proof.
  apply (bslhid_recv_protocol bad_header_state 1%N); vm_compute; reflexivity.
Defined.

Lemma bslhid_send_excess_mtu_witness :
  bslhid_send 5 (repeat 0 63) frame_state =
  (Error (ExcessMtu (Z.of_nat (length (repeat 0 63)))), frame_state).
Proof.
  apply bslhid_send_excess_mtu; [eexists; reflexivity | simpl; lia].
Defined.


Lemma bslhid_send_wire_payload_witness :
  wire_out (sys_trace (snd (bslhid_send 5 [1; 2; 3] send_state))) =
    wire_out (sys_trace send_state) ++ [1; 2; 3] /\
  [1; 2; 3] <> bslhid_frame [1; 2; 3].
Proof.
  refine (bslhid_send_wire_payload _ 5 [1; 2; 3] send_state
            (snd (bslhid_send 5 [1; 2; 3] send_state)) _).
  - intros ? ? ? ? ?; simpl; lia.
  - vm_compute. reflexivity.
Defined.

Lemma bslhid_suspend_refuses_witness :
  handle (sys_tr (snd (bslhid_suspend send_state))) = None /\
  (exists rc, sys_trace (snd (bslhid_suspend send_state)) = sys_trace send_state ++
     [Ev (ReleaseInterface (Some 1%N) (int_number (sys_tr send_state))) rc;
      Ev (Close (Some 1%N)) tt]) /\
  bslhid_send 5 [1] (snd (bslhid_suspend send_state)) =
    (Error Suspended, snd (bslhid_suspend send_state)) /\
  bslhid_recv 10 (snd (bslhid_suspend send_state)) =
    (Error Suspended, snd (bslhid_suspend send_state)).
Proof.
  apply (bslhid_suspend_refuses 5 [1] 10 send_state); [reflexivity |].
  vm_compute. reflexivity.
Defined.


Lemma bslhid_resume_unparsable_path_witness :
  exists s', bslhid_resume suspended_by_serial = (Error DeviceNotFound, s') /\
    sys_trace s' = sys_trace suspended_by_serial ++
      [Ev Init (fst (host_step Init (sys_world suspended_by_serial)))] /\
    failure_kind DeviceNotFound = DiscoveryFailure.
Proof.
  apply bslhid_resume_unparsable_path; reflexivity.
Defined.


Lemma bslhid_resume_claim_failure_witness :
  exists h, handle (sys_tr (snd (bslhid_resume busy_state))) = Some h /\
    (exists pre, sys_trace (snd (bslhid_resume busy_state)) = pre ++ [Ev (Close (Some h)) tt]) /\
    bslhid_resume (snd (bslhid_resume busy_state)) = (Done tt, snd (bslhid_resume busy_state)).
Proof.
  apply (bslhid_resume_claim_failure busy_state _ (-6)).
  vm_compute. reflexivity.
Defined.

End Bslhid.
