(* ===== verification/Ti3410Firmware.v ===== *)
(** * The TI3410 firmware image: [src/transport/ti3410.c], lines 404-588

    [find_firmware] tries three paths; [load_firmware] decodes the file
    through the external Intel-HEX decoder, whose callback [do_extract]
    appends each chunk to [struct firmware] after checking that it starts
    where the image ends and fits in the buffer; [prepare_firmware] writes
    the length and checksum header over the first three bytes;
    [do_download] pushes the image in packets of at most 64 bytes.

    The buffer [uint8_t buf[16284]] is zero-filled; the model keeps its
    first [size] bytes, the only ones [prepare_firmware] reads and
    [do_download] sends (for an image shorter than 3 bytes the header bytes
    written past [size] are never sent, and the model drops them).

    The theorems characterise extraction (contiguous chunks within the
    buffer, and nothing else, are accepted), the header, the packet loop,
    and the pipeline [download_firmware] end to end: with enough fuel it
    terminates, and on success the wire carries the prepared image. *)

From S2P Require Import Prelude Usb FakeHost Ownership.
From stdpp Require Import strings.

Local Open Scope Z_scope.
Local Open Scope usb_scope.

Module Ti3410Firmware.

Definition TI_FIRMWARE_BUF_SIZE : Z := 16284.
Definition TI_DOWNLOAD_MAX_PACKET_SIZE : Z := 64.
Definition USB_FDL_INTERFACE : Z := 0.
Definition USB_FDL_OUT_EP : Z := 0x01.
Definition TIMEOUT : Z := 1000.

(** [struct firmware]: the bytes [buf[0 .. size)] and [size]. *)
Record firmware := mk_firmware {
  buf : list Z;
  size : Z
}.

(** After [memset(f, 0, sizeof f)]: no bytes, size 0. *)
Definition firmware_zero : firmware := mk_firmware [] 0.

(** [do_extract], the decoder's callback. *)
Definition do_extract (f : firmware) (ch : binfile_chunk) : outcome firmware :=
  if negb (size f =? ch_addr ch) then Error (FirmwareGap (size f) (ch_addr ch))
  else if size f + ch_len ch >? TI_FIRMWARE_BUF_SIZE then Error FirmwareTooLarge
  else Done (mk_firmware (buf f ++ take (Z.to_nat (ch_len ch)) (ch_data ch))
                         (size f + ch_len ch)).

(** [ihex_extract] (external, from the design): the callback is called on
    each chunk in order and the first callback failure stops the decoding. *)
Fixpoint ihex_extract (f : firmware) (chs : list binfile_chunk) : outcome firmware :=
  match chs with
  | [] => Done f
  | ch :: rest =>
      match do_extract f ch with
      | Done f' => ihex_extract f' rest
      | Error e => Error e
      | OutOfFuel => OutOfFuel
      end
  end.

(** The 8-bit checksum of [prepare_firmware]: [cksum += buf[i]] on a
    [uint8_t]. *)
Definition checksum (bytes : list Z) : Z :=
  fold_left (fun c b => u8 (c + b)) bytes 0.

(** [prepare_firmware]: [real_size] is [uint16_t], computed from the
    [unsigned int] [size - 3]; the header overwrites [buf[0..2]]. *)
Definition prepare_firmware (f : firmware) : firmware :=
  let real_size := u16 (size f - 3) in
  let cksum := checksum (drop 3 (buf f)) in
  mk_firmware
    (<[2%nat := cksum]> (<[1%nat := Z.shiftr real_size 8]>
       (<[0%nat := Z.land real_size 0xff]> (buf f))))
    (size f).


(** The bytes a chunk contributes, and the chunks' total length. *)
Definition chunk_bytes (ch : binfile_chunk) : list Z := take (Z.to_nat (ch_len ch)) (ch_data ch).

Definition total_len (chs : list binfile_chunk) : Z := fold_right (fun ch n => ch_len ch + n) 0 chs.

(** Chunks that follow each other from address [start] with no gap, each
    with a length its data covers: what the design requires of the
    decoder's output. *)
Fixpoint contiguous (start : Z) (chs : list binfile_chunk) : bool :=
  match chs with
  | [] => true
  | ch :: rest =>
      (ch_addr ch =? start) && (0 <=? ch_len ch) &&
      (Z.to_nat (ch_len ch) <=? length (ch_data ch))%nat &&
      contiguous (start + ch_len ch) rest
  end.

Definition sum_bytes (l : list Z) : Z := fold_right Z.add 0 l.

(** The length of the buffer an OUT transfer offers (0 for other calls). *)
Definition offered_len (e : event) : nat :=
  match e with
  | Ev c r =>
      match c in call A return A -> nat with
      | BulkOut _ _ d _ => fun _ => length d
      | _ => fun _ => 0%nat
      end r
  end.

Section Download.
Context {W : Type} `{UsbHost W} {T : Type}.

(** [find_firmware]: the environment variable (copied into a 256-byte
    path), then [LIB_DIR "/mspdebug/ti_3410.fw.ihex"], then the current
    directory; the first file [fopen] opens wins.  [LIB_DIR] is a
    build-time macro, a parameter here. *)
Definition find_firmware (lib_dir : string) : M (sys W T) (option file) :=
  env <- usb (GetEnv "MSPDEBUG_TI3410_FW") ;;
  in1 <- match env with
         | Some p => usb (FOpen (String.substring 0 255 p))
         | None => ret None
         end ;;
  match in1 with
  | Some f => ret (Some f)
  | None =>
      in2 <- usb (FOpen (lib_dir +:+ "/mspdebug/ti_3410.fw.ihex")) ;;
      match in2 with
      | Some f => ret (Some f)
      | None => usb (FOpen "ti_3410.fw.ihex")
      end
  end.

Definition load_firmware (lib_dir : string) : M (sys W T) firmware :=
  in_ <- find_firmware lib_dir ;;
  match in_ with
  | None => fail FirmwareNotFound
  | Some fh =>
      ok <- usb (IhexCheck fh) ;;
      if negb ok then usb (FClose fh) ;; fail InvalidIhex else
      let* (chs, complete) := usb (IhexRead fh) in
      match ihex_extract firmware_zero chs with
      | Done f =>
          if complete then usb (FClose fh) ;; ret f
          else usb (FClose fh) ;; fail FirmwareDecode
      | Error e => usb (FClose fh) ;; fail e
      | OutOfFuel => out_of_fuel
      end
  end.

(** The packet loop of [do_download]: [plen] is at most 64; the offset
    moves by what the transfer reports; a fatal error closes the handle. *)
Fixpoint download_loop (fuel : nat) (h : option handle) (image : list Z)
    (fsize offset : Z) : M (sys W T) unit :=
  match fuel with
  | O => out_of_fuel
  | S fuel' =>
      if offset <? fsize then
        let plen := Z.min (fsize - offset) TI_DOWNLOAD_MAX_PACKET_SIZE in
        let* (rc, r) := usb (BulkOut h USB_FDL_OUT_EP
                               (take (Z.to_nat plen) (drop (Z.to_nat offset) image)) TIMEOUT) in
        if fatal rc then usb (Close h) ;; fail (BulkError rc)
        else download_loop fuel' h image fsize (offset + r)
      else ret tt
  end.

(** [do_download], Linux build.  [handle] is a local variable that
    [libusb_open] writes only when it succeeds: after a failed open the
    test [!handle] reads an uninitialised pointer. *)
Definition do_download (fuel : nat) (dev : device) (f : firmware) : M (sys W T) unit :=
  let* (rc, _) := usb (GetDeviceDescriptor dev) in
  if negb (rc =? 0) then fail (DescriptorError rc) else
  let* (rc, oh) := usb (Open dev) in
  h <- match oh with Some h => ret (Some h) | None => usb UninitHandle end ;;
  match h with
  | None => fail (OpenError rc)
  | Some _ =>
      active <- usb (KernelDriverActive h USB_FDL_INTERFACE) ;;
      when (active =? 1) (usb (DetachKernelDriver h USB_FDL_INTERFACE) ;; ret tt) ;;
      rc <- usb (ClaimInterface h USB_FDL_INTERFACE) ;;
      if negb (rc =? 0) then usb (Close h) ;; fail (ClaimError rc) else
      download_loop fuel h (buf f) (size f) 0 ;;
      usb (DelayMs 100) ;;
      usb (ResetDevice h) ;;
      usb (Close h)
  end.

(** [download_firmware]: load, prepare, download, then [delay_s(2)]. *)
Definition download_firmware (fuel : nat) (lib_dir : string) (dev : device)
    : M (sys W T) unit :=
  f <- load_firmware lib_dir ;;
  do_download fuel dev (prepare_firmware f) ;;
  usb (DelayMs 2000).
End Download.

(** Fixtures for the witnesses, on the fake host. *)

Definition chunk_A : binfile_chunk := mk_chunk 0 4 [65; 65; 65; 65].

Definition chunk_B : binfile_chunk := mk_chunk 4 4 [66; 66; 66; 66].

Definition chunk_B_gap : binfile_chunk := mk_chunk 8 4 [66; 66; 66; 66].

Definition six_bytes : firmware := mk_firmware [0; 0; 0; 1; 2; 250] 6.

(** The same host with a firmware file that decodes to no chunk. *)
Definition empty_fw_world : fake :=
  mk_fake [cp_device] [] 0 None ["ti_3410.fw.ihex"] ([], true) 0.

(** A host with the image [AAAABBBB] in [./ti_3410.fw.ihex] and a device
    to download it to. *)
Definition fw_world : fake :=
  mk_fake [cp_device] [] 0 None ["ti_3410.fw.ihex"] ([chunk_A; chunk_B], true) 0.


(** * Theorems *)

Lemma contiguous_cons start ch rest :
  contiguous start (ch :: rest) = true <->
  ch_addr ch = start /\ 0 <= ch_len ch /\
  (Z.to_nat (ch_len ch) <= length (ch_data ch))%nat /\
  contiguous (start + ch_len ch) rest = true.
Proof.
  simpl. rewrite !andb_true_iff, Z.eqb_eq, Z.leb_le, Nat.leb_le. tauto.
Qed.

Lemma total_len_cons ch chs : total_len (ch :: chs) = ch_len ch + total_len chs.
Proof. reflexivity. Qed.

Lemma contiguous_total_nonneg chs : forall start,
  contiguous start chs = true -> 0 <= total_len chs.
Proof.
  induction chs as [|ch chs IH]; intros start Hc; [simpl; lia|].
  rewrite total_len_cons.
  apply contiguous_cons in Hc as (_ & Hl & _ & Hc). apply IH in Hc. lia.
Qed.

Lemma do_extract_next f ch :
  ch_addr ch = size f -> size f + ch_len ch <= TI_FIRMWARE_BUF_SIZE ->
  do_extract f ch = Done (mk_firmware (buf f ++ chunk_bytes ch) (size f + ch_len ch)).
Proof. intros Ha Hs. unfold do_extract. zdecide. Qed.

(** Chunks contiguous from the end of the image, that fit in the
    16284-byte buffer, are appended in order: [ihex_extract] with
    [do_extract] yields the concatenation of their bytes and the sum of
    their lengths.  From an empty image, chunks [(0,4,AAAA); (4,4,BBBB)]
    give the 8-byte image [AAAABBBB]. *)
Lemma extract_contiguous chs :
  forall f, contiguous (size f) chs = true ->
  size f + total_len chs <= TI_FIRMWARE_BUF_SIZE ->
  ihex_extract f chs =
    Done (mk_firmware (buf f ++ concat (map chunk_bytes chs)) (size f + total_len chs)).
Proof.
  induction chs as [|ch chs IH]; intros f Hc Hs.
  - destruct f. simpl. now rewrite app_nil_r, Z.add_0_r.
  - rewrite total_len_cons in Hs |- *.
    apply contiguous_cons in Hc as (Ha & Hl & _ & Hc).
    pose proof (contiguous_total_nonneg _ _ Hc) as Ht.
    simpl. rewrite do_extract_next by lia.
    rewrite IH; simpl; [| exact Hc | lia].
    now rewrite <- app_assoc, Z.add_assoc.
Qed.

(** C31. The first chunk that does not start where the image ends stops
    the load with a firmware-gap error naming the image size and the chunk
    address; nothing is zero-filled and no later chunk is examined.  From an
    empty image, [(0,4,AAAA); (8,4,BBBB)] fails with a gap at 4 for 8. *)
Theorem ihex_extract_gap pre ch post :
  forall f, contiguous (size f) pre = true ->
  size f + total_len pre <= TI_FIRMWARE_BUF_SIZE ->
  ch_addr ch <> size f + total_len pre ->
  ihex_extract f (pre ++ ch :: post) =
    Error (FirmwareGap (size f + total_len pre) (ch_addr ch)).
Proof.
  induction pre as [|c pre IH]; intros f Hc Hs Ha.
  - simpl in *. unfold do_extract. rewrite Z.add_0_r in *. zdecide.
  - rewrite total_len_cons in Hs, Ha |- *.
    apply contiguous_cons in Hc as (Hca & Hl & _ & Hc).
    pose proof (contiguous_total_nonneg _ _ Hc) as Ht.
    simpl. rewrite do_extract_next by lia.
    rewrite IH; simpl; [| exact Hc | lia | lia].
    now rewrite Z.add_assoc.
Qed.

Lemma ihex_extract_not_oof chs : forall f, ihex_extract f chs <> OutOfFuel.
Proof.
  induction chs as [|ch chs IH]; intros f; [discriminate|]. cbn [ihex_extract].
  destruct (do_extract f ch) eqn:E; [apply IH | discriminate |].
  unfold do_extract in E. repeat destruct (_ : bool); discriminate.
Qed.

(** The converse of [extract_contiguous]: what a successful extraction
    accepted was contiguous and fitted the buffer. *)
Lemma extract_done chs : Forall chunk_ok chs ->
  forall f f', size f <= TI_FIRMWARE_BUF_SIZE -> ihex_extract f chs = Done f' ->
  contiguous (size f) chs = true /\ size f + total_len chs <= TI_FIRMWARE_BUF_SIZE /\
  f' = mk_firmware (buf f ++ concat (map chunk_bytes chs)) (size f + total_len chs).
Proof.
  induction 1 as [|ch chs [Hl Hd] _ IH]; intros f f' Hs E.
  - injection E as <-. destruct f. cbn. rewrite app_nil_r, Z.add_0_r. auto.
  - cbn [ihex_extract] in E. unfold do_extract in E.
    destruct (size f =? ch_addr ch) eqn:Ea; [|discriminate]. apply Z.eqb_eq in Ea.
    destruct (size f + ch_len ch >? TI_FIRMWARE_BUF_SIZE) eqn:Eb; [discriminate|].
    rewrite Z.gtb_ltb, Z.ltb_ge in Eb. cbn [negb] in E.
    apply IH in E as (Hc & Hb & ->); [|exact Eb]. cbn [size buf] in *.
    rewrite total_len_cons. split; [apply contiguous_cons; auto|]. split; [lia|].
    rewrite <- app_assoc, Z.add_assoc. reflexivity.
Qed.

Lemma length_chunks chs : Forall chunk_ok chs ->
  Z.of_nat (length (concat (map chunk_bytes chs))) = total_len chs.
Proof.
  induction 1 as [|ch chs [Hl Hd] _ IH]; [reflexivity|].
  cbn [map concat]. rewrite length_app, total_len_cons, <- IH.
  unfold chunk_bytes. rewrite length_take. lia.
Qed.

Lemma checksum_from l a : fold_left (fun c b => u8 (c + b)) l (u8 a) = u8 (a + sum_bytes l).
Proof.
  revert a. induction l as [|b l IH]; intros a; simpl.
  - now rewrite Z.add_0_r.
  - assert (E : u8 (u8 a + b) = u8 (a + b)) by (unfold u8; now rewrite Z.add_mod_idemp_l).
    rewrite E, IH. f_equal. lia.
Qed.

(** The 8-bit checksum is the sum of the bytes modulo 256. *)
Lemma checksum_sum l : checksum l = sum_bytes l mod 256.
Proof. unfold checksum. change 0 with (u8 0). now rewrite checksum_from. Qed.

Lemma shiftr_8_small x : 0 <= x < 65536 -> Z.land (Z.shiftr x 8) 255 = Z.shiftr x 8.
Proof.
  intros Hx. rewrite land_255, shiftr_8. apply Z.mod_small.
  split; [apply Z.div_pos | apply Z.div_lt_upper_bound]; lia.
Qed.

(** C32. For an image of at least 3 bytes that fits the buffer,
    [prepare_firmware] replaces the first three bytes by the header: the
    little-endian 16-bit [size - 3], then the 8-bit sum of the bytes after
    offset 3, and leaves those bytes unchanged; the first two bytes read
    back as [size - 3]. *)
Theorem prepare_firmware_header f :
  (3 <= length (buf f))%nat -> size f = Z.of_nat (length (buf f)) ->
  size f <= TI_FIRMWARE_BUF_SIZE ->
  buf (prepare_firmware f) =
    le_split 2 (size f - 3) ++ [sum_bytes (drop 3 (buf f)) mod 256] ++ drop 3 (buf f) /\
  le_combine (take 2 (buf (prepare_firmware f))) = size f - 3.
Proof.
  intros Hl Hs Hb. unfold prepare_firmware. simpl buf.
  destruct (buf f) as [|b0 [|b1 [|b2 rest]]] eqn:E; simpl in Hl, Hs; try lia.
  unfold TI_FIRMWARE_BUF_SIZE in Hb.
  assert (Hu : u16 (size f - 3) = size f - 3) by (apply Z.mod_small; lia).
  rewrite Hu, checksum_sum. simpl. rewrite drop_0.
  rewrite (shiftr_8_small (size f - 3)) by lia.
  split; [reflexivity|].
  transitivity (le_combine (le_split 2 (size f - 3))).
  - simpl. now rewrite (shiftr_8_small (size f - 3)) by lia.
  - rewrite le_combine_split. apply Z.mod_small. simpl. lia.
Qed.

Lemma take_drop_step (l : list Z) o n m :
  (n <= m)%nat ->
  take n (take m (drop o l)) ++ drop (o + n) l = drop o l.
Proof.
  intros Hnm. rewrite take_take, Nat.min_l by exact Hnm.
  rewrite <- drop_drop. apply take_drop.
Qed.

Section DownloadProofs.
Context {W : Type} `{UsbHost W} {T : Type}.

(** The download loop of [do_download] pushes the image in packets of
    at most 64 bytes; when it returns, the bytes moved, in order, are the
    image from the starting offset: nothing lost, nothing repeated. *)
Lemma download_loop_moves (Hsane : bulk_out_sane) fuel h image :
  forall offset (s s' : sys W T),
    0 <= offset <= Z.of_nat (length image) ->
    download_loop fuel h image (Z.of_nat (length image)) offset s = (Done tt, s') ->
    exists d, sys_trace s' = sys_trace s ++ d /\
      wire_out d = drop (Z.to_nat offset) image /\
      Forall (fun e => (offered_len e <= 64)%nat) d.
Proof.
  induction fuel as [|fuel IH]; intros offset s s' Ho Hrun; [discriminate|].
  simpl in Hrun. destruct (offset <? Z.of_nat (length image)) eqn:Hlt.
  - apply Z.ltb_lt in Hlt. rewrite bind_usb in Hrun.
    set (plen := Z.min (Z.of_nat (length image) - offset) TI_DOWNLOAD_MAX_PACKET_SIZE) in *.
    set (offered := take (Z.to_nat plen) (drop (Z.to_nat offset) image)) in *.
    assert (Hlen : length offered = Z.to_nat plen).
    { subst offered plen. rewrite length_take, length_drop. unfold TI_DOWNLOAD_MAX_PACKET_SIZE. lia. }
    pose proof (Hsane h USB_FDL_OUT_EP offered TIMEOUT (sys_world s)) as Hs.
    destruct (host_step (BulkOut h USB_FDL_OUT_EP offered TIMEOUT) (sys_world s))
      as [[rc r] w'] eqn:E.
    simpl in Hs, Hrun. destruct (fatal rc).
    + rewrite bind_usb in Hrun. discriminate.
    + apply IH in Hrun as (d & Ht & Hw & Hf);
        [| subst plen; unfold TI_DOWNLOAD_MAX_PACKET_SIZE in *; lia].
      exists (Ev (BulkOut h USB_FDL_OUT_EP offered TIMEOUT) (rc, r) :: d).
      split; [rewrite Ht; simpl; now rewrite <- app_assoc|]. split.
      * change (wire_out (?e :: ?d)) with (accepted e ++ wire_out d). rewrite Hw. simpl.
        rewrite Z2Nat.inj_add by lia. subst offered. apply take_drop_step. lia.
      * constructor; [simpl; rewrite Hlen; subst plen; unfold TI_DOWNLOAD_MAX_PACKET_SIZE; lia|].
        exact Hf.
  - apply Z.ltb_ge in Hlt. injection Hrun as <-. exists []. split; [now rewrite app_nil_r|].
    rewrite drop_ge by lia. split; [reflexivity | constructor].
Qed.

End DownloadProofs.

(** C22. [do_extract] keeps the image inside [buf[16284]]: on chunks
    that keep the decoder's contract, loading from the zeroed struct
    succeeds exactly when the chunks follow each other from address 0
    without gaps and their total length fits the 16284-byte buffer; the
    image is then their concatenation, of exactly [size] bytes.  Chunks
    with a gap or that overflow the buffer are refused, never copied. *)
Theorem ihex_extract_bounded chs :
  Forall chunk_ok chs ->
  match ihex_extract firmware_zero chs with
  | Done f =>
      contiguous 0 chs = true /\ size f <= TI_FIRMWARE_BUF_SIZE /\
      f = mk_firmware (concat (map chunk_bytes chs)) (total_len chs) /\
      Z.of_nat (length (buf f)) = size f
  | Error _ => contiguous 0 chs = false \/ TI_FIRMWARE_BUF_SIZE < total_len chs
  | OutOfFuel => False
  end.
Proof.
  intros Hok. destruct (ihex_extract firmware_zero chs) as [f|e|] eqn:E.
  - apply extract_done in E as (Hc & Hb & ->); [|exact Hok|discriminate].
    cbn in *. split; [exact Hc|]. split; [exact Hb|]. split; [reflexivity|].
    exact (length_chunks chs Hok).
  - destruct (contiguous 0 chs) eqn:Hc; [|now left]. right.
    apply Z.nle_gt. intros Hb. rewrite (extract_contiguous chs firmware_zero Hc Hb) in E.
    discriminate.
  - exact (ihex_extract_not_oof chs firmware_zero E).
Qed.

Section FirmwarePipeline.
Context {W : Type} `{UsbHost W} {T : Type}.
Variable P : W -> Prop.
Hypothesis Hihex : ihex_sane P.

Lemma load_firmware_done lib_dir (s s1 : sys W T) f :
  P (sys_world s) -> load_firmware lib_dir s = (Done f, s1) ->
  exists fh chs d, sys_trace s1 = sys_trace s ++ d /\ wire_out d = [] /\
    In (Ev (IhexRead fh) (chs, true)) d /\ Forall chunk_ok chs /\
    ihex_extract firmware_zero chs = Done f.
Proof.
  intros Hp Hrun. unfold load_firmware, find_firmware in Hrun. run_in Hrun.
  all: cbn [sys_world sys_trace] in *; carry_inv P (proj1 Hihex).
  all: injection Hrun as <- <-.
  all: repeat match goal with u : unit |- _ => destruct u end.
  all: match goal with
       | Hc : host_step (IhexRead ?fh) ?w = ((?chs, true), _), Hq : P ?w,
         He : ihex_extract firmware_zero ?chs = Done _ |- _ =>
           pose proof (proj2 Hihex fh w Hq) as Hok; rewrite Hc in Hok; exists fh, chs
       end.
  all: eexists; split; [cbn [sys_trace]; rewrite <- !app_assoc; reflexivity|].
  all: split; [reflexivity|]; split; [cbn; tauto|]; split; assumption.
Qed.

Lemma download_loop_terminates (Hprog : bulk_out_progress) fuel h image :
  forall offset (s : sys W T), 0 <= offset ->
  (Z.to_nat (Z.of_nat (length image) - offset) < fuel)%nat ->
  fst (download_loop fuel h image (Z.of_nat (length image)) offset s) <> OutOfFuel.
Proof.
  induction fuel as [|fuel IH]; intros offset s Ho Hf; [lia|].
  cbn [download_loop]. destruct (Z.ltb_spec offset (Z.of_nat (length image))) as [Hlt|Hge];
    [|discriminate].
  rewrite bind_usb.
  set (offered := take _ (drop (Z.to_nat offset) image)).
  assert (Hne : offered <> []).
  { intros E. apply (f_equal (@length Z)) in E. subst offered.
    rewrite length_take, length_drop in E. unfold TI_DOWNLOAD_MAX_PACKET_SIZE in E. cbn in E. lia. }
  pose proof (Hprog h USB_FDL_OUT_EP offered TIMEOUT (sys_world s) Hne) as Hp.
  destruct (host_step (BulkOut h USB_FDL_OUT_EP offered TIMEOUT) (sys_world s)) as [[rc r] w'].
  cbn [fst snd] in Hp |- *. destruct (fatal rc) eqn:Ef.
  - rewrite bind_usb. discriminate.
  - destruct Hp as [Hp|Hp]; [discriminate|]. apply IH; lia.
Qed.

Lemma do_download_done (Hsane : bulk_out_sane) (Hprog : bulk_out_progress) fuel dev f
    (s s' : sys W T) o :
  Z.of_nat (length (buf f)) = size f -> (Z.to_nat (size f) < fuel)%nat ->
  do_download fuel dev f s = (o, s') ->
  o <> OutOfFuel /\ (o = Done tt -> exists d, sys_trace s' = sys_trace s ++ d /\ wire_out d = buf f).
Proof.
  intros Hl Hf Hrun. unfold do_download in Hrun. rewrite <- Hl in Hrun. run_in Hrun.
  all: try unfold out_of_fuel in Hrun; injection Hrun as <- <-.
  all: split; [try discriminate | try (intros [=]; fail)].
  all: repeat match goal with u : unit |- _ => destruct u end.
  all: match goal with
       | Hm : download_loop _ _ _ _ _ _ = (OutOfFuel, _) |- _ =>
           intros _; refine (download_loop_terminates Hprog fuel _ _ 0 _ (Z.le_refl 0) _
                               (f_equal fst Hm)); lia
       | Hm : download_loop _ _ _ _ _ _ = (Done _, _) |- _ =>
           intros _; pose proof (download_loop_moves Hsane _ _ _ 0 _ _
                                   (conj (Z.le_refl 0) (Nat2Z.is_nonneg _)) Hm) as (d & Ht & Hw & _);
           cbn [sys_trace] in Ht |- *; rewrite Ht
       end.
  all: eexists; split; [rewrite <- !app_assoc; reflexivity|].
  all: autorewrite with usb_rw; rewrite Hw; cbn [accepted app]; rewrite app_nil_r; reflexivity.
Qed.

Lemma load_firmware_no_oof lib_dir (s s1 : sys W T) : load_firmware lib_dir s <> (OutOfFuel, s1).
Proof.
  intros Hrun. unfold load_firmware, find_firmware in Hrun. run_in Hrun.
  all: try (eapply ihex_extract_not_oof; eassumption).

Qed.

Lemma prepare_firmware_length f :
  length (buf (prepare_firmware f)) = length (buf f) /\ size (prepare_firmware f) = size f.
Proof. unfold prepare_firmware. cbn [buf size]. rewrite !length_insert. split; reflexivity. Qed.

(** C21. The firmware pipeline of [ti3410.c] end to end: on a host whose
    OUT transfers report sane counts and make progress, and whose
    Intel-HEX decoder keeps its contract, [download_firmware] with more
    iterations of fuel than the buffer has bytes never runs out of fuel,
    and when it returns 0 the bytes it put on the wire are exactly the
    image [load_firmware] assembled from the chunks the decoder returned,
    with the header of [prepare_firmware] written over its first three
    bytes: nothing lost, nothing repeated, nothing else sent. *)
Theorem download_firmware_wire (Hsane : bulk_out_sane) (Hprog : bulk_out_progress)
    fuel lib_dir dev (s : sys W T) :
  P (sys_world s) -> (Z.to_nat TI_FIRMWARE_BUF_SIZE < fuel)%nat ->
  fst (download_firmware fuel lib_dir dev s) <> OutOfFuel /\
  (fst (download_firmware fuel lib_dir dev s) = Done tt ->
   exists fh chs,
     In (Ev (IhexRead fh) (chs, true)) (sys_trace (snd (download_firmware fuel lib_dir dev s))) /\
     wire_out (sys_trace (snd (download_firmware fuel lib_dir dev s))) =
       wire_out (sys_trace s) ++
       buf (prepare_firmware (mk_firmware (concat (map chunk_bytes chs)) (total_len chs)))).
Proof.
  intros Hp Hf. destruct (download_firmware fuel lib_dir dev s) as [o s'] eqn:Hrun. cbn [fst snd].
  unfold download_firmware, bind at 1 in Hrun.
  destruct (load_firmware lib_dir s) as [[f| |] s1] eqn:El;
    [| injection Hrun as <- _; split; discriminate | exfalso; exact (load_firmware_no_oof _ _ _ El)].
  destruct (load_firmware_done _ _ _ _ Hp El) as (fh & chs & d1 & Ht1 & Hw1 & Hin & Hok & He).
  apply extract_done in He as (_ & Hb & ->); [|exact Hok|cbn; unfold TI_FIRMWARE_BUF_SIZE; lia].
  cbn [size buf firmware_zero] in Hb. pose proof (length_chunks chs Hok) as Hlen.
  destruct (prepare_firmware_length (mk_firmware (concat (map chunk_bytes chs)) (total_len chs)))
    as [Hl1 Hs1].
  set (F := prepare_firmware _) in *.
  unfold bind in Hrun.
  destruct (do_download fuel dev _ s1) as [o2 s2] eqn:Ed.
  apply (do_download_done Hsane Hprog) in Ed as [Hno Hdone];
    [| rewrite Hl1, Hs1; exact Hlen | rewrite Hs1; cbn [size]; unfold TI_FIRMWARE_BUF_SIZE in *; lia].
  destruct o2 as [[]| |]; [| injection Hrun as <- _; split; discriminate | congruence].
  rewrite usb_run in Hrun. injection Hrun as <- <-. split; [discriminate|]. intros _.
  destruct (Hdone eq_refl) as (d2 & Ht2 & Hw2). exists fh, chs. cbn [sys_trace].
  rewrite Ht2, Ht1. split; [rewrite !in_app_iff; tauto|].
  autorewrite with usb_rw. rewrite Hw1, Hw2. cbn [accepted]. rewrite !app_nil_r. reflexivity.
Qed.
End FirmwarePipeline.

(** * Witnesses *)


Lemma ihex_extract_bounded_witness :
  Forall chunk_ok [chunk_A; chunk_B] /\
  match ihex_extract firmware_zero [chunk_A; chunk_B] with
  | Done f =>
      contiguous 0 [chunk_A; chunk_B] = true /\ size f <= TI_FIRMWARE_BUF_SIZE /\
      f = mk_firmware (concat (map chunk_bytes [chunk_A; chunk_B])) (total_len [chunk_A; chunk_B]) /\
      Z.of_nat (length (buf f)) = size f
  | Error _ => contiguous 0 [chunk_A; chunk_B] = false \/ TI_FIRMWARE_BUF_SIZE < total_len [chunk_A; chunk_B]
  | OutOfFuel => False
  end.
Proof.
  assert (Hok : Forall chunk_ok [chunk_A; chunk_B]) by (repeat constructor; cbn; lia).
  split; [exact Hok | apply (ihex_extract_bounded _ Hok)].
Defined.

(** An image of no bytes is accepted: [prepare_firmware] computes its
    [uint16_t] size [0 - 3] = 65533, the download loop sends nothing, and
    [download_firmware] reports success. *)
Example empty_firmware_accepted :
  let r := download_firmware (Z.to_nat 16285) "/usr/lib" 0%N (start empty_fw_world tt) in
  fst r = Done tt /\ wire_out (sys_trace (snd r)) = [] /\
  u16 (size (prepare_firmware firmware_zero) - 3) = 65533.
Proof. vm_compute. auto. Qed.

Lemma download_firmware_wire_witness :
  let s := start fw_world tt in
  fst (download_firmware (Z.to_nat 16285) "/usr/lib" 0%N s) = Done tt /\
  fst (download_firmware (Z.to_nat 16285) "/usr/lib" 0%N s) <> OutOfFuel /\
  (fst (download_firmware (Z.to_nat 16285) "/usr/lib" 0%N s) = Done tt ->
   exists fh chs,
     In (Ev (IhexRead fh) (chs, true)) (sys_trace (snd (download_firmware (Z.to_nat 16285) "/usr/lib" 0%N s))) /\
     wire_out (sys_trace (snd (download_firmware (Z.to_nat 16285) "/usr/lib" 0%N s))) =
       wire_out (sys_trace s) ++
       buf (prepare_firmware (mk_firmware (concat (map chunk_bytes chs)) (total_len chs)))).
Proof.
  intros s. split; [vm_compute; reflexivity|].
  apply (download_firmware_wire (fun w => Forall chunk_ok (fst (fk_ihex w))) fake_ihex_sane
           fake_bulk_out_sane fake_bulk_out_progress).
  - repeat constructor; cbn; lia.
  - unfold TI_FIRMWARE_BUF_SIZE. lia.
Defined.

Lemma ihex_extract_gap_witness :
  ihex_extract firmware_zero ([chunk_A] ++ chunk_B_gap :: []) =
    Error (FirmwareGap (size firmware_zero + total_len [chunk_A]) (ch_addr chunk_B_gap)).
Proof.
  apply ihex_extract_gap; [reflexivity | vm_compute; discriminate | vm_compute; discriminate].
Defined.


Lemma prepare_firmware_header_witness :
  buf (prepare_firmware six_bytes) =
    le_split 2 (size six_bytes - 3) ++ [sum_bytes (drop 3 (buf six_bytes)) mod 256] ++
    drop 3 (buf six_bytes) /\
  le_combine (take 2 (buf (prepare_firmware six_bytes))) = size six_bytes - 3.
Proof.
  apply prepare_firmware_header; [simpl; lia | reflexivity | vm_compute; discriminate].
Defined.



(** The firmware path leaves the port backend's struct alone. *)
Section DownloadKeeps.
Context {W : Type} `{UsbHost W} {T : Type}.

Lemma download_loop_keeps fuel h image fsize offset :
  keeps_tr (T := T) (download_loop fuel h image fsize offset).
Proof. revert offset. induction fuel; intros; simpl; solve_keeps; auto. Qed.

Lemma download_firmware_keeps fuel lib_dir dev :
  keeps_tr (T := T) (download_firmware fuel lib_dir dev).
Proof.
  unfold download_firmware, load_firmware, find_firmware, do_download.
  solve_keeps; auto using download_loop_keeps.
Qed.
End DownloadKeeps.

(** ** Ownership of the download handle

    [do_download] opens its own handle and closes it on every path that
    returns; a failed [libusb_open] leaves its handle variable unwritten,
    and the function then goes on with whatever it holds, which is NULL
    only on a host where [uninit_null] holds. *)

Section Ownership.
Context {W : Type} `{UsbHost W} {T : Type}.

(** Loading the image takes no USB handle. *)
Lemma load_firmware_free lib_dir : emits (T := T) handle_free (load_firmware lib_dir).
Proof. unfold load_firmware, find_firmware. solve_free. Qed.

(** The packet loop works on its handle only, and a fatal transfer
    closes it. *)
Lemma download_loop_ledger fuel h image fsize : forall offset (s : sys W T),
  exists evs, sys_trace (snd (download_loop fuel (Some h) image fsize offset s)) = sys_trace s ++ evs /\
    forall l, In h (open_handles l) ->
      live_from l evs = true /\
      held_from l evs = match fst (download_loop fuel (Some h) image fsize offset s) with
                        | Error _ => ledger_step l (Ev (Close (Some h)) tt)
                        | _ => l
                        end.
Proof.
  induction fuel as [|fuel IH]; intros offset s; cbn [download_loop].
  - exists []. rewrite app_nil_r. auto.
  - destruct (offset <? fsize); [|exists []; rewrite app_nil_r; auto].
    rewrite bind_usb. destruct (fst (host_step _ _)) as [rc r] eqn:Ea.
    destruct (fatal rc).
    + rewrite bind_usb. unfold fail. cbn [fst snd sys_trace].
      eexists; split; [rewrite <- app_assoc; reflexivity|].
      intros l Hin. cbn [app live_from ledger_step held_from fold_left live call_handle snd].
      rewrite existsb_open by exact Hin. auto.
    + cbn [fst snd sys_trace].
      match goal with |- context [download_loop fuel (Some h) image fsize ?o ?s1] =>
        destruct (IH o s1) as (evs & E & Hl) end.
      eexists; split; [rewrite E; cbn [sys_trace]; rewrite <- app_assoc; reflexivity|].
      intros l Hin. cbn [app live_from]. rewrite held_from_cons.
      cbn [live ledger_step call_handle]. rewrite existsb_open by exact Hin. exact (Hl l Hin).
Qed.

(** On a host whose [libusb_open] returns a handle exactly when it
    succeeds and whose unwritten handle variable reads as NULL, the
    download works on its own open handle only and closes it on every path
    that returns. *)
Lemma do_download_balanced (Hos : open_sane W) (Hnull : uninit_null W) fuel dev f :
  balanced (T := T) (do_download fuel dev f).
Proof.
  intros s. destruct (do_download fuel dev f s) as [o s'] eqn:Hrun. cbn [fst snd].
  unfold do_download in Hrun. run_in Hrun.
  all: injection Hrun as <- <-; use_open_sane Hos; use_uninit_null Hnull; handle_eqs.
  all: repeat match goal with
       | Hm : download_loop ?fu (Some ?h) ?im ?fs ?off ?s1 = (?o, ?s2) |- _ =>
           let evs := fresh "evs" in let Ed := fresh "Ed" in let Hd := fresh "Hd" in
           destruct (download_loop_ledger fu h im fs off s1) as (evs & Ed & Hd);
           rewrite Hm in Ed, Hd; cbn [fst snd] in Ed, Hd; rewrite Ed in *; clear Hm
       end.
  all: rc_facts.
  all: balanced_finish.
Qed.

(** Loading, then downloading: the same. *)
Lemma download_firmware_balanced (Hos : open_sane W) (Hnull : uninit_null W) fuel lib_dir dev :
  balanced (T := T) (download_firmware fuel lib_dir dev).
Proof.
  unfold download_firmware.
  solve_balanced_with ltac:(first [apply do_download_balanced; assumption
                                  | apply balanced_free, load_firmware_free]).
Qed.
End Ownership.

#[export] Hint Resolve download_firmware_balanced : own.

End Ti3410Firmware.
