(* ===== verification/Cp210x.v ===== *)
(** * The CP210x backend: [src/unnamed/part_001] ([cp210x.c])

    A Silicon Labs USB-UART bridge driven by vendor control requests: the
    UART is enabled, the baud divisor [3500000 / baud_rate] set and the
    modem lines written with their active-low polarity.  The byte stream
    uses fixed bulk endpoints 0x81 and 0x01 with no framing.  The struct
    is the handle and the interface number.  [open_device] tries the
    vendor-class (255) interfaces of configuration 0 in order and keeps the
    first that opens, claims and configures. *)

From S2P Require Import Prelude Usb Usbutil FakeHost Ownership.
From stdpp Require Import strings.

Local Open Scope Z_scope.
Local Open Scope usb_scope.

Module Cp210x.

Definition CP210X_CLOCK : Z := 3500000.
Definition V1_INTERFACE_CLASS : Z := 255.
Definition V1_IN_EP : Z := 0x81.
Definition V1_OUT_EP : Z := 0x01.
Definition CP210x_REQTYPE_HOST_TO_DEVICE : Z := 0x41.
Definition CP210X_IFC_ENABLE : Z := 0x00.
Definition CP210X_SET_BAUDDIV : Z := 0x01.
Definition CP210X_SET_MHS : Z := 0x07.
Definition CP210X_DTR : Z := 0x0001.
Definition CP210X_RTS : Z := 0x0002.
Definition CP210X_WRITE_DTR : Z := 0x0100.
Definition CP210X_WRITE_RTS : Z := 0x0200.
Definition TIMEOUT_S : Z := 30.

(** [struct cp210x_transport] without its [base]. *)
Record cp210x_transport := mk_cp210x_transport {
  handle : option Usb.handle;
  int_number : Z
}.

Definition cp210x_zero : cp210x_transport := mk_cp210x_transport None 0.

Definition set_handle (tr : cp210x_transport) (h : option Usb.handle) : cp210x_transport :=
  mk_cp210x_transport h (int_number tr).

Definition set_int_number (tr : cp210x_transport) (ino : Z) : cp210x_transport :=
  mk_cp210x_transport (handle tr) ino.

(** The [wValue] of [CP210X_SET_BAUDDIV]: C's truncating division, then
    the conversion to the [uint16_t] parameter of
    [libusb_control_transfer].  A zero baud rate divides by zero. *)
Definition baud_divisor (baud_rate : Z) : Z := u16 (Z.quot CP210X_CLOCK baud_rate).

(** The [wValue] of [usbtr_set_modem]: both write-enable bits, and the
    line bits of the lines the caller does not assert (active low). *)
Definition modem_value (state : Z) : Z :=
  let value := Z.lor CP210X_WRITE_DTR CP210X_WRITE_RTS in
  let value := if Z.land state TRANSPORT_MODEM_DTR =? 0 then Z.lor value CP210X_DTR
               else value in
  if Z.land state TRANSPORT_MODEM_RTS =? 0 then Z.lor value CP210X_RTS else value.

Section Operations.
Context {W : Type} `{UsbHost W}.
Abbreviation MC := (M (sys W cp210x_transport)).

(** One vendor request of the backend, no data stage, 300 ms. *)
Definition vendor_request (request value : Z) : MC Z :=
  tr <- get_tr ;;
  usb (ControlTransfer (handle tr) CP210x_REQTYPE_HOST_TO_DEVICE request value 0 [] 300).

Definition configure_port (baud_rate : Z) : MC unit :=
  rc <- vendor_request CP210X_IFC_ENABLE 1 ;;
  if rc <? 0 then fail (ControlError CP210X_IFC_ENABLE rc) else
  if baud_rate =? 0 then fail DivideByZero else
  rc <- vendor_request CP210X_SET_BAUDDIV (baud_divisor baud_rate) ;;
  if rc <? 0 then fail (ControlError CP210X_SET_BAUDDIV rc) else
  rc <- vendor_request CP210X_SET_MHS 0x303 ;;
  if rc <? 0 then fail (ControlError CP210X_SET_MHS rc) else
  ret tt.

(** [open_interface], Linux build.  [libusb_open] writes [tr->handle]
    only when it succeeds, so a handle left by an earlier attempt stays
    in the field; a failed claim or configuration closes the handle and
    leaves the field as it is. *)
Definition open_interface (dev : device) (ino baud_rate : Z) : MC unit :=
  let* (rc, _) := usb (GetDeviceDescriptor dev) in
  if negb (rc =? 0) then fail (DescriptorError rc) else
  tr <- get_tr ;;
  set_tr (set_int_number tr ino) ;;
  let* (rc, oh) := usb (Open dev) in
  tr <- get_tr ;;
  let tr := match oh with Some h => set_handle tr (Some h) | None => tr end in
  set_tr tr ;;
  match handle tr with
  | None => fail (OpenError rc)
  | Some _ =>
      active <- usb (KernelDriverActive (handle tr) (int_number tr)) ;;
      when (active =? 1) (usb (DetachKernelDriver (handle tr) (int_number tr)) ;; ret tt) ;;
      rc <- usb (ClaimInterface (handle tr) (int_number tr)) ;;
      if negb (rc =? 0) then usb (Close (handle tr)) ;; fail (ClaimError rc) else
      catch (configure_port baud_rate) (fun f => usb (Close (handle tr)) ;; fail f)
  end.

(** The interface loop of [open_device]: the first vendor-class interface
    that [open_interface] brings up wins. *)
Fixpoint try_interfaces (dev : device) (ifs : list interface_descriptor)
    (baud_rate : Z) : MC bool :=
  match ifs with
  | [] => ret false
  | desc :: rest =>
      if bInterfaceClass desc =? V1_INTERFACE_CLASS then
        ok <- catch (open_interface dev (bInterfaceNumber desc) baud_rate ;; ret true)
                    (fun _ => ret false) ;;
        if ok then ret true else try_interfaces dev rest baud_rate
      else try_interfaces dev rest baud_rate
  end.

Definition open_device (dev : device) (baud_rate : Z) : MC unit :=
  let* (rc, c) := usb (GetConfigDescriptor dev 0) in
  if negb (rc =? 0) then fail (ConfigDescriptorError rc) else
  ok <- try_interfaces dev (interface c) baud_rate ;;
  if ok then ret tt else fail NoInterface.

Definition usbtr_send (fuel : nat) (data : list Z) : MC unit :=
  tr <- get_tr ;;
  send_loop fuel WhileNonZero (handle tr) V1_OUT_EP (TIMEOUT_S * 1000) data
    (Z.of_nat (length data)).

(** [usbtr_recv]: a deadline 30 s ahead; the first transfer that returns
    0 is the answer, whatever its length. *)
Definition recv_accept (rc : Z) (buf : list Z) : option (list Z) :=
  if rc =? 0 then Some buf else None.

Definition usbtr_recv (fuel : nat) (max_len : Z) : MC (list Z) :=
  tr <- get_tr ;;
  now <- usb Time ;;
  read_loop fuel (now + TIMEOUT_S)
    (usb (BulkIn (handle tr) V1_IN_EP max_len (TIMEOUT_S * 1000))) recv_accept.

Definition usbtr_destroy : MC unit :=
  tr <- get_tr ;;
  usb (ReleaseInterface (handle tr) (int_number tr)) ;;
  usb (Close (handle tr)).

Definition usbtr_flush (fuel : nat) : MC unit :=
  tr <- get_tr ;;
  flush_loop fuel (handle tr) V1_IN_EP 64 100.

Definition usbtr_set_modem (state : Z) : MC unit :=
  rc <- vendor_request CP210X_SET_MHS (modem_value state) ;;
  if negb (rc =? 0) then fail (ControlError CP210X_SET_MHS rc) else ret tt.

(** [cp210x_open]: the product and vendor IDs are passed to
    [usbutil_find_by_id(vendor, product, serial)] in the order
    [(product, vendor)]. *)
Definition cp210x_open (fuel : nat) (devpath requested_serial : option string)
    (baud_rate product vendor : Z) : MC unit :=
  ok <- usb Malloc ;;
  if negb ok then fail NoMemory else
  set_tr cp210x_zero ;;
  usb Init ;;
  dev <- match devpath with
         | Some p => Usbutil.usbutil_find_by_loc (Some p)
         | None => Usbutil.usbutil_find_by_id product vendor requested_serial
         end ;;
  match dev with
  | None => fail DeviceNotFound
  | Some dev =>
      open_device dev baud_rate ;;
      usbtr_flush fuel
  end.
End Operations.

(** Fixtures for the witnesses, on the fake host. *)

Definition cp_world : fake := fake_world [cp_device] [[0x55]].




(** * Lemmas *)

(** The modem request inverts both lines and always sets both
    write-enable bits: [wValue] is 0x300, plus 1 when DTR is not asserted,
    plus 2 when RTS is not asserted. *)
Theorem modem_value_inverted state :
  modem_value state =
    0x300 + (if Z.testbit state 0 then 0 else 1) + (if Z.testbit state 1 then 0 else 2).
Proof. exact (inverted_lines state). Qed.

(** C33. The divisor reaches the device unchanged exactly when the baud
    rate is at least 54: below, [3500000 / baud_rate] does not fit the
    16-bit [wValue] and is truncated. *)
Theorem baud_divisor_exact baud_rate :
  0 < baud_rate -> baud_divisor baud_rate = CP210X_CLOCK / baud_rate <-> 54 <= baud_rate.
Proof.
  intros Hb. apply u16_quot_threshold; unfold CP210X_CLOCK; (lia || reflexivity || discriminate).
Qed.


Section Proofs.
Context {W : Type} `{UsbHost W}.

Lemma vendor_request_run request value (s : sys W cp210x_transport) :
  vendor_request request value s =
  usb (ControlTransfer (handle (sys_tr s)) CP210x_REQTYPE_HOST_TO_DEVICE request value 0 [] 300) s.
Proof. unfold vendor_request. now rewrite bind_get_tr. Qed.

Lemma bind_vendor_request {B} request value (k : Z -> M (sys W cp210x_transport) B)
    (s : sys W cp210x_transport) :
  bind (vendor_request request value) k s =
  bind (usb (ControlTransfer (handle (sys_tr s)) CP210x_REQTYPE_HOST_TO_DEVICE request value 0 [] 300))
    k s.
Proof. unfold vendor_request. now rewrite bind_assoc, bind_get_tr. Qed.

(** [usbtr_set_modem] makes one call, the [SET_MHS] request with the
    inverted line bits of [modem_value], and succeeds exactly when the
    request returns 0. *)
Theorem cp210x_set_modem_wire state (s : sys W cp210x_transport) :
  let c := ControlTransfer (handle (sys_tr s)) CP210x_REQTYPE_HOST_TO_DEVICE CP210X_SET_MHS
             (modem_value state) 0 [] 300 in
  let rc := fst (host_step c (sys_world s)) in
  usbtr_set_modem state s =
    ((if rc =? 0 then Done tt else Error (ControlError CP210X_SET_MHS rc)),
     mk_sys (snd (host_step c (sys_world s))) (sys_trace s ++ [Ev c rc]) (sys_tr s)).
Proof.
  intros c rc. subst c rc. unfold usbtr_set_modem.
  rewrite bind_vendor_request, bind_usb. simpl.
  destruct (fst (host_step _ _) =? 0); reflexivity.
Qed.

(** One request of [configure_port] on a host whose requests succeed. *)
Ltac ctrl_step Hok :=
  rewrite bind_vendor_request, bind_usb; cbn [sys_world sys_trace sys_tr];
  lazymatch goal with
  | |- context [fst (host_step (ControlTransfer ?h ?rt ?r ?v ?i ?d ?t) ?w) <? 0] =>
      rewrite ((proj2 (Z.ltb_ge _ _)) (Hok h rt r v i d t w))
  end.

(** C34. With control requests that succeed and a non-zero baud rate,
    [configure_port] enables the UART, sets the divisor and sets the modem
    lines, in that order, and makes no other call. *)
Theorem cp210x_configure_sequence (Hok : control_ok) baud_rate (s : sys W cp210x_transport) :
  baud_rate <> 0 ->
  fst (configure_port baud_rate s) = Done tt /\
  exists evs, sys_trace (snd (configure_port baud_rate s)) = sys_trace s ++ evs /\
    length evs = 3%nat /\
    controls evs = [(CP210X_IFC_ENABLE, 1, 0); (CP210X_SET_BAUDDIV, baud_divisor baud_rate, 0);
                    (CP210X_SET_MHS, 0x303, 0)].
Proof.
  intros Hb. unfold configure_port. ctrl_step Hok.
  rewrite ((proj2 (Z.eqb_neq _ _)) Hb). ctrl_step Hok. ctrl_step Hok.
  split; [reflexivity|]. eexists. split; [simpl; rewrite <- !app_assoc; reflexivity|].
  split; reflexivity.
Qed.

(** [usbtr_recv] after its [time] call: the loop runs from a world at
    least a second later, with the deadline 30 s after the first reading. *)
Lemma cp210x_recv_run clock (Hclk : clock_ticks clock) fuel max_len (s : sys W cp210x_transport) :
  exists s1, usbtr_recv fuel max_len s =
    read_loop fuel (clock (sys_world s) + TIMEOUT_S)
      (usb (BulkIn (handle (sys_tr s)) V1_IN_EP max_len (TIMEOUT_S * 1000))) recv_accept s1 /\
    clock (sys_world s) + 1 <= clock (sys_world s1).
Proof.
  unfold usbtr_recv. rewrite bind_get_tr, bind_usb.
  destruct (proj1 Hclk (sys_world s)) as [Hnow Hadv]. rewrite Hnow.
  eexists. split; [reflexivity|]. exact Hadv.
Qed.

(** [usbtr_recv] returns whatever the device answers, given one
    iteration of fuel per second of its 30 s deadline and one more. *)
Theorem cp210x_recv_terminates clock (Hclk : clock_ticks clock) fuel max_len
    (s : sys W cp210x_transport) :
  (31 <= fuel)%nat -> fst (usbtr_recv fuel max_len s) <> OutOfFuel.
Proof.
  intros Hf. destruct (cp210x_recv_run clock Hclk fuel max_len s) as (s1 & -> & Hc).
  apply (read_loop_fuel clock Hclk); [apply (usb_xfer_ok clock Hclk)|].
  unfold TIMEOUT_S. lia.
Qed.

(** On a device that never sends, every transfer times out and
    [usbtr_recv] reports the deadline, [ReadTimeout]. *)
Theorem cp210x_recv_silent clock (Hclk : clock_ticks clock) (Hsil : bulk_in_silent)
    fuel max_len (s : sys W cp210x_transport) :
  (31 <= fuel)%nat -> fst (usbtr_recv fuel max_len s) = Error ReadTimeout.
Proof.
  intros Hf. destruct (cp210x_recv_run clock Hclk fuel max_len s) as (s1 & -> & Hc).
  apply (read_loop_timeout clock Hclk); [|unfold TIMEOUT_S; lia].
  intros s2. rewrite usb_run.
  set (c := BulkIn (handle (sys_tr s)) V1_IN_EP max_len (TIMEOUT_S * 1000)).
  pose proof (Hsil (handle (sys_tr s)) V1_IN_EP max_len (TIMEOUT_S * 1000) (sys_world s2)) as Hs.
  pose proof (proj2 Hclk _ c (sys_world s2)) as Hm. fold c in Hs.
  destruct (host_step c (sys_world s2)) as [[rc b] w]. simpl in *. subst rc.
  exists LIBUSB_ERROR_TIMEOUT, b. repeat split. exact Hm.
Qed.

(** The answer of [usbtr_recv] is the data of the last transfer, the first
    one that returned 0. *)
Lemma cp210x_recv_done fuel max_len (s s' : sys W cp210x_transport) buf :
  usbtr_recv fuel max_len s = (Done buf, s') ->
  exists pre, sys_trace s' =
    pre ++ [Ev (BulkIn (handle (sys_tr s)) V1_IN_EP max_len (TIMEOUT_S * 1000)) (0, buf)].
Proof.
  unfold usbtr_recv. rewrite bind_get_tr, bind_usb. intros Hrun.
  apply read_loop_done in Hrun as (s1 & rc & b & Hx & _ & Ha).
  unfold recv_accept in Ha. destruct (Z.eqb_spec rc 0) as [->|]; [|discriminate].
  injection Ha as ->. rewrite usb_run in Hx. injection Hx as Hr <-.
  rewrite <- Hr. eexists. reflexivity.
Qed.

(** C35. [cp210x_open] with no path passes its [product] argument as the
    vendor ID and its [vendor] argument as the product ID: on a bus where
    no device has vendor ID [product] and product ID [vendor], it fails
    with [DeviceNotFound], whatever devices carry the IDs as given. *)
Theorem cp210x_open_ids_swapped B P (Hbus : static_bus B P) (Hm : malloc_ok)
    fuel baud_rate product vendor (s : sys W cp210x_transport) :
  P (sys_world s) ->
  (forall d, In d (bv_devices B) -> Usbutil.has_ids B product vendor d = false) ->
  fst (cp210x_open fuel None None baud_rate product vendor s) = Error DeviceNotFound.
Proof.
  intros Hp Hn. unfold cp210x_open. rewrite bind_usb, Hm. cbn -[Usbutil.usbutil_find_by_id].
  rewrite bind_usb. cbn [sys_world sys_trace sys_tr].
  match goal with |- context [bind (Usbutil.usbutil_find_by_id _ _ _) _ ?s2] =>
    assert (Hp2 : P (sys_world s2)) by (do 2 apply (Usbutil.static_keep B P Hbus); exact Hp);
    pose proof (Usbutil.usbutil_find_by_id_last B P Hbus product vendor s2 Hp2) as Hf;
    unfold bind; destruct (Usbutil.usbutil_find_by_id product vendor None s2) as [o s3]
  end.
  simpl in Hf. subst o. rewrite Usbutil.last_match_none by exact Hn. reflexivity.
Qed.

End Proofs.

(** ** Witnesses *)

Lemma baud_divisor_exact_witness :
  0 < 50 /\ baud_divisor 50 <> CP210X_CLOCK / 50.
Proof.
  split; [lia|]. intros E. apply (baud_divisor_exact 50 ltac:(lia)) in E. lia.
Defined.

Lemma cp210x_configure_sequence_witness :
  let s := start cp_world (mk_cp210x_transport (Some 1%N) 0) in
  fst (configure_port 9600 s) = Done tt /\
  exists evs, sys_trace (snd (configure_port 9600 s)) = sys_trace s ++ evs /\
    length evs = 3%nat /\
    controls evs = [(CP210X_IFC_ENABLE, 1, 0); (CP210X_SET_BAUDDIV, baud_divisor 9600, 0);
                    (CP210X_SET_MHS, 0x303, 0)].
Proof.
  apply (cp210x_configure_sequence fake_control_ok). lia.
Defined.

Lemma cp210x_recv_terminates_witness :
  fst (usbtr_recv 31 64 (start cp_world (mk_cp210x_transport (Some 1%N) 0))) <> OutOfFuel.
Proof. apply (cp210x_recv_terminates fk_clock fake_clock_ticks). lia. Defined.

Lemma cp210x_recv_silent_witness :
  fst (usbtr_recv 31 64 (start (mk_quiet cp_world) (mk_cp210x_transport (Some 1%N) 0)))
    = Error ReadTimeout.
Proof. apply (cp210x_recv_silent _ quiet_clock_ticks quiet_silent). lia. Defined.

Lemma cp210x_open_ids_swapped_witness :
  fst (cp210x_open 4 None None 500000 0xea60 0x10c4 (start cp_world cp210x_zero))
    = Error DeviceNotFound.
Proof.
  apply (cp210x_open_ids_swapped (fake_bus [cp_device]) _ (fake_static [cp_device])
           fake_malloc_ok); [reflexivity|].
  intros d Hd. simpl in Hd. destruct Hd as [<-|[]]. vm_compute. reflexivity.
Defined.

End Cp210x.
