(* ===== verification/Ftdi.v ===== *)
(** * The FTDI backend: [src/transport/ftdi.c]

    An FTDI USB-UART bridge on the fixed interface 0, configured by eight
    vendor requests ([configure_ftdi]), with bulk endpoints 0x81 and 0x02.
    Every inbound transfer starts with two modem-status bytes, which
    [tr_recv] strips; a logical read is capped at 62 bytes so that status
    and payload fit one 64-byte packet.  The struct is the handle only.
    [tr_flush] and [tr_set_modem] do not use the instance they are given:
    each allocates a new struct with [malloc] and reads its uninitialised
    [handle] field ([UninitHandle]). *)

From S2P Require Import Prelude Usb Usbutil FakeHost Ownership.
From stdpp Require Import strings.

Local Open Scope Z_scope.
Local Open Scope usb_scope.

Module Ftdi.

Definition USB_INTERFACE : Z := 0.
Definition EP_IN : Z := 0x81.
Definition EP_OUT : Z := 0x02.
Definition TIMEOUT_S : Z := 30.
Definition REQ_TIMEOUT_MS : Z := 100.
Definition REQTYPE_HOST_TO_DEVICE : Z := 0x40.
Definition FTDI_SIO_RESET : Z := 0.
Definition FTDI_SIO_MODEM_CTRL : Z := 1.
Definition FTDI_SIO_SET_FLOW_CTRL : Z := 2.
Definition FTDI_SIO_SET_BAUD_RATE : Z := 3.
Definition FTDI_SIO_SET_DATA : Z := 4.
Definition FTDI_SIO_SET_LATENCY_TIMER : Z := 9.
Definition FTDI_SIO_RESET_SIO : Z := 0.
Definition FTDI_SIO_RESET_PURGE_RX : Z := 1.
Definition FTDI_SIO_RESET_PURGE_TX : Z := 2.
Definition FTDI_PACKET_SIZE : Z := 64.
Definition FTDI_CLOCK : Z := 3000000.
Definition FTDI_DTR : Z := 0x0001.
Definition FTDI_RTS : Z := 0x0002.
Definition FTDI_WRITE_DTR : Z := 0x0100.
Definition FTDI_WRITE_RTS : Z := 0x0200.

(** [struct ftdi_transport] without its [base]. *)
Record ftdi_transport := mk_ftdi_transport { handle : option Usb.handle }.

Definition ftdi_zero : ftdi_transport := mk_ftdi_transport None.

(** The [wValue] of [FTDI_SIO_SET_BAUD_RATE]: C's division, converted to
    the [uint16_t] parameter. *)
Definition baud_value (baud_rate : Z) : Z := u16 (Z.quot FTDI_CLOCK baud_rate).

(** The requests of [configure_ftdi] before the baud rate, and from it on
    (the division is evaluated only when the first four succeeded). *)
Definition config_head : list (Z * Z) :=
  [(FTDI_SIO_RESET, FTDI_SIO_RESET_SIO); (FTDI_SIO_SET_DATA, 8);
   (FTDI_SIO_SET_FLOW_CTRL, 0); (FTDI_SIO_MODEM_CTRL, 0x303)].

Definition config_tail (baud_rate : Z) : list (Z * Z) :=
  [(FTDI_SIO_SET_BAUD_RATE, baud_value baud_rate); (FTDI_SIO_SET_LATENCY_TIMER, 50);
   (FTDI_SIO_RESET, FTDI_SIO_RESET_PURGE_TX); (FTDI_SIO_RESET, FTDI_SIO_RESET_PURGE_RX)].

(** The [wValue] of [tr_set_modem]: both write-enable bits, and the line
    bits of the lines the caller does not assert (active low). *)
Definition modem_value (state : Z) : Z :=
  let value := Z.lor FTDI_WRITE_DTR FTDI_WRITE_RTS in
  let value := if Z.land state TRANSPORT_MODEM_DTR =? 0 then Z.lor value FTDI_DTR
               else value in
  if Z.land state TRANSPORT_MODEM_RTS =? 0 then Z.lor value FTDI_RTS else value.

(** [tr_recv]'s test of a transfer: success with more than the two status
    bytes; the payload is what follows them. *)
Definition recv_accept (rc : Z) (buf : list Z) : option (list Z) :=
  if (rc =? 0) && (2 <? Z.of_nat (length buf)) then Some (drop 2 buf) else None.

(** [max_len] capped so that status and payload fit one packet. *)
Definition recv_len (max_len : Z) : Z :=
  if max_len >? FTDI_PACKET_SIZE - 2 then FTDI_PACKET_SIZE - 2 else max_len.

Section Operations.
Context {W : Type} `{UsbHost W} {T : Type}.

Definition do_cfg (h : option Usb.handle) (request value : Z) : M (sys W T) unit :=
  rc <- usb (ControlTransfer h REQTYPE_HOST_TO_DEVICE request value 0 [] REQ_TIMEOUT_MS) ;;
  if negb (rc =? 0) then fail (ControlError request rc) else ret tt.

(** A chain [do_cfg(...) < 0 || do_cfg(...) < 0 || ...]: the first failure
    stops it. *)
Fixpoint do_cfgs (h : option Usb.handle) (steps : list (Z * Z)) : M (sys W T) unit :=
  match steps with
  | [] => ret tt
  | (request, value) :: rest => do_cfg h request value ;; do_cfgs h rest
  end.

Definition configure_ftdi (h : option Usb.handle) (baud_rate : Z) : M (sys W T) unit :=
  do_cfgs h config_head ;;
  if baud_rate =? 0 then fail DivideByZero else do_cfgs h (config_tail baud_rate).
End Operations.

Section Backend.
Context {W : Type} `{UsbHost W}.
Abbreviation MF := (M (sys W ftdi_transport)).

(** [open_device], Linux build: a failed claim or configuration closes the
    handle and leaves the field as it is. *)
Definition open_device (dev : device) (baud_rate : Z) : MF unit :=
  let* (rc, _) := usb (GetDeviceDescriptor dev) in
  if negb (rc =? 0) then fail (DescriptorError rc) else
  let* (rc, oh) := usb (Open dev) in
  tr <- get_tr ;;
  let tr := match oh with Some h => mk_ftdi_transport (Some h) | None => tr end in
  set_tr tr ;;
  match handle tr with
  | None => fail (OpenError rc)
  | Some _ =>
      active <- usb (KernelDriverActive (handle tr) USB_INTERFACE) ;;
      when (active =? 1) (usb (DetachKernelDriver (handle tr) USB_INTERFACE) ;; ret tt) ;;
      rc <- usb (ClaimInterface (handle tr) USB_INTERFACE) ;;
      if negb (rc =? 0) then usb (Close (handle tr)) ;; fail (ClaimError rc) else
      catch (configure_ftdi (handle tr) baud_rate) (fun f => usb (Close (handle tr)) ;; fail f)
  end.

Definition tr_destroy : MF unit :=
  tr <- get_tr ;;
  usb (Close (handle tr)).

Definition tr_recv (fuel : nat) (max_len : Z) : MF (list Z) :=
  tr <- get_tr ;;
  now <- usb Time ;;
  read_loop fuel (now + TIMEOUT_S)
    (usb (BulkIn (handle tr) EP_IN (recv_len max_len + 2) (TIMEOUT_S * 1000))) recv_accept.

Definition tr_send (fuel : nat) (data : list Z) : MF unit :=
  tr <- get_tr ;;
  send_loop fuel WhileNonZero (handle tr) EP_OUT (TIMEOUT_S * 1000) data
    (Z.of_nat (length data)).

(** [tr_flush]: [malloc] a new struct (NULL is dereferenced at once) and
    purge RX on the handle its memory holds. *)
Definition tr_flush : MF unit :=
  ok <- usb Malloc ;;
  if negb ok then fail NullDereference else
  h <- usb UninitHandle ;;
  do_cfg h FTDI_SIO_RESET FTDI_SIO_RESET_PURGE_RX.

Definition tr_set_modem (state : Z) : MF unit :=
  ok <- usb Malloc ;;
  if negb ok then fail NullDereference else
  h <- usb UninitHandle ;;
  do_cfg h FTDI_SIO_MODEM_CTRL (modem_value state).

Definition ftdi_open (devpath requested_serial : option string) (vendor product baud_rate : Z)
    : MF unit :=
  ok <- usb Malloc ;;
  if negb ok then fail NoMemory else
  set_tr ftdi_zero ;;
  usb Init ;;
  dev <- match devpath with
         | Some p => Usbutil.usbutil_find_by_loc (Some p)
         | None => Usbutil.usbutil_find_by_id vendor product requested_serial
         end ;;
  match dev with
  | None => fail DeviceNotFound
  | Some dev => open_device dev baud_rate
  end.
End Backend.

(** The request [(bRequest, wValue, wIndex)] of a configuration step. *)
Definition req_triple (p : Z * Z) : Z * Z * Z := (fst p, snd p, 0).

(** Fixtures for the witnesses, on the fake host. *)

Definition ftdi_device : fake_device :=
  mk_fake_device 1 7 (mk_device_descriptor 0x0403 0x6001 1 3) (mk_config_descriptor 1 []) "FT0001".

Definition ftdi_live : ftdi_transport := mk_ftdi_transport (Some 1%N).

(** * Lemmas *)

Section Proofs.
Context {W : Type} `{UsbHost W}.

(** The chain of [do_cfg] calls issues its requests in order and stops at
    the first that does not return 0. *)
Lemma do_cfgs_run {T} h steps : forall (s : sys W T),
  exists evs, sys_trace (snd (do_cfgs h steps s)) = sys_trace s ++ evs /\
    length evs = length (controls evs) /\
    ((fst (do_cfgs h steps s) = Done tt /\ controls evs = map req_triple steps) \/
     (exists k rc, (k < length steps)%nat /\ rc <> 0 /\
        controls evs = map req_triple (take (S k) steps) /\
        fst (do_cfgs h steps s) = Error (ControlError (fst (nth k steps (0, 0))) rc))).
Proof.
  induction steps as [|[req v] rest IH]; intros s.
  - exists []. rewrite app_nil_r. split; [reflexivity|]. split; [reflexivity|].
    left. split; reflexivity.
  - cbn [do_cfgs]. unfold do_cfg. rewrite bind_assoc, bind_usb.
    destruct (Z.eqb_spec (fst (host_step (ControlTransfer h REQTYPE_HOST_TO_DEVICE req v 0 []
                                             REQ_TIMEOUT_MS) (sys_world s))) 0) as [E|E].
    + cbn [negb]. rewrite bind_ret_l.
      match goal with |- context [do_cfgs h rest ?s1] =>
        destruct (IH s1) as (evs & Ht & Hl & [[Hd Hc]|(k & rc & Hk & Hrc & Hc & He)]) end;
      eexists (Ev _ _ :: evs); rewrite Ht; cbn [sys_trace]; rewrite <- app_assoc;
        (split; [reflexivity|]); rewrite controls_cons; cbn [ctrl app length];
        (split; [now f_equal|]).
      * left. split; [exact Hd|]. rewrite Hc. reflexivity.
      * right. exists (S k), rc. rewrite Hc. cbn [take map nth length].
        repeat split; [lia|exact Hrc|exact He].
    + cbn [negb]. rewrite bind_fail. eexists [Ev _ _].
      split; [reflexivity|]. split; [reflexivity|]. right. eexists 0%nat, _.
      cbn. repeat split; [lia|exact E].
Qed.

Lemma do_cfgs_app {T} h l1 l2 (s : sys W T) :
  do_cfgs h (l1 ++ l2) s = bind (do_cfgs h l1) (fun _ => do_cfgs h l2) s.
Proof.
  revert s. induction l1 as [|[req v] l1 IH]; intros s; simpl.
  - now rewrite bind_ret_l.
  - rewrite bind_assoc. apply bind_ext. intros _ s1. apply IH.
Qed.

Lemma do_cfgs_ok {T} (Hz : control_zero) h steps : forall (s : sys W T),
  fst (do_cfgs h steps s) = Done tt.
Proof.
  induction steps as [|[req v] rest IH]; intros s; [reflexivity|].
  cbn [do_cfgs]. unfold do_cfg. rewrite bind_assoc, bind_usb, Hz. simpl.
  rewrite bind_ret_l. apply IH.
Qed.

(** With a non-zero baud rate [configure_ftdi] is the chain of its eight
    requests. *)
Lemma configure_ftdi_chain {T} h baud_rate (s : sys W T) :
  baud_rate <> 0 ->
  configure_ftdi h baud_rate s = do_cfgs h (config_head ++ config_tail baud_rate) s.
Proof.
  intros Hb. unfold configure_ftdi. rewrite do_cfgs_app.
  unfold bind. destruct (do_cfgs h config_head s) as [[] s1]; try reflexivity.
  now rewrite (proj2 (Z.eqb_neq _ _) Hb).
Qed.


(** When every request succeeds, [configure_ftdi] issues all eight
    and returns 0. *)
Theorem ftdi_configure_ok {T} (Hz : control_zero) h baud_rate (s : sys W T) :
  baud_rate <> 0 ->
  fst (configure_ftdi h baud_rate s) = Done tt /\
  controls (sys_trace (snd (configure_ftdi h baud_rate s))) =
    controls (sys_trace s) ++ map req_triple (config_head ++ config_tail baud_rate).
Proof.
  intros Hb. rewrite !configure_ftdi_chain by exact Hb.
  destruct (do_cfgs_run h (config_head ++ config_tail baud_rate) s)
    as (evs & Ht & _ & [[Hd Hc]|(k & rc & _ & _ & _ & He)]).
  - split; [exact Hd|]. now rewrite Ht, controls_app, Hc.
  - rewrite (do_cfgs_ok Hz) in He. discriminate.
Qed.

(** What [tr_recv] returns is the payload of its last transfer: the
    bytes after the two status bytes of a transfer that returned 0 with
    more than two bytes.  The request asks for at most 64 bytes, and the
    answer is never empty. *)
Theorem ftdi_recv_strips fuel max_len (s s' : sys W ftdi_transport) r :
  tr_recv fuel max_len s = (Done r, s') ->
  r <> [] /\ recv_len max_len + 2 <= FTDI_PACKET_SIZE /\
  exists pre st0 st1, sys_trace s' =
    pre ++ [Ev (BulkIn (handle (sys_tr s)) EP_IN (recv_len max_len + 2) (TIMEOUT_S * 1000))
               (0, st0 :: st1 :: r)].
Proof.
  unfold tr_recv. rewrite bind_get_tr, bind_usb. intros Hrun.
  apply read_loop_done in Hrun as (s1 & rc & b & Hx & _ & Ha).
  unfold recv_accept in Ha.
  destruct (Z.eqb_spec rc 0) as [->|]; [|discriminate].
  destruct b as [|st0 [|st1 [|x r']]]; [discriminate..|].
  rewrite (proj2 (Z.ltb_lt 2 _)) in Ha by (cbn [length]; lia).
  injection Ha as <-. rewrite usb_run in Hx. injection Hx as Hr <-.
  split; [discriminate|]. split.
  - unfold recv_len, FTDI_PACKET_SIZE. destruct (max_len >? 64 - 2) eqn:E; zbool; lia.
  - exists (sys_trace s1), st0, st1. rewrite <- Hr. reflexivity.
Qed.

(** A transfer of the two status bytes and [N > 0] payload bytes,
    read before the deadline, is returned as exactly those [N] bytes. *)
Theorem ftdi_recv_payload clock (Hclk : clock_ticks clock) fuel max_len
    (s : sys W ftdi_transport) st0 st1 payload :
  clock (snd (host_step Time (sys_world s))) < clock (sys_world s) + TIMEOUT_S ->
  fst (host_step (BulkIn (handle (sys_tr s)) EP_IN (recv_len max_len + 2) (TIMEOUT_S * 1000))
         (snd (host_step Time (snd (host_step Time (sys_world s)))))) =
    (0, st0 :: st1 :: payload) ->
  payload <> [] ->
  fst (tr_recv (S fuel) max_len s) = Done payload.
Proof.
  intros Hd Ha Hp. unfold tr_recv. rewrite bind_get_tr, bind_usb.
  rewrite (proj1 (proj1 Hclk (sys_world s))).
  rewrite (read_loop_step clock Hclk). cbv zeta. cbn [sys_world].
  rewrite (proj2 (Z.ltb_lt _ _) Hd), bind_usb. cbn [sys_world]. rewrite Ha.
  unfold recv_accept. destruct payload as [|x r]; [congruence|].
  rewrite (proj2 (Z.ltb_lt 2 _)) by (cbn [length]; lia). reflexivity.
Qed.

(** C37. [tr_flush] and [tr_set_modem] never read the instance they are
    called on: from the same world and trace, any two structs give the
    same outcome and the same calls.  The handle they use is whatever the
    memory of their own fresh [malloc] holds. *)
Theorem ftdi_aux_ignore_instance w tr0 (t1 t2 : ftdi_transport) state :
  fst (tr_flush (mk_sys w tr0 t1)) = fst (tr_flush (mk_sys w tr0 t2)) /\
  sys_trace (snd (tr_flush (mk_sys w tr0 t1))) = sys_trace (snd (tr_flush (mk_sys w tr0 t2))) /\
  fst (tr_set_modem state (mk_sys w tr0 t1)) = fst (tr_set_modem state (mk_sys w tr0 t2)) /\
  sys_trace (snd (tr_set_modem state (mk_sys w tr0 t1))) =
    sys_trace (snd (tr_set_modem state (mk_sys w tr0 t2))).
Proof.
  unfold tr_flush, tr_set_modem, do_cfg.
  rewrite !bind_usb. cbn [sys_world sys_trace sys_tr].
  destruct (fst (host_step Malloc w)); [|repeat split].
  cbv beta iota delta [negb]. rewrite !bind_usb. cbn [sys_world sys_trace sys_tr].
  rewrite ?bind_usb. cbn [sys_world sys_trace sys_tr].
  repeat split; destruct (_ =? 0); reflexivity.
Qed.

End Proofs.

(** C38. The FTDI baud value [3000000 / baud_rate] reaches the device
    unchanged exactly when the baud rate is at least 46; below, the 16-bit
    [wValue] truncates it. *)
Theorem ftdi_baud_value_exact baud_rate :
  0 < baud_rate -> baud_value baud_rate = FTDI_CLOCK / baud_rate <-> 46 <= baud_rate.
Proof.
  intros Hb. apply u16_quot_threshold; unfold FTDI_CLOCK; (lia || reflexivity || discriminate).
Qed.

(** The modem request inverts both lines and always sets both
    write-enable bits: [wValue] is 0x300, plus 1 when DTR is not asserted,
    plus 2 when RTS is not asserted. *)
Theorem ftdi_modem_value_inverted state :
  modem_value state =
    0x300 + (if Z.testbit state 0 then 0 else 1) + (if Z.testbit state 1 then 0 else 2).
Proof. exact (inverted_lines state). Qed.

(** On the fake host the purge of [tr_flush] goes to the handle left in
    fresh memory (0xdead), not to the instance's handle 1. *)
Example ftdi_flush_fake :
  sys_trace (snd (tr_flush (start (fake_world [] []) ftdi_live))) =
    [Ev Malloc true; Ev UninitHandle (Some 0xDEAD%N);
     Ev (ControlTransfer (Some 0xDEAD%N) REQTYPE_HOST_TO_DEVICE FTDI_SIO_RESET
                         FTDI_SIO_RESET_PURGE_RX 0 [] REQ_TIMEOUT_MS) 0].
Proof. reflexivity. Qed.

(** ** Ownership of the handle *)

Section Ownership.
Context {W : Type} `{UsbHost W}.

Lemma do_cfgs_works_on {T} h steps : emits (T := T) (works_on h) (do_cfgs (Some h) steps).
Proof.
  induction steps as [|[req v] steps IH]; cbn [do_cfgs]; unfold do_cfg;
    solve_emits_with ltac:(split; [intros ?; reflexivity | reflexivity]); exact IH.
Qed.

Lemma do_cfgs_keeps {T} h steps : keeps_tr (T := T) (do_cfgs h steps).
Proof. induction steps as [|[req v] steps IH]; cbn [do_cfgs]; unfold do_cfg; solve_keeps; exact IH. Qed.

Lemma configure_ftdi_works_on {T} h baud_rate :
  emits (T := T) (works_on h) (configure_ftdi (Some h) baud_rate).
Proof.
  unfold configure_ftdi. apply emits_bind; [apply do_cfgs_works_on | intros _].
  destruct (baud_rate =? 0); [solve_emits_with idtac | apply do_cfgs_works_on].
Qed.

Lemma configure_ftdi_keeps {T} h baud_rate : keeps_tr (T := T) (configure_ftdi h baud_rate).
Proof.
  unfold configure_ftdi. apply keeps_tr_bind; [apply do_cfgs_keeps | intros _].
  destruct (baud_rate =? 0); [solve_keeps | apply do_cfgs_keeps].
Qed.

#[local] Hint Resolve configure_ftdi_works_on configure_ftdi_keeps : own.

(** [ftdi_open] keeps the ownership contract: on a host whose
    [libusb_open] returns a handle exactly when it succeeds, every call it
    makes works on an open handle, a failure (no device, descriptor, open,
    claim or any configuration request) leaves nothing open or claimed,
    and a success holds exactly the struct's handle with interface 0
    claimed. *)
Theorem ftdi_open_contract (Hos : open_sane W) devpath requested_serial vendor product baud_rate :
  open_contract handle (fun _ => USB_INTERFACE)
    (ftdi_open devpath requested_serial vendor product baud_rate).
Proof.
  intros s. destruct (ftdi_open devpath requested_serial vendor product baud_rate s)
    as [o s'] eqn:Hrun. cbn [fst snd].
  unfold ftdi_open, open_device in Hrun. run_in Hrun.
  all: open_contract_close Hos Hrun.
Qed.
End Ownership.

(** ** Witnesses *)


Lemma ftdi_configure_ok_witness :
  let s := start (fake_world [ftdi_device] []) ftdi_live in
  fst (configure_ftdi (Some 1%N) 9600 s) = Done tt /\
  controls (sys_trace (snd (configure_ftdi (Some 1%N) 9600 s))) =
    controls (sys_trace s) ++ map req_triple (config_head ++ config_tail 9600).
Proof.
  apply ftdi_configure_ok; [|lia]. intros ? ? ? ? ? ? ?. reflexivity.
Defined.

Definition recv_state : sys fake ftdi_transport :=
  start (fake_world [ftdi_device] [[0x31; 0x60]; [0x31; 0x60; 7; 8]]) ftdi_live.

Lemma ftdi_recv_strips_witness :
  [7; 8] <> [] /\ recv_len 64 + 2 <= FTDI_PACKET_SIZE /\
  exists pre st0 st1, sys_trace (snd (tr_recv 31 64 recv_state)) =
    pre ++ [Ev (BulkIn (handle (sys_tr recv_state)) EP_IN (recv_len 64 + 2) (TIMEOUT_S * 1000))
               (0, st0 :: st1 :: [7; 8])].
Proof.
  apply (ftdi_recv_strips 31 64 recv_state (snd (tr_recv 31 64 recv_state))).
  vm_compute. reflexivity.
Defined.

Lemma ftdi_recv_payload_witness :
  fst (tr_recv 30 64 (start (fake_world [ftdi_device] [[0x31; 0x60; 7; 8]]) ftdi_live))
    = Done [7; 8].
Proof.
  apply (ftdi_recv_payload fk_clock fake_clock_ticks 29 64 _ 0x31 0x60 [7; 8]);
    [vm_compute; reflexivity | vm_compute; reflexivity | discriminate].
Defined.

Lemma ftdi_baud_value_exact_witness :
  0 < 45 /\ baud_value 45 <> FTDI_CLOCK / 45.
Proof.
  split; [lia|]. intros E. apply (ftdi_baud_value_exact 45 ltac:(lia)) in E. lia.
Defined.

End Ftdi.
