(* ===== verification/CdcAcm.v ===== *)
(** * The CDC-ACM backend: [src/transport/cdc_acm.c]

    A standard USB communications-class device: the first interface of
    class 10 with a bulk IN and a bulk OUT endpoint, the line coding set by
    a 7-byte [SET_LINE_CODING] request, the modem lines by [SET_CONTROL]
    with their direct polarity.  [usbtr_recv] reads whole 1024-byte
    transfers into the struct's buffer [rbuf] and hands them out in pieces:
    [rbuf_ptr] is the read cursor, [rbuf_len] the number of valid bytes.
    The bytes libusb writes into [rbuf] are written over its prefix. *)

From S2P Require Import Prelude Usb Usbutil FakeHost Ownership.
From stdpp Require Import strings.

Local Open Scope Z_scope.
Local Open Scope usb_scope.

Module CdcAcm.

Definition READ_BUFFER_SIZE : Z := 1024.
Definition CDC_INTERFACE_CLASS : Z := 10.
Definition TIMEOUT : Z := 30000.
Definition CDC_REQTYPE_HOST_TO_DEVICE : Z := 0x21.
Definition CDC_SET_CONTROL : Z := 0x22.
Definition CDC_SET_LINE_CODING : Z := 0x20.
Definition CDC_CTRL_DTR : Z := 0x01.
Definition CDC_CTRL_RTS : Z := 0x02.

(** [struct cdc_acm_transport] without its [base]; [rbuf] has 1024 bytes. *)
Record cdc_acm_transport := mk_cdc_acm_transport {
  int_number : Z;
  handle : option Usb.handle;
  in_ep : Z;
  out_ep : Z;
  rbuf_len : Z;
  rbuf_ptr : Z;
  rbuf : list Z
}.

(** The struct after [memset] to zero. *)
Definition cdc_zero : cdc_acm_transport :=
  mk_cdc_acm_transport 0 None 0 0 0 0 (repeat 0 (Z.to_nat READ_BUFFER_SIZE)).

Definition set_handle (tr : cdc_acm_transport) (h : option Usb.handle) : cdc_acm_transport :=
  mk_cdc_acm_transport (int_number tr) h (in_ep tr) (out_ep tr) (rbuf_len tr) (rbuf_ptr tr) (rbuf tr).

Definition set_eps (tr : cdc_acm_transport) (ie oe : Z) : cdc_acm_transport :=
  mk_cdc_acm_transport (int_number tr) (handle tr) ie oe (rbuf_len tr) (rbuf_ptr tr) (rbuf tr).

Definition set_int_number (tr : cdc_acm_transport) (i : Z) : cdc_acm_transport :=
  mk_cdc_acm_transport i (handle tr) (in_ep tr) (out_ep tr) (rbuf_len tr) (rbuf_ptr tr) (rbuf tr).

Definition set_rbuf_len (tr : cdc_acm_transport) (n : Z) : cdc_acm_transport :=
  mk_cdc_acm_transport (int_number tr) (handle tr) (in_ep tr) (out_ep tr) n (rbuf_ptr tr) (rbuf tr).

Definition set_rbuf_ptr (tr : cdc_acm_transport) (n : Z) : cdc_acm_transport :=
  mk_cdc_acm_transport (int_number tr) (handle tr) (in_ep tr) (out_ep tr) (rbuf_len tr) n (rbuf tr).

(** libusb writes the bytes it received at the start of [rbuf]. *)
Definition set_rbuf (tr : cdc_acm_transport) (received : list Z) : cdc_acm_transport :=
  mk_cdc_acm_transport (int_number tr) (handle tr) (in_ep tr) (out_ep tr) (rbuf_len tr)
    (rbuf_ptr tr) (received ++ drop (length received) (rbuf tr)).

(** The endpoint loop of [find_interface]. *)
Definition scan_endpoint (io : Z * Z) (ep : endpoint_descriptor) : Z * Z :=
  let type := Z.land (bmAttributes ep) USB_ENDPOINT_TYPE_MASK in
  let addr := bEndpointAddress ep in
  if negb (type =? USB_ENDPOINT_TYPE_BULK) then io
  else if negb (Z.land addr USB_ENDPOINT_DIR_MASK =? 0) then (addr, snd io)
  else (fst io, addr).

(** The interface loop of [find_interface], from interface [i]: the struct
    as the loop leaves it and whether an interface was found. *)
Fixpoint scan_interfaces (i : Z) (ifs : list interface_descriptor) (tr : cdc_acm_transport)
    : bool * cdc_acm_transport :=
  match ifs with
  | [] => (false, tr)
  | desc :: rest =>
      if negb (bInterfaceClass desc =? CDC_INTERFACE_CLASS)
      then scan_interfaces (i + 1) rest tr
      else
        let '(ie, oe) := fold_left scan_endpoint (endpoint desc) (-1, -1) in
        let tr' := set_eps tr ie oe in
        if (0 <=? ie) && (0 <=? oe) then (true, set_int_number tr' i)
        else scan_interfaces (i + 1) rest tr'
  end.

(** A declarative reading of [find_interface]: an endpoint is a bulk one
    of direction [dir_in]; the endpoint address the loop keeps for a
    direction is that of the last such endpoint, [-1] if there is none; an
    interface is suitable when it has class 10 and both addresses are
    nonnegative; the interface chosen is the first suitable one. *)
Definition bulk_dir (dir_in : bool) (ep : endpoint_descriptor) : bool :=
  (Z.land (bmAttributes ep) USB_ENDPOINT_TYPE_MASK =? USB_ENDPOINT_TYPE_BULK) &&
  Bool.eqb (negb (Z.land (bEndpointAddress ep) USB_ENDPOINT_DIR_MASK =? 0)) dir_in.

Definition ep_of (dir_in : bool) (eps : list endpoint_descriptor) : Z :=
  match Usbutil.last_match (bulk_dir dir_in) eps None with
  | Some ep => bEndpointAddress ep
  | None => -1
  end.

Definition suitable (desc : interface_descriptor) : bool :=
  (bInterfaceClass desc =? CDC_INTERFACE_CLASS) &&
  (0 <=? ep_of true (endpoint desc)) && (0 <=? ep_of false (endpoint desc)).

Fixpoint first_suitable (i : Z) (ifs : list interface_descriptor)
    : option (Z * interface_descriptor) :=
  match ifs with
  | [] => None
  | desc :: rest => if suitable desc then Some (i, desc) else first_suitable (i + 1) rest
  end.

(** [line_coding]: the baud rate little-endian on four bytes, one stop
    bit, no parity, eight data bits. *)
Definition line_coding (baud_rate : Z) : list Z :=
  [Z.land baud_rate 0xff; Z.land (Z.shiftr baud_rate 8) 0xff;
   Z.land (Z.shiftr baud_rate 16) 0xff; Z.land (Z.shiftr baud_rate 24) 0xff; 0; 0; 8].

(** The [wValue] of [usbtr_set_modem]: the bits of the asserted lines. *)
Definition modem_value (state : Z) : Z :=
  let value := 0 in
  let value := if negb (Z.land state TRANSPORT_MODEM_DTR =? 0) then Z.lor value CDC_CTRL_DTR
               else value in
  if negb (Z.land state TRANSPORT_MODEM_RTS =? 0) then Z.lor value CDC_CTRL_RTS else value.

(** The cap of [usbtr_recv]: no more than the valid bytes after the cursor. *)
Definition recv_count (tr : cdc_acm_transport) (len : Z) : Z :=
  if rbuf_ptr tr + len >? rbuf_len tr then rbuf_len tr - rbuf_ptr tr else len.

Section Operations.
Context {W : Type} `{UsbHost W}.
Abbreviation MC := (M (sys W cdc_acm_transport)).

Definition usbtr_send (fuel : nat) (data : list Z) : MC unit :=
  tr <- get_tr ;;
  send_loop fuel WhilePositive (handle tr) (out_ep tr) TIMEOUT data (Z.of_nat (length data)).

(** The refill of [usbtr_recv]: the cursor is reset first, libusb writes
    what it received into [rbuf], and only a transfer that did not fail
    sets [rbuf_len]. *)
Definition refill : MC unit :=
  tr <- get_tr ;;
  set_tr (set_rbuf_ptr tr 0) ;;
  tr <- get_tr ;;
  let* (rc, received) := usb (BulkIn (handle tr) (in_ep tr) READ_BUFFER_SIZE TIMEOUT) in
  tr <- get_tr ;;
  set_tr (set_rbuf tr received) ;;
  if fatal rc then fail (BulkError rc) else
  tr <- get_tr ;;
  set_tr (set_rbuf_len tr (Z.of_nat (length received))).

Definition usbtr_recv (len : Z) : MC (list Z) :=
  tr <- get_tr ;;
  when (rbuf_ptr tr >=? rbuf_len tr) refill ;;
  tr <- get_tr ;;
  let n := recv_count tr len in
  let out := take (Z.to_nat n) (drop (Z.to_nat (rbuf_ptr tr)) (rbuf tr)) in
  set_tr (set_rbuf_ptr tr (rbuf_ptr tr + n)) ;;
  ret out.

Definition usbtr_destroy : MC unit :=
  tr <- get_tr ;;
  usb (ReleaseInterface (handle tr) (int_number tr)) ;;
  d <- usb (GetDevice (handle tr)) ;;
  usb (UnrefDevice d) ;;
  usb (Close (handle tr)).

Definition usbtr_flush (fuel : nat) : MC unit :=
  tr <- get_tr ;;
  flush_loop fuel (handle tr) (in_ep tr) 64 100 ;;
  tr <- get_tr ;;
  set_tr (set_rbuf_ptr (set_rbuf_len tr 0) 0).

Definition usbtr_set_modem (state : Z) : MC unit :=
  tr <- get_tr ;;
  rc <- usb (ControlTransfer (handle tr) CDC_REQTYPE_HOST_TO_DEVICE CDC_SET_CONTROL
               (modem_value state) 0 [] 300) ;;
  if negb (rc =? 0) then fail (ControlError CDC_SET_CONTROL rc) else ret tt.

Definition find_interface (dev : device) : MC unit :=
  let* (rc, c) := usb (GetConfigDescriptor dev 0) in
  if negb (rc =? 0) then fail (ConfigDescriptorError rc) else
  tr <- get_tr ;;
  let (ok, tr') := scan_interfaces 0 (interface c) tr in
  set_tr tr' ;;
  if ok then ret tt else fail NoInterface.

(** [open_interface], Linux build. *)
Definition open_interface (dev : device) : MC unit :=
  let* (rc, oh) := usb (Open dev) in
  tr <- get_tr ;;
  let tr := match oh with Some h => set_handle tr (Some h) | None => tr end in
  set_tr tr ;;
  match handle tr with
  | None => fail (OpenError rc)
  | Some _ =>
      active <- usb (KernelDriverActive (handle tr) (int_number tr)) ;;
      when (active =? 1) (usb (DetachKernelDriver (handle tr) (int_number tr)) ;; ret tt) ;;
      rc <- usb (ClaimInterface (handle tr) (int_number tr)) ;;
      if negb (rc =? 0) then usb (Close (handle tr)) ;; fail (ClaimError rc) else ret tt
  end.

(** [configure_port]: both requests are checked with [rc != 0]. *)
Definition configure_port (baud_rate : Z) : MC unit :=
  tr <- get_tr ;;
  rc <- usb (ControlTransfer (handle tr) CDC_REQTYPE_HOST_TO_DEVICE CDC_SET_LINE_CODING 0 0
               (line_coding baud_rate) 300) ;;
  if negb (rc =? 0) then fail (ControlError CDC_SET_LINE_CODING rc) else
  rc <- usb (ControlTransfer (handle tr) CDC_REQTYPE_HOST_TO_DEVICE CDC_SET_CONTROL 0 0 [] 300) ;;
  if negb (rc =? 0) then fail (ControlError CDC_SET_CONTROL rc) else ret tt.

Definition cdc_acm_open (fuel : nat) (devpath requested_serial : option string)
    (baud_rate vendor product : Z) : MC unit :=
  ok <- usb Malloc ;;
  if negb ok then fail NoMemory else
  set_tr cdc_zero ;;
  usb Init ;;
  dev <- match devpath with
         | Some p => Usbutil.usbutil_find_by_loc (Some p)
         | None => Usbutil.usbutil_find_by_id vendor product requested_serial
         end ;;
  match dev with
  | None => fail DeviceNotFound
  | Some dev =>
      find_interface dev ;;
      open_interface dev ;;
      catch (configure_port baud_rate) (fun f => usbtr_destroy ;; fail f) ;;
      usbtr_flush fuel
  end.
End Operations.

(** ** The byte queue the buffer implements

    The bytes received and not yet delivered, the invariant of the design
    ("cursor <= valid length <= capacity"), and the abstract [recv] of a
    byte queue: when nothing is pending, the next transfer refills it; the
    caller gets the first [len] pending bytes. *)
Definition pending (tr : cdc_acm_transport) : list Z :=
  take (Z.to_nat (rbuf_len tr - rbuf_ptr tr)) (drop (Z.to_nat (rbuf_ptr tr)) (rbuf tr)).

Definition rbuf_inv (tr : cdc_acm_transport) : Prop :=
  0 <= rbuf_ptr tr <= rbuf_len tr /\ rbuf_len tr <= READ_BUFFER_SIZE /\
  length (rbuf tr) = Z.to_nat READ_BUFFER_SIZE.

Definition queue_recv (p next : list Z) (len : Z) : list Z * list Z :=
  let q := match p with [] => next | _ => p end in
  (take (Z.to_nat len) q, drop (Z.to_nat len) q).

(** Fixtures for the witnesses, on the fake host. *)

Definition cdc_config : config_descriptor :=
  mk_config_descriptor 1
    [mk_interface_descriptor 0 2 [mk_endpoint_descriptor 0x83 3];
     mk_interface_descriptor 1 CDC_INTERFACE_CLASS
       [mk_endpoint_descriptor 0x82 USB_ENDPOINT_TYPE_BULK;
        mk_endpoint_descriptor 0x02 USB_ENDPOINT_TYPE_BULK]].

Definition cdc_device : fake_device :=
  mk_fake_device 1 9 (mk_device_descriptor 0x2047 0x0013 1 3) cdc_config "CDC0001".

(** An open instance with [d] delivered up to [ptr] of [n] valid bytes. *)
Definition cdc_live (n ptr : Z) (d : list Z) : cdc_acm_transport :=
  mk_cdc_acm_transport 1 (Some 1%N) 0x82 0x02 n ptr
    (d ++ repeat 0 (Z.to_nat READ_BUFFER_SIZE - length d)).

(** * Lemmas *)

Lemma pending_nil tr : rbuf_inv tr -> pending tr = [] <-> rbuf_len tr <= rbuf_ptr tr.
Proof.
  intros (Hp & Hl & Hb). unfold pending. split.
  - intros E. apply (f_equal (@length Z)) in E. rewrite length_take, length_drop, Hb in E.
    unfold READ_BUFFER_SIZE in *. simpl in E. lia.
  - intros Hle. replace (Z.to_nat (rbuf_len tr - rbuf_ptr tr)) with 0%nat by lia. reflexivity.
Qed.

(** Handing out [recv_count] bytes from the cursor is taking [len] bytes
    of the pending ones. *)
Lemma deliver_pending tr len :
  rbuf_inv tr -> 0 <= len ->
  take (Z.to_nat (recv_count tr len)) (drop (Z.to_nat (rbuf_ptr tr)) (rbuf tr)) =
    take (Z.to_nat len) (pending tr) /\
  pending (set_rbuf_ptr tr (rbuf_ptr tr + recv_count tr len)) = drop (Z.to_nat len) (pending tr) /\
  rbuf_inv (set_rbuf_ptr tr (rbuf_ptr tr + recv_count tr len)).
Proof.
  intros (Hp & Hl & Hb) Hlen. unfold pending, recv_count, rbuf_inv. cbn [rbuf_ptr rbuf_len rbuf set_rbuf_ptr].
  destruct (Z.gtb_spec (rbuf_ptr tr + len) (rbuf_len tr)) as [Hgt|Hle].
  - replace (rbuf_ptr tr + (rbuf_len tr - rbuf_ptr tr)) with (rbuf_len tr) by lia.
    rewrite Z.sub_diag, take_take. split; [f_equal; lia|]. split; [|lia].
    cbn [Z.to_nat take]. symmetry. apply drop_ge. rewrite length_take. lia.
  - rewrite take_take. split; [f_equal; lia|]. split; [|lia].
    rewrite skipn_firstn_comm, drop_drop. f_equal; [lia|f_equal; lia].
Qed.

(** A refill that did not fail leaves exactly the bytes received pending. *)
Lemma refill_pending tr received :
  rbuf_inv tr -> Z.of_nat (length received) <= READ_BUFFER_SIZE ->
  let tr' := set_rbuf_len (set_rbuf (set_rbuf_ptr tr 0) received) (Z.of_nat (length received)) in
  pending tr' = received /\ rbuf_inv tr'.
Proof.
  intros (Hp & Hl & Hb) Hr. unfold pending, rbuf_inv. cbn.
  rewrite Z.sub_0_r, Nat2Z.id. cbn [Z.to_nat]. rewrite drop_0, take_app_length.
  split; [reflexivity|].
  rewrite length_app, length_drop, Hb. unfold READ_BUFFER_SIZE in *. lia.
Qed.

Lemma queue_recv_pending p next len :
  p <> [] -> queue_recv p next len = (take (Z.to_nat len) p, drop (Z.to_nat len) p).
Proof. destruct p; [congruence|reflexivity]. Qed.

Lemma scan_endpoint_bulk_dir io ep :
  scan_endpoint io ep =
    (if bulk_dir true ep then bEndpointAddress ep else fst io,
     if bulk_dir false ep then bEndpointAddress ep else snd io).
Proof.
  unfold scan_endpoint, bulk_dir. destruct io.
  destruct (_ =? USB_ENDPOINT_TYPE_BULK), (Z.land _ USB_ENDPOINT_DIR_MASK =? 0); reflexivity.
Qed.

(** The endpoint loop keeps the address of the last bulk endpoint of
    each direction, the value it started from when there is none. *)
Lemma scan_endpoints_last eps io :
  fold_left scan_endpoint eps io =
    (default (fst io) (bEndpointAddress <$> Usbutil.last_match (bulk_dir true) eps None),
     default (snd io) (bEndpointAddress <$> Usbutil.last_match (bulk_dir false) eps None)).
Proof.
  revert io. induction eps as [|ep eps IH]; intros io; [destruct io; reflexivity|].
  cbn [fold_left Usbutil.last_match]. rewrite IH, scan_endpoint_bulk_dir. cbn [fst snd].
  destruct (bulk_dir true ep), (bulk_dir false ep); rewrite ?Usbutil.last_match_from;
    destruct (Usbutil.last_match _ eps None), (Usbutil.last_match _ eps None); reflexivity.
Qed.

Lemma scan_endpoints_ep_of eps :
  fold_left scan_endpoint eps (-1, -1) = (ep_of true eps, ep_of false eps).
Proof.
  rewrite scan_endpoints_last. unfold ep_of.
  destruct (Usbutil.last_match _ eps None), (Usbutil.last_match _ eps None); reflexivity.
Qed.

(** C19. Equivalence of [find_interface]'s loops with their declarative
    reading: the loop finds an interface exactly when some interface is
    suitable (class 10 with a bulk IN and a bulk OUT endpoint), and then
    it picks the first suitable one, records its index as [int_number]
    and, as endpoints, the last bulk IN and the last bulk OUT endpoint of
    that interface; the endpoints written while scanning earlier
    interfaces are all overwritten. *)
Theorem scan_interfaces_first_suitable i ifs tr :
  match first_suitable i ifs with
  | Some (n, desc) =>
      scan_interfaces i ifs tr =
        (true, set_int_number (set_eps tr (ep_of true (endpoint desc))
                                          (ep_of false (endpoint desc))) n)
  | None => fst (scan_interfaces i ifs tr) = false
  end.
Proof.
  revert i tr. induction ifs as [|desc rest IH]; intros i tr; [reflexivity|].
  cbn [scan_interfaces first_suitable]. unfold suitable. rewrite scan_endpoints_ep_of.
  destruct (bInterfaceClass desc =? CDC_INTERFACE_CLASS); cbn [negb andb]; [|apply IH].
  destruct ((0 <=? ep_of true (endpoint desc)) && (0 <=? ep_of false (endpoint desc)));
    [reflexivity|].
  specialize (IH (i + 1) (set_eps tr (ep_of true (endpoint desc)) (ep_of false (endpoint desc)))).
  destruct (first_suitable (i + 1) rest) as [[n d]|]; exact IH.
Qed.

Section Proofs.
Context {W : Type} `{UsbHost W}.

(** One [usbtr_recv] on the abstract queue. *)
Lemma recv_queue_step len (s : sys W cdc_acm_transport) rc data :
  rbuf_inv (sys_tr s) -> 0 <= len ->
  fst (host_step (BulkIn (handle (sys_tr s)) (in_ep (sys_tr s)) READ_BUFFER_SIZE TIMEOUT)
         (sys_world s)) = (rc, data) ->
  (pending (sys_tr s) = [] -> fatal rc = false /\ Z.of_nat (length data) <= READ_BUFFER_SIZE) ->
  fst (usbtr_recv len s) = Done (fst (queue_recv (pending (sys_tr s)) data len)) /\
  pending (sys_tr (snd (usbtr_recv len s))) = snd (queue_recv (pending (sys_tr s)) data len) /\
  rbuf_inv (sys_tr (snd (usbtr_recv len s))) /\
  (pending (sys_tr s) <> [] -> sys_trace (snd (usbtr_recv len s)) = sys_trace s).
Proof.
  intros Hinv Hlen Ha Hnil. unfold usbtr_recv. rewrite bind_get_tr.
  destruct (Z.geb_spec (rbuf_ptr (sys_tr s)) (rbuf_len (sys_tr s))) as [Hge|Hlt]; cbn [when].
  - assert (Hp : pending (sys_tr s) = []) by (apply pending_nil; auto; lia).
    destruct (Hnil Hp) as [Hf Hd]. rewrite Hp. cbn [queue_recv].
    unfold refill. simpl_binds. rewrite bind_usb.
    cbn [handle in_ep set_rbuf_ptr sys_world sys_trace sys_tr].
    rewrite Ha. cbn [fst snd]. simpl_binds. rewrite Hf. simpl_binds.
    destruct (refill_pending (sys_tr s) data Hinv Hd) as [Hq Hi].
    destruct (deliver_pending _ len Hi Hlen) as (Ho & Hp' & Hi').
    rewrite Hq in Ho, Hp'. unfold ret. rewrite Ho. cbn [fst snd sys_tr sys_trace].
    split; [reflexivity|]. split; [exact Hp'|]. split; [exact Hi'|]. congruence.
  - assert (Hp : pending (sys_tr s) <> []) by (rewrite pending_nil by exact Hinv; lia).
    rewrite (queue_recv_pending _ _ _ Hp). simpl_binds.
    destruct (deliver_pending _ len Hinv Hlen) as (Ho & Hp' & Hi').
    unfold ret. rewrite Ho. cbn [fst snd sys_tr sys_trace].
    split; [reflexivity|]. split; [exact Hp'|]. split; [exact Hi'|]. reflexivity.
Qed.

(** C8. The read buffer of [usbtr_recv] implements a byte queue: with
    the buffer invariant, a non-negative [len] and a refill transfer that
    does not fail, the bytes returned and those left pending are the
    abstract queue's: the first [len] pending bytes, or, when none is
    pending, the first [len] bytes of one new transfer.  While bytes are
    pending no transfer is made, and the invariant is kept. *)
Theorem cdc_recv_queue len (s : sys W cdc_acm_transport) rc data :
  rbuf_inv (sys_tr s) -> 0 <= len ->
  fst (host_step (BulkIn (handle (sys_tr s)) (in_ep (sys_tr s)) READ_BUFFER_SIZE TIMEOUT)
         (sys_world s)) = (rc, data) ->
  (pending (sys_tr s) = [] -> fatal rc = false /\ Z.of_nat (length data) <= READ_BUFFER_SIZE) ->
  fst (usbtr_recv len s) = Done (fst (queue_recv (pending (sys_tr s)) data len)) /\
  pending (sys_tr (snd (usbtr_recv len s))) = snd (queue_recv (pending (sys_tr s)) data len) /\
  rbuf_inv (sys_tr (snd (usbtr_recv len s))) /\
  (pending (sys_tr s) <> [] -> sys_trace (snd (usbtr_recv len s)) = sys_trace s).
Proof. exact (recv_queue_step len s rc data). Qed.

(** A refill whose transfer fails: the cursor is back at 0, the valid
    length is the old one, the bytes libusb wrote are in [rbuf]. *)
Lemma cdc_recv_refill_error len (s : sys W cdc_acm_transport) rc data :
  rbuf_len (sys_tr s) <= rbuf_ptr (sys_tr s) ->
  fst (host_step (BulkIn (handle (sys_tr s)) (in_ep (sys_tr s)) READ_BUFFER_SIZE TIMEOUT)
         (sys_world s)) = (rc, data) ->
  fatal rc = true ->
  fst (usbtr_recv len s) = Error (BulkError rc) /\
  sys_tr (snd (usbtr_recv len s)) = set_rbuf (set_rbuf_ptr (sys_tr s) 0) data.
Proof.
  intros Hge Ha Hf. unfold usbtr_recv. rewrite bind_get_tr.
  rewrite (proj2 (Z.geb_le _ _) Hge). cbn [when]. unfold refill. simpl_binds.
  rewrite bind_usb. cbn [handle in_ep set_rbuf_ptr sys_world sys_trace sys_tr].
  rewrite Ha. cbn [fst snd]. simpl_binds. rewrite Hf, bind_fail. split; reflexivity.
Qed.

(** C39. A refill that fails with a transfer error resets the cursor but
    keeps the old valid length.  When the buffer had been handed out in
    full ([rbuf_ptr = rbuf_len > 0]) and the failed transfer wrote nothing,
    [usbtr_recv] reports the error, and the next [usbtr_recv] makes no
    transfer and returns again the first bytes of the old buffer, which
    were already delivered. *)
Theorem cdc_recv_stale len len2 (s : sys W cdc_acm_transport) rc :
  rbuf_inv (sys_tr s) -> 0 < rbuf_len (sys_tr s) -> rbuf_ptr (sys_tr s) = rbuf_len (sys_tr s) ->
  0 <= len2 ->
  fst (host_step (BulkIn (handle (sys_tr s)) (in_ep (sys_tr s)) READ_BUFFER_SIZE TIMEOUT)
         (sys_world s)) = (rc, []) ->
  fatal rc = true ->
  fst (usbtr_recv len s) = Error (BulkError rc) /\
  fst (usbtr_recv len2 (snd (usbtr_recv len s))) =
    Done (take (Z.to_nat len2) (take (Z.to_nat (rbuf_len (sys_tr s))) (rbuf (sys_tr s)))) /\
  sys_trace (snd (usbtr_recv len2 (snd (usbtr_recv len s)))) = sys_trace (snd (usbtr_recv len s)).
Proof.
  intros (Hp & Hl & Hb) Hpos Heq Hlen2 Ha Hf.
  destruct (cdc_recv_refill_error len s rc [] ltac:(lia) Ha Hf) as [He Ht].
  split; [exact He|].
  set (s1 := snd (usbtr_recv len s)) in *.
  assert (Hi : rbuf_inv (sys_tr s1)).
  { rewrite Ht. unfold rbuf_inv. cbn. rewrite drop_0. lia. }
  assert (Hq : pending (sys_tr s1) = take (Z.to_nat (rbuf_len (sys_tr s))) (rbuf (sys_tr s))).
  { rewrite Ht. unfold pending. cbn. now rewrite Z.sub_0_r, drop_0. }
  assert (Hne : pending (sys_tr s1) <> []).
  { rewrite Hq. intros E. apply (f_equal (@length Z)) in E.
    rewrite length_take, Hb in E. unfold READ_BUFFER_SIZE in *. simpl in E. lia. }
  destruct (fst (host_step (BulkIn (handle (sys_tr s1)) (in_ep (sys_tr s1)) READ_BUFFER_SIZE
                              TIMEOUT) (sys_world s1))) as [rc1 d1] eqn:Ha1.
  destruct (recv_queue_step len2 s1 rc1 d1 Hi Hlen2 Ha1 (fun E => False_ind _ (Hne E)))
    as (Ho & _ & _ & Htr).
  rewrite Ho, (queue_recv_pending _ _ _ Hne), Hq. split; [reflexivity|]. exact (Htr Hne).
Qed.

(** With libusb's answer to a request with a data stage, the line-coding
    request returns 7 and [configure_port] takes it for a failure. *)
Lemma cdc_configure_port_fails (Hc : control_returns_length) baud_rate
    (s : sys W cdc_acm_transport) :
  fst (configure_port baud_rate s) = Error (ControlError CDC_SET_LINE_CODING 7).
Proof. unfold configure_port. rewrite bind_get_tr, bind_usb, Hc. reflexivity. Qed.

(** C10. On a host whose control requests return the length of their
    data stage, as libusb documents, [configure_port] always fails: the
    7-byte [SET_LINE_CODING] request returns 7, which the [rc != 0] test
    takes for an error.  So [cdc_acm_open] never returns an instance. *)
Theorem cdc_acm_open_fails (Hc : control_returns_length) fuel devpath requested_serial
    baud_rate vendor product (s : sys W cdc_acm_transport) :
  fst (cdc_acm_open fuel devpath requested_serial baud_rate vendor product s) <> Done tt.
Proof.
  intros Hd. destruct (cdc_acm_open fuel devpath requested_serial baud_rate vendor product s)
    as [o s'] eqn:Hrun. simpl in Hd. subst o.
  unfold cdc_acm_open in Hrun. run_in Hrun.
  all: match goal with
       | Hm : configure_port ?b ?sx = (Done _, _) |- _ =>
           pose proof (cdc_configure_port_fails Hc b sx) as Hf; rewrite Hm in Hf;
           discriminate Hf
       end.
Qed.

End Proofs.

(** ** Ownership of the handle *)

Section Ownership.
Context {W : Type} `{UsbHost W}.

(** The interface loop leaves the handle alone. *)
Lemma cdc_scan_handle i ifs tr : handle (snd (scan_interfaces i ifs tr)) = handle tr.
Proof.
  revert i tr. induction ifs as [|desc rest IH]; intros i tr; [reflexivity|].
  cbn [scan_interfaces]. destruct (negb _); [apply IH|].
  destruct (fold_left scan_endpoint (endpoint desc) (-1, -1)) as [ie oe].
  destruct ((0 <=? ie) && (0 <=? oe)); [reflexivity|]. rewrite IH. reflexivity.
Qed.

Ltac scan_handles :=
  repeat match goal with
  | E : scan_interfaces ?i ?f ?t = (_, _) |- _ =>
      let Eh := fresh "Eh" in
      pose proof (cdc_scan_handle i f t) as Eh; rewrite E in Eh; simpl in Eh; clear E
  end.

(** [cdc_acm_open] keeps the ownership contract: on a host whose
    [libusb_open] returns a handle exactly when it succeeds, every call it
    makes works on an open handle; a failure leaves nothing open or
    claimed (a failed claim closes the handle, a failed configuration
    goes through [usbtr_destroy]); a success holds exactly the struct's
    handle with its interface claimed. *)
Theorem cdc_acm_open_contract (Hos : open_sane W) fuel devpath requested_serial baud_rate
    vendor product :
  open_contract handle int_number
    (cdc_acm_open fuel devpath requested_serial baud_rate vendor product).
Proof.
  intros s. destruct (cdc_acm_open fuel devpath requested_serial baud_rate vendor product s)
    as [o s'] eqn:Hrun. cbn [fst snd].
  unfold cdc_acm_open, find_interface, open_interface, configure_port, usbtr_destroy,
    usbtr_flush in Hrun.
  run_in Hrun.
  all: open_contract_close_with Hos Hrun scan_handles.
Qed.
End Ownership.

(** The line coding carries the baud rate little-endian on four
    bytes, which read back give the rate modulo 2^32 (the bits of the
    [int]), followed by 1 stop bit, no parity and 8 data bits; all seven
    are bytes. *)
Theorem line_coding_roundtrip baud_rate :
  le_combine (take 4 (line_coding baud_rate)) = baud_rate mod 2 ^ 32 /\
  drop 4 (line_coding baud_rate) = [0; 0; 8] /\ bytes_ok (line_coding baud_rate) = true.
Proof.
  assert (E : line_coding baud_rate = le_split 4 baud_rate ++ [0; 0; 8]).
  { unfold line_coding. cbn [le_split app]. rewrite !Z.shiftr_shiftr by lia. reflexivity. }
  rewrite E, take_app_length', drop_app_length', le_combine_split
    by (symmetry; apply length_le_split).
  split; [reflexivity|]. split; [reflexivity|].
  apply bytes_ok_app; split; [apply le_split_bytes|reflexivity].
Qed.

(** ** Witnesses *)

Lemma cdc_recv_queue_witness :
  let s := start (fake_world [cdc_device] [[9]]) (cdc_live 3 1 [5; 6; 7]) in
  fst (usbtr_recv 1 s) = Done (fst (queue_recv (pending (sys_tr s)) [9] 1)) /\
  pending (sys_tr (snd (usbtr_recv 1 s))) = snd (queue_recv (pending (sys_tr s)) [9] 1) /\
  rbuf_inv (sys_tr (snd (usbtr_recv 1 s))) /\
  (pending (sys_tr s) <> [] -> sys_trace (snd (usbtr_recv 1 s)) = sys_trace s).
Proof.
  apply (cdc_recv_queue 1 _ 0 [9]).
  - unfold rbuf_inv. vm_compute. repeat split; discriminate.
  - lia.
  - reflexivity.
  - vm_compute. discriminate.
Defined.

Lemma cdc_recv_stale_witness :
  let s := start (mk_broken (fake_world [cdc_device] [])) (cdc_live 3 3 [5; 6; 7]) in
  fst (usbtr_recv 8 s) = Error (BulkError (-1)) /\
  fst (usbtr_recv 2 (snd (usbtr_recv 8 s))) =
    Done (take (Z.to_nat 2) (take (Z.to_nat (rbuf_len (sys_tr s))) (rbuf (sys_tr s)))) /\
  sys_trace (snd (usbtr_recv 2 (snd (usbtr_recv 8 s)))) = sys_trace (snd (usbtr_recv 8 s)).
Proof.
  apply (cdc_recv_stale 8 2 _ (-1)).
  - unfold rbuf_inv. vm_compute. repeat split; discriminate.
  - vm_compute. reflexivity.
  - reflexivity.
  - lia.
  - reflexivity.
  - reflexivity.
Defined.

Lemma cdc_acm_open_fails_witness :
  fst (cdc_acm_open 3 (Some "001:009") None 9600 0 0 (start (fake_world [cdc_device] []) cdc_zero))
    <> Done tt.
Proof. apply (cdc_acm_open_fails fake_control_length). Defined.

End CdcAcm.
