(* ===== verification/Ti3410.v ===== *)
(** * The TI3410 serial bridge: the port of [src/transport/ti3410.c]

    After the firmware push of [Ti3410Firmware] (done by [ti3410_open] when
    the device has one configuration, the boot loader's), the device
    re-enumerates with an active configuration; [open_device] selects it,
    claims interface 0, and [setup_port] runs the bring-up: UART line
    parameters ([set_termios]), modem-control register ([set_mcr]), open
    and start the port, then purge input and output with interrupt-endpoint
    flushes, clear the halt on both bulk endpoints, and open and start the
    port again.  The struct is the handle only. *)

From S2P Require Import Prelude Usb Usbutil FakeHost Ownership Ti3410Firmware.
From stdpp Require Import strings.

Local Open Scope Z_scope.
Local Open Scope usb_scope.

Module Ti3410.

Definition TI_BOOT_CONFIG : Z := 1.
Definition TI_ACTIVE_CONFIG : Z := 2.
Definition TI_PIPE_MODE_CONTINOUS : Z := 0x01.
Definition TI_PIPE_TIMEOUT_ENABLE : Z := 0x80.
Definition TI_UART1_PORT : Z := 0x03.
Definition TI_RAM_PORT : Z := 0x05.
Definition TI_PURGE_OUTPUT : Z := 0x00.
Definition TI_PURGE_INPUT : Z := 0x80.
Definition TI_SET_CONFIG : Z := 0x05.
Definition TI_OPEN_PORT : Z := 0x06.
Definition TI_CLOSE_PORT : Z := 0x07.
Definition TI_START_PORT : Z := 0x08.
Definition TI_PURGE_PORT : Z := 0x0B.
Definition TI_WRITE_DATA : Z := 0x80.
Definition TI_UART_8_DATA_BITS : Z := 0x03.
Definition TI_UART_NO_PARITY : Z := 0x00.
Definition TI_UART_1_STOP_BITS : Z := 0x00.
Definition TI_MCR_LOOP : Z := 0x04.
Definition TI_MCR_DTR : Z := 0x10.
Definition TI_MCR_RTS : Z := 0x20.
Definition TI_RW_DATA_ADDR_XDATA : Z := 0x30.
Definition TI_RW_DATA_BYTE : Z := 0x01.
Definition TI_TRANSFER_TIMEOUT : Z := 2.
Definition USB_FET_VENDOR : Z := 0x0451.
Definition USB_FET_PRODUCT : Z := 0xf430.
Definition USB_FET_INTERFACE : Z := 0.
Definition USB_FET_IN_EP : Z := 0x81.
Definition USB_FET_OUT_EP : Z := 0x01.
Definition USB_FET_INT_EP : Z := 0x83.
Definition TIMEOUT : Z := 1000.
Definition READ_TIMEOUT : Z := 5000.

(** [struct ti3410_transport] without its [base]. *)
Record ti3410_transport := mk_ti3410_transport { handle : option Usb.handle }.

Definition ti3410_zero : ti3410_transport := mk_ti3410_transport None.

(** The [static] data stages of [set_termios] and [set_mcr]. *)
Definition tios_data : list Z :=
  [0x00; 0x02; 0x60; 0x00; TI_UART_8_DATA_BITS; TI_UART_NO_PARITY; TI_UART_1_STOP_BITS;
   0x00; 0x00; 0x00].

Definition wb_data : list Z :=
  [TI_RW_DATA_ADDR_XDATA; TI_RW_DATA_BYTE; 1; 0x00; 0x00; 0xff; 0xa4;
   Z.lor (Z.lor TI_MCR_LOOP TI_MCR_RTS) TI_MCR_DTR; Z.lor TI_MCR_RTS TI_MCR_DTR].

(** The [wValue] of [TI_OPEN_PORT]. *)
Definition open_port_value : Z :=
  Z.lor (Z.lor TI_PIPE_MODE_CONTINOUS TI_PIPE_TIMEOUT_ENABLE) (Z.shiftl TI_TRANSFER_TIMEOUT 2).

(** [ti3410_recv]'s test: any data, whether the transfer returned 0 or
    timed out. *)
Definition recv_accept (rc : Z) (buf : list Z) : option (list Z) :=
  if 0 <? Z.of_nat (length buf) then Some buf else None.

Section Operations.
Context {W : Type} `{UsbHost W}.
Abbreviation MT := (M (sys W ti3410_transport)).

(** A vendor request to the device on the instance's handle. *)
Definition ti_control (request value index : Z) (data : list Z) : MT Z :=
  tr <- get_tr ;;
  usb (ControlTransfer (handle tr) (Z.lor USB_TYPE_VENDOR USB_RECIP_DEVICE) request value index
         data TIMEOUT).

(** [open_device], Linux build: the boot configuration is switched to the
    active one before the claim. *)
Definition open_device (dev : device) : MT unit :=
  let* (rc, _) := usb (GetDeviceDescriptor dev) in
  if negb (rc =? 0) then fail (DescriptorError rc) else
  let* (rc, c) := usb (GetConfigDescriptor dev 0) in
  if negb (rc =? 0) then fail (ConfigDescriptorError rc) else
  let* (rc, oh) := usb (Open dev) in
  tr <- get_tr ;;
  let tr := match oh with Some h => mk_ti3410_transport (Some h) | None => tr end in
  set_tr tr ;;
  match handle tr with
  | None => fail (OpenError rc)
  | Some _ =>
      active <- usb (KernelDriverActive (handle tr) USB_FET_INTERFACE) ;;
      when (active =? 1) (usb (DetachKernelDriver (handle tr) USB_FET_INTERFACE) ;; ret tt) ;;
      (if bConfigurationValue c =? TI_BOOT_CONFIG then
         rc <- usb (SetConfiguration (handle tr) TI_ACTIVE_CONFIG) ;;
         if negb (rc =? 0) then usb (Close (handle tr)) ;; fail (SetConfigurationError rc)
         else ret tt
       else ret tt) ;;
      rc <- usb (ClaimInterface (handle tr) USB_FET_INTERFACE) ;;
      if negb (rc =? 0) then usb (Close (handle tr)) ;; fail (ClaimError rc) else ret tt
  end.

Definition set_termios : MT unit :=
  rc <- ti_control TI_SET_CONFIG 0 TI_UART1_PORT tios_data ;;
  if negb (rc =? 0) then fail (ControlError TI_SET_CONFIG rc) else ret tt.

Definition set_mcr : MT unit :=
  rc <- ti_control TI_WRITE_DATA 0 TI_RAM_PORT wb_data ;;
  if negb (rc =? 0) then fail (ControlError TI_WRITE_DATA rc) else ret tt.

(** A request without data stage, checked with [!= 0]. *)
Definition ti_command (request value : Z) : MT unit :=
  rc <- ti_control request value TI_UART1_PORT [] ;;
  if negb (rc =? 0) then fail (ControlError request rc) else ret tt.

Definition do_open_start : MT unit :=
  set_termios ;;
  set_mcr ;;
  ti_command TI_OPEN_PORT open_port_value ;;
  ti_command TI_START_PORT 0.

(** [interrupt_flush]: its result is ignored by every caller. *)
Definition interrupt_flush : MT unit :=
  tr <- get_tr ;;
  _ <- usb (InterruptIn (handle tr) USB_FET_INT_EP 2 TIMEOUT) ;;
  ret tt.

Definition setup_port : MT unit :=
  interrupt_flush ;;
  do_open_start ;;
  ti_command TI_PURGE_PORT TI_PURGE_INPUT ;;
  interrupt_flush ;;
  interrupt_flush ;;
  ti_command TI_PURGE_PORT TI_PURGE_OUTPUT ;;
  interrupt_flush ;;
  tr <- get_tr ;;
  rc <- usb (ClearHalt (handle tr) USB_FET_IN_EP) ;;
  if negb (rc =? 0) then fail HaltError else
  rc <- usb (ClearHalt (handle tr) USB_FET_OUT_EP) ;;
  if negb (rc =? 0) then fail HaltError else
  do_open_start.

(** [teardown_port]: a failure is only a warning. *)
Definition teardown_port : MT unit :=
  _ <- ti_control TI_CLOSE_PORT 0 TI_UART1_PORT [] ;;
  ret tt.

Definition ti3410_send (fuel : nat) (data : list Z) : MT unit :=
  tr <- get_tr ;;
  send_loop fuel WhileNonZero (handle tr) USB_FET_OUT_EP TIMEOUT data (Z.of_nat (length data)).

Definition ti3410_recv (fuel : nat) (max_len : Z) : MT (list Z) :=
  tr <- get_tr ;;
  now <- usb Time ;;
  read_loop fuel (now + READ_TIMEOUT / 1000)
    (usb (BulkIn (handle tr) USB_FET_IN_EP max_len READ_TIMEOUT)) recv_accept.

(** [ti3410_destroy]: the port is closed and the struct freed. *)
Definition ti3410_destroy : MT unit := teardown_port.

Definition ti3410_flush : MT unit := ret tt.

Definition ti3410_set_modem (state : Z) : MT unit := fail Unsupported.

(** The locator call of [ti3410_open], by path or by the FET's IDs. *)
Definition locate (devpath requested_serial : option string) : MT (option device) :=
  match devpath with
  | Some p => Usbutil.usbutil_find_by_loc (Some p)
  | None => Usbutil.usbutil_find_by_id USB_FET_VENDOR USB_FET_PRODUCT requested_serial
  end.

(** [ti3410_open]: a device with one configuration is the boot loader; it
    gets the firmware, and is then looked up again.  [lib_dir] is the
    build's [LIB_DIR]. *)
Definition ti3410_open (fuel : nat) (lib_dir : string) (devpath requested_serial : option string)
    : MT unit :=
  ok <- usb Malloc ;;
  if negb ok then fail NoMemory else
  set_tr ti3410_zero ;;
  usb Init ;;
  dev <- locate devpath requested_serial ;;
  match dev with
  | None => fail DeviceNotFound
  | Some dev =>
      let* (rc, desc) := usb (GetDeviceDescriptor dev) in
      if negb (rc =? 0) then fail (DescriptorError rc) else
      dev <- (if bNumConfigurations desc =? 1 then
                Ti3410Firmware.download_firmware fuel lib_dir dev ;;
                locate devpath requested_serial
              else ret (Some dev)) ;;
      match dev with
      | None => fail DeviceNotFound
      | Some dev =>
          open_device dev ;;
          catch setup_port
            (fun f => teardown_port ;; tr <- get_tr ;; usb (Close (handle tr)) ;; fail f)
      end
  end.
End Operations.

(** The control requests [do_open_start] makes, as [(bRequest, wValue,
    wIndex)]. *)
Definition open_start_requests : list (Z * Z * Z) :=
  [(TI_SET_CONFIG, 0, TI_UART1_PORT); (TI_WRITE_DATA, 0, TI_RAM_PORT);
   (TI_OPEN_PORT, open_port_value, TI_UART1_PORT); (TI_START_PORT, 0, TI_UART1_PORT)].

(** Those of [setup_port]: open and start, purge input, purge output, and
    open and start again. *)
Definition setup_requests : list (Z * Z * Z) :=
  open_start_requests ++
  [(TI_PURGE_PORT, TI_PURGE_INPUT, TI_UART1_PORT); (TI_PURGE_PORT, TI_PURGE_OUTPUT, TI_UART1_PORT)] ++
  open_start_requests.

(** Fixtures: a TI3410 after its firmware download (two configurations,
    the boot one current), at bus 1, address 7. *)
Definition ti_config : config_descriptor := mk_config_descriptor TI_BOOT_CONFIG [].

Definition ti_device : fake_device :=
  mk_fake_device 1 7 (mk_device_descriptor USB_FET_VENDOR USB_FET_PRODUCT 2 3) ti_config "TI0001".



(** * Lemmas *)

Section Acked.
Context {W : Type} `{UsbHost W}.
Hypothesis Hack : control_acked (W := W).
Hypothesis Hhalt : halt_ok (W := W).

Lemma ti_control_acked req v i d :
  issues (T := ti3410_transport) (ti_control req v i d) (eq 0) [(req, v, i)].
Proof.
  unfold ti_control. eapply issues_conseq.
  - eapply issues_bind; [apply issues_get | intros ? _; apply issues_control; intros; apply Hack].
  - auto.
  - reflexivity.
Qed.

Ltac ti_issues_with tac :=
  repeat first
    [ apply ti_control_acked
    | tac
    | apply issues_usb_eq; [intros; apply Hhalt | intros; reflexivity]
    | apply issues_usb; intros; reflexivity
    | eapply issues_bind; [| intros ? ?]
    | apply issues_get
    | apply (issues_ret _ (fun _ => True) I)
    | match goal with H : 0 = ?x |- _ => subst x end
    | match goal with |- issues (if _ then _ else _) _ _ => progress cbn [negb Z.eqb] end ].

Ltac ti_issues := ti_issues_with fail.

Lemma ti_command_acked r v :
  issues (T := ti3410_transport) (ti_command r v) (fun _ => True) [(r, v, TI_UART1_PORT)].
Proof. unfold ti_command. eapply issues_conseq; [ti_issues | auto | reflexivity]. Qed.

Lemma interrupt_flush_acked : issues interrupt_flush (fun _ => True) [].
Proof. unfold interrupt_flush. eapply issues_conseq; [ti_issues | auto | reflexivity]. Qed.

Lemma do_open_start_acked : issues do_open_start (fun _ => True) open_start_requests.
Proof.
  unfold do_open_start, set_termios, set_mcr.
  eapply issues_conseq; [ti_issues; apply ti_command_acked | auto | reflexivity].
Qed.

(** C40. On a host that acknowledges every control request with 0 and
    clears halts, [setup_port] succeeds, and its control requests are, in
    order: set the UART configuration, write the modem-control register,
    open and start the port; purge the input, purge the output; and the
    first four again. *)
Theorem ti3410_setup_sequence (s : sys W ti3410_transport) :
  exists s', setup_port s = (Done tt, s') /\
    controls (sys_trace s') = controls (sys_trace s) ++ setup_requests /\ sys_tr s' = sys_tr s.
Proof.
  assert (Hs : issues setup_port (fun _ => True) setup_requests).
  { unfold setup_port. eapply issues_conseq.
    - ti_issues_with ltac:(first [apply do_open_start_acked | apply interrupt_flush_acked
                                 | apply ti_command_acked]).
    - auto.
    - reflexivity. }
  destruct (Hs s) as ([] & s' & E & _ & Hc & Ht). eauto.
Qed.
End Acked.

Section Conforming.
Context {W : Type} `{UsbHost W}.

(** With libusb's answer to a request with a data stage, the 10-byte
    [TI_SET_CONFIG] of the first [do_open_start] returns 10. *)
Lemma setup_port_fails (Hc : control_returns_length (W := W)) (s : sys W ti3410_transport) :
  fst (setup_port s) = Error (ControlError TI_SET_CONFIG 10).
Proof.
  unfold setup_port, interrupt_flush, do_open_start, set_termios, ti_control.
  simpl_binds. rewrite bind_usb. simpl_binds. rewrite bind_usb, !Hc. reflexivity.
Qed.

(** C9. On a host whose control requests return the length of their data
    stage, as libusb documents, [ti3410_open] never returns an instance:
    [set_termios] takes the 10 of its request for an error, and the port
    is torn down and closed. *)
Theorem ti3410_open_fails (Hc : control_returns_length (W := W)) fuel lib_dir devpath
    requested_serial (s : sys W ti3410_transport) :
  fst (ti3410_open fuel lib_dir devpath requested_serial s) <> Done tt.
Proof.
  intros Hd. destruct (ti3410_open fuel lib_dir devpath requested_serial s) as [o s'] eqn:Hrun.
  simpl in Hd. subst o. unfold ti3410_open in Hrun. run_in Hrun.
  all: match goal with
       | Hm : setup_port ?sx = (Done _, _) |- _ =>
           pose proof (setup_port_fails Hc sx) as Hf; rewrite Hm in Hf; discriminate Hf
       end.
Qed.

(** The port operations after [open_device] neither open, close, claim
    nor release, and keep the struct. *)
Lemma setup_port_keeps_ledger : keeps_ledger (T := ti3410_transport) setup_port.
Proof.
  unfold setup_port, do_open_start, set_termios, set_mcr, ti_command, ti_control,
    interrupt_flush.
  solve_keeps_ledger.
Qed.

Lemma ti3410_destroy_keeps_ledger : keeps_ledger (T := ti3410_transport) ti3410_destroy.
Proof. unfold ti3410_destroy, teardown_port, ti_control. solve_keeps_ledger. Qed.

Lemma setup_port_keeps : keeps_tr (T := ti3410_transport) setup_port.
Proof.
  unfold setup_port, do_open_start, set_termios, set_mcr, ti_command, ti_control,
    interrupt_flush.
  solve_keeps.
Qed.

Lemma locate_keeps devpath requested_serial :
  keeps_tr (T := ti3410_transport) (locate devpath requested_serial).
Proof.
  destruct devpath; [apply Usbutil.usbutil_find_by_loc_keeps | apply Usbutil.usbutil_find_by_id_keeps].
Qed.
(** [open_device] on a fresh struct (handle NULL, as [ti3410_open]'s
    [memset] leaves it) either succeeds holding exactly the handle it
    opened, with interface 0 claimed on it, or fails holding nothing: the
    handle is closed on every failure after [libusb_open]. *)
Theorem open_device_ledger dev (s : sys W ti3410_transport) :
  handle (sys_tr s) = None ->
  exists evs, sys_trace (snd (open_device dev s)) = sys_trace s ++ evs /\
    match fst (open_device dev s) with
    | Done _ => exists h, handle (sys_tr (snd (open_device dev s))) = Some h /\
                  held_from nothing_held evs = mk_ledger [h] [(h, USB_FET_INTERFACE)]
    | _ => held_from nothing_held evs = nothing_held
    end.
Proof.
  intros Hn. destruct (open_device dev s) as [o s'] eqn:Hrun. cbn [fst snd].
  unfold open_device in Hrun. run_in Hrun.
  all: injection Hrun as <- <-; cbn [sys_trace sys_tr handle]; eexists; split;
    [rewrite <- ?app_assoc; reflexivity|].
  all: unfold held_from; cbn [fold_left app ledger_step]; simpl.
  all: repeat match goal with b : option _ |- _ => destruct b; simpl in * end.
  all: repeat match goal with H : negb (?x =? 0) = _ |- _ =>
         destruct (x =? 0); simpl in H; try discriminate H; clear H end.
  all: rewrite ?Hn in *; try discriminate.
  all: repeat match goal with E : Some _ = Some _ |- _ => injection E as E; subst end.
  all: cbn [filter open_handles claims fst]; rewrite ?N.eqb_refl; eauto.
  all: rewrite filter_cons, N.eqb_refl; reflexivity.
Qed.
Lemma open_device_done_ledger dev (s s' : sys W ti3410_transport) :
  handle (sys_tr s) = None -> open_device dev s = (Done tt, s') ->
  exists h, handle (sys_tr s') = Some h /\ exists evs, sys_trace s' = sys_trace s ++ evs /\
    forall l, held_from l evs = mk_ledger (h :: open_handles l) ((h, USB_FET_INTERFACE) :: claims l).
Proof.
  intros Hn Hrun. unfold open_device in Hrun. run_in Hrun.
  all: injection Hrun as <-.
  all: repeat match goal with b : option _ |- _ => destruct b; simpl in * end.
  all: rewrite ?Hn in *; try discriminate.
  all: repeat match goal with E : Some _ = Some _ |- _ => injection E as E; subst end.
  all: repeat match goal with H : negb (?x =? 0) = false |- _ => apply negb_false_iff, Z.eqb_eq in H; subst x end.
  all: eexists; split; [reflexivity|]; eexists; split; [rewrite <- ?app_assoc; reflexivity|].
  all: intros l; reflexivity.
Qed.
Lemma open_setup_leaks dev (s s' s'' : sys W ti3410_transport) l :
  sys_tr s = ti3410_zero -> open_device dev s = (Done tt, s') -> setup_port s' = (Done tt, s'') ->
  exists h, handle (sys_tr s'') = Some h /\
    In h (open_handles (held_from l (sys_trace (snd (ti3410_destroy s''))))) /\
    In (h, USB_FET_INTERFACE) (claims (held_from l (sys_trace (snd (ti3410_destroy s''))))).
Proof.
  intros Hz Ho Hs.
  destruct (open_device_done_ledger dev s s') as (h & Hh & evs & Et & Hl); [now rewrite Hz | exact Ho |].
  destruct (setup_port_keeps_ledger s') as (evs2 & E2 & N2). rewrite Hs in E2. cbn [snd] in E2.
  destruct (ti3410_destroy_keeps_ledger s'') as (evs3 & E3 & N3).
  pose proof (keeps_tr_run _ _ _ _ setup_port_keeps Hs) as K.
  exists h. rewrite E3, E2, Et, !held_from_app, (held_from_neutral _ evs3 N3),
    (held_from_neutral _ evs2 N2), Hl.
  split; [congruence | cbn; auto].
Qed.

(** C12. After [ti3410_open] succeeds and [ti3410_destroy] runs, the
    handle of the instance is still open and interface 0 still claimed on
    it, whatever the ledger held before: destroy closes the port with a
    vendor request but never releases the interface nor closes the handle. *)
Theorem ti3410_open_destroy_leaks fuel lib_dir devpath requested_serial
    (s s1 : sys W ti3410_transport) l :
  ti3410_open fuel lib_dir devpath requested_serial s = (Done tt, s1) ->
  exists h, handle (sys_tr s1) = Some h /\
    In h (open_handles (held_from l (sys_trace (snd (ti3410_destroy s1))))) /\
    In (h, USB_FET_INTERFACE) (claims (held_from l (sys_trace (snd (ti3410_destroy s1))))).
Proof.
  intros Hrun. unfold ti3410_open in Hrun. run_in Hrun.
  all: injection Hrun as -> ->.
  all: repeat match goal with
       | Hm : locate _ _ _ = _ |- _ => apply (keeps_tr_run _ _ _ _ (locate_keeps _ _)) in Hm
       | Hm : Ti3410Firmware.download_firmware _ _ _ _ = _ |- _ =>
           apply (keeps_tr_run _ _ _ _ (Ti3410Firmware.download_firmware_keeps _ _ _)) in Hm
       | a : unit |- _ => destruct a
       end.
  all: cbn [sys_tr] in *.
  all: eapply open_setup_leaks; [| eassumption | eassumption]; cbn [sys_tr]; congruence.
Qed.
End Conforming.

(** ** Ownership of the handle *)

Section Ownership.
Context {W : Type} `{UsbHost W}.

(** [setup_port] works on the struct's handle only. *)
Lemma setup_port_works_on h :
  emits_at (fun s => handle (sys_tr s) = Some h) (works_on h) setup_port.
Proof.
  intros s Hs. destruct (setup_port s) as [o s'] eqn:Hrun. cbn [snd].
  unfold setup_port, do_open_start, set_termios, set_mcr, ti_command, ti_control,
    interrupt_flush in Hrun.
  run_in Hrun.
  all: injection Hrun as <- <-; cbn [sys_trace sys_tr] in *; rewrite ?Hs in *.
  all: eexists; split; [rewrite <- ?app_assoc; reflexivity|].
  all: repeat (constructor; [split; [intros ?; reflexivity | reflexivity] |]).
  all: constructor.
Qed.

Lemma locate_balanced (Hos : open_sane W) devpath requested_serial :
  balanced (T := ti3410_transport) (locate devpath requested_serial).
Proof. unfold locate. destruct devpath; eauto with own. Qed.

#[local] Hint Resolve setup_port_works_on setup_port_keeps locate_balanced locate_keeps
  Ti3410Firmware.download_firmware_keeps Ti3410Firmware.download_firmware_balanced : own.

(** C15. [ti3410_open] keeps the ownership contract, through the firmware
    download, the second lookup and the port bring-up: on a host whose
    [libusb_open] returns a handle exactly when it succeeds and whose
    unwritten handle variable reads as NULL, every call it makes works on
    an open handle; a failure leaves nothing open or claimed; a success
    holds exactly the struct's handle with interface 0 claimed. *)
Theorem ti3410_open_contract (Hos : open_sane W) (Hnull : uninit_null W) fuel lib_dir
    devpath requested_serial :
  open_contract handle (fun _ => USB_FET_INTERFACE)
    (ti3410_open fuel lib_dir devpath requested_serial).
Proof.
  intros s. destruct (ti3410_open fuel lib_dir devpath requested_serial s) as [o s'] eqn:Hrun.
  cbn [fst snd]. unfold ti3410_open, open_device, teardown_port, ti_control in Hrun.
  run_in Hrun.
  all: open_contract_close Hos Hrun.
Qed.
End Ownership.


(** ** Witnesses *)

Lemma ti3410_setup_sequence_witness :
  exists s', setup_port (start (mk_zack (fake_world [ti_device] [])) (mk_ti3410_transport (Some 1%N)))
             = (Done tt, s') /\
    controls (sys_trace s') = controls [] ++ setup_requests /\
    sys_tr s' = mk_ti3410_transport (Some 1%N).
Proof. apply (ti3410_setup_sequence zack_acked zack_halt_ok). Defined.

Lemma ti3410_open_fails_witness :
  fst (ti3410_open 3 "/usr/local/lib" (Some "001:007") None
         (start (fake_world [ti_device] []) ti3410_zero)) <> Done tt.
Proof. apply (ti3410_open_fails fake_control_length). Defined.

Lemma open_device_ledger_witness :
  let s := start (fake_world [ti_device] []) ti3410_zero in
  handle (sys_tr s) = None /\
  exists evs, sys_trace (snd (open_device 0%N s)) = sys_trace s ++ evs /\
    match fst (open_device 0%N s) with
    | Done _ => exists h, handle (sys_tr (snd (open_device 0%N s))) = Some h /\
                  held_from nothing_held evs = mk_ledger [h] [(h, USB_FET_INTERFACE)]
    | _ => held_from nothing_held evs = nothing_held
    end.
Proof. split; [reflexivity | apply open_device_ledger; reflexivity]. Defined.

Lemma ti3410_open_destroy_leaks_witness :
  let s := start (mk_zack (fake_world [ti_device] [])) ti3410_zero in
  let s1 := snd (ti3410_open 3 "/usr/local/lib" (Some "001:007") None s) in
  ti3410_open 3 "/usr/local/lib" (Some "001:007") None s = (Done tt, s1) /\
  exists h, handle (sys_tr s1) = Some h /\
    In h (open_handles (held_from nothing_held (sys_trace (snd (ti3410_destroy s1))))) /\
    In (h, USB_FET_INTERFACE) (claims (held_from nothing_held (sys_trace (snd (ti3410_destroy s1))))).
Proof.
  intros s s1. split; [vm_compute; reflexivity|].
  apply (ti3410_open_destroy_leaks 3 "/usr/local/lib" (Some "001:007") None s s1).
  vm_compute. reflexivity.
Defined.

Lemma ti3410_open_contract_witness :
  open_sane (zeroed fake) /\ uninit_null (zeroed fake) /\
  open_contract handle (fun _ => USB_FET_INTERFACE)
    (ti3410_open (W := zeroed fake) 3 "/usr/local/lib" (Some "001:007") None).
Proof.
  split; [exact (zeroed_open_sane fake_open_sane)|].
  split; [exact zeroed_uninit_null|].
  exact (ti3410_open_contract (zeroed_open_sane fake_open_sane) zeroed_uninit_null
           3 "/usr/local/lib" (Some "001:007") None).
Defined.

End Ti3410.
