(* ===== verification/Ti3410Bringup.v ===== *)
(** * The bring-up state machine of the TI3410 backend

    The design describes the bring-up of the legacy bridge as a state
    machine: Unconfigured, then FirmwareLoading only when the device shows
    its boot configuration, then Active; after the firmware push the
    device re-enumerates and must be looked up again before the port is
    configured.  [bstep] is that machine over what it can observe of the
    calls [ti3410_open] makes ([observe]): a device-list lookup
    ([libusb_get_device_list], [OResolve]), a firmware packet (a bulk OUT
    transfer, [OFirmware]) and a port-configuration request (a vendor
    control transfer, [OPort]); every other call is silent.  [reach] runs
    it over a list of observations.

    The theorem of this file is a refinement: every run of [ti3410_open]
    ([src/transport/ti3410.c]), whatever the host answers and wherever it
    fails, appends a trace the machine accepts from Unconfigured.  It is
    proved compositionally: each part of [ti3410_open] (the locator, the
    firmware download, [open_device], [setup_port], [teardown_port])
    [emits] events of one observation only, and [walk] runs the machine
    over the blocks, with the fact that a lookup that found a device has
    listed the devices ([locate_found]). *)

From S2P Require Import Prelude Usb FakeHost Usbutil Ti3410Firmware Ti3410.
From stdpp Require Import strings.

Local Open Scope Z_scope.
Local Open Scope usb_scope.

Module Ti3410Bringup.

(** What the machine observes of an event. *)
Inductive obs := OResolve | OFirmware | OPort.

Definition observe (e : event) : option obs :=
  match e with
  | Ev c _ =>
      match c with
      | GetDeviceList => Some OResolve
      | BulkOut _ _ _ _ => Some OFirmware
      | ControlTransfer _ _ _ _ _ _ _ => Some OPort
      | _ => None
      end
  end.

Fixpoint observations (d : list event) : list obs :=
  match d with
  | [] => []
  | e :: d' => match observe e with Some o => o :: observations d' | None => observations d' end
  end.

(** The phases of the design, with [Resolving] the lookup after the
    re-enumeration, and its transitions. *)
Inductive phase := Unconfigured | FirmwareLoading | Resolving | Active.

Inductive bstep : phase -> obs -> phase -> Prop :=
| bs_find : bstep Unconfigured OResolve Unconfigured
| bs_load_start : bstep Unconfigured OFirmware FirmwareLoading
| bs_load : bstep FirmwareLoading OFirmware FirmwareLoading
| bs_reenumerate : bstep FirmwareLoading OResolve Resolving
| bs_reresolve : bstep Resolving OResolve Resolving
| bs_bringup_booted : bstep Unconfigured OPort Active
| bs_bringup : bstep Resolving OPort Active
| bs_port : bstep Active OPort Active.

Inductive reach : phase -> list obs -> phase -> Prop :=
| reach_nil p : reach p [] p
| reach_cons p o p1 os p2 : bstep p o p1 -> reach p1 os p2 -> reach p (o :: os) p2.

(** An event the machine ignores or observes as [o]. *)
Definition only (o : obs) (e : event) : Prop := observe e = None \/ observe e = Some o.

(** Fixture: a TI3410 in its boot configuration (one configuration) at
    bus 1, address 7, with the image [AAAABBBB] to push, on a stack that
    acknowledges control requests with 0. *)
Definition boot_device : fake_device :=
  mk_fake_device 1 7 (mk_device_descriptor Ti3410.USB_FET_VENDOR Ti3410.USB_FET_PRODUCT 1 3)
    Ti3410.ti_config "TI0001".

Definition boot_world : zack :=
  mk_zack (mk_fake [boot_device] [] 0 None ["ti_3410.fw.ihex"]
             ([Ti3410Firmware.chunk_A; Ti3410Firmware.chunk_B], true) 0).

Lemma observations_app d1 d2 : observations (d1 ++ d2) = observations d1 ++ observations d2.
Proof. induction d1 as [|e d1 IH]; [reflexivity|]. cbn. destruct (observe e); rewrite IH; reflexivity. Qed.

Lemma reach_app p os1 p1 os2 p2 : reach p os1 p1 -> reach p1 os2 p2 -> reach p (os1 ++ os2) p2.
Proof. induction 1; cbn; [auto|]. intros. econstructor; eauto. Qed.

Lemma observations_only o d : Forall (only o) d -> Forall (eq o) (observations d).
Proof.
  induction 1 as [|e d [He|He] _ IH]; cbn; [constructor| rewrite He; exact IH |].
  rewrite He. constructor; auto.
Qed.

(** A block of one observation from a phase where it loops stays there. *)
Lemma reach_loop p o os : bstep p o p -> Forall (eq o) os -> reach p os p.
Proof. intros Hs. induction 1 as [|? ? <- _ IH]; econstructor; eauto. Qed.

(** A block of one observation that is not empty moves from [p] to [p'],
    where it loops. *)
(** A non-empty block of [o] entered from [p]. *)
Lemma reach_block p o p1 tl rest :
  bstep p o p1 -> bstep p1 o p1 -> Forall (eq o) tl -> (exists p2, reach p1 rest p2) ->
  exists p2, reach p (o :: tl ++ rest) p2.
Proof.
  intros H1 H2 Hf [p2 Hr]. exists p2. econstructor; [exact H1|].
  eapply reach_app; [apply (reach_loop _ o); assumption | exact Hr].
Qed.

(** Run the bring-up machine over blocks of one observation each, splitting
    on whether a block is empty. *)
Ltac walk :=
  lazymatch goal with
  | |- exists _, reach ?p [] _ => exists p; apply reach_nil
  | |- exists _, reach _ (observations ?evs ++ ?rest) _ =>
      lazymatch goal with
      | Hq : Forall (only ?o) evs |- _ =>
          let Hf := fresh "Hf" in let Hf' := fresh "Hf" in let tl := fresh "tl" in
          pose proof (observations_only o evs Hq) as Hf;
          destruct (observations evs) as [|? tl] eqn:?;
          [ cbn [app]; try (exfalso; congruence); walk
          | apply Forall_cons_iff in Hf as [<- Hf']; cbn [app];
            eapply reach_block; [once econstructor | once constructor | exact Hf' | walk] ]
      end
  | |- exists _, reach _ (observations ?evs) _ => rewrite <- (app_nil_r (observations evs)); walk
  end.

Ltac solve_only := unfold keeps_ledger; solve_emits_with ltac:(unfold only; cbn; auto).

Section Blocks.
Context {W : Type} `{UsbHost W}.
Abbreviation MT := (M (sys W Ti3410.ti3410_transport)).

Lemma match_loc_only devs b a found : emits (only OResolve) (Usbutil.match_loc (W := W) devs b a found : MT _).
Proof. revert found. induction devs; intros; cbn [Usbutil.match_loc]; solve_only; auto. Qed.

Lemma read_serial_only d n : emits (only OResolve) (Usbutil.read_serial (W := W) d n : MT _).
Proof. unfold Usbutil.read_serial. solve_only. Qed.

Lemma match_id_only devs v p sn found : emits (only OResolve) (Usbutil.match_id (W := W) devs v p sn found : MT _).
Proof. revert found. induction devs; intros; cbn [Usbutil.match_id]; solve_only; auto using read_serial_only. Qed.

Lemma locate_only devpath serial : emits (only OResolve) (Ti3410.locate (W := W) devpath serial).
Proof.
  unfold Ti3410.locate, Usbutil.usbutil_find_by_loc, Usbutil.usbutil_find_by_id.
  solve_only; auto using match_loc_only, match_id_only.
Qed.

Lemma download_loop_only fuel h image fsize offset :
  emits (only OFirmware) (Ti3410Firmware.download_loop (W := W) fuel h image fsize offset : MT _).
Proof. revert offset. induction fuel; intros; cbn [Ti3410Firmware.download_loop]; solve_only; auto. Qed.

Lemma download_firmware_only fuel lib_dir dev :
  emits (only OFirmware) (Ti3410Firmware.download_firmware (W := W) fuel lib_dir dev : MT _).
Proof.
  unfold Ti3410Firmware.download_firmware, Ti3410Firmware.load_firmware,
    Ti3410Firmware.find_firmware, Ti3410Firmware.do_download.
  solve_only; auto using download_loop_only.
Qed.

Lemma open_device_only dev : emits (only OPort) (Ti3410.open_device (W := W) dev).
Proof. unfold Ti3410.open_device. solve_only. Qed.

Lemma setup_port_only : emits (only OPort) (Ti3410.setup_port (W := W)).
Proof.
  unfold Ti3410.setup_port, Ti3410.do_open_start, Ti3410.set_termios, Ti3410.set_mcr,
    Ti3410.ti_command, Ti3410.ti_control, Ti3410.interrupt_flush.
  solve_only.
Qed.

Lemma teardown_port_only : emits (only OPort) (Ti3410.teardown_port (W := W)).
Proof. unfold Ti3410.teardown_port, Ti3410.ti_control. solve_only. Qed.

(** A lookup that found a device has listed the devices. *)
Lemma locate_found devpath serial (s s1 : sys W Ti3410.ti3410_transport) d :
  Ti3410.locate devpath serial s = (Done (Some d), s1) ->
  exists evs, sys_trace s1 = sys_trace s ++ evs /\ Forall (only OResolve) evs /\
    observations evs <> [].
Proof.
  intros Hrun. unfold Ti3410.locate, Usbutil.usbutil_find_by_loc, Usbutil.usbutil_find_by_id in Hrun.
  run_in Hrun.
  all: first [ apply (emits_run _ _ _ _ _ (match_loc_only _ _ _ _)) in Hm as (evs & Ht & Hq)
             | apply (emits_run _ _ _ _ _ (match_id_only _ _ _ _ _)) in Hm as (evs & Ht & Hq) ].
  all: injection Hrun as _ <-; cbn [sys_trace] in *; rewrite Ht.
  all: eexists; split; [rewrite <- !app_assoc; reflexivity|].
  all: split; [|cbn; discriminate].
  all: apply Forall_app_2; [constructor; [right; reflexivity | constructor]|].
  all: apply Forall_app_2; [assumption | constructor; [left; reflexivity | constructor]].
Qed.

Ltac blocks :=
  repeat match goal with
  | Hm : Ti3410.locate _ _ _ = (Done (Some _), _) |- _ =>
      apply locate_found in Hm as (?evs & ?Ht & ?Hq & ?Hne)
  | Hm : Ti3410.locate _ _ _ = _ |- _ =>
      apply (emits_run _ _ _ _ _ (locate_only _ _)) in Hm as (?evs & ?Ht & ?Hq)
  | Hm : Ti3410Firmware.download_firmware _ _ _ _ = _ |- _ =>
      apply (emits_run _ _ _ _ _ (download_firmware_only _ _ _)) in Hm as (?evs & ?Ht & ?Hq)
  | Hm : Ti3410.open_device _ _ = _ |- _ =>
      apply (emits_run _ _ _ _ _ (open_device_only _)) in Hm as (?evs & ?Ht & ?Hq)
  | Hm : Ti3410.setup_port _ = _ |- _ =>
      apply (emits_run _ _ _ _ _ setup_port_only) in Hm as (?evs & ?Ht & ?Hq)
  | Hm : Ti3410.teardown_port _ = _ |- _ =>
      apply (emits_run _ _ _ _ _ teardown_port_only) in Hm as (?evs & ?Ht & ?Hq)
  end.

(** A non-empty block of [o] entered from [p]. *)
(** C23. Refinement of the design's bring-up state machine: every run of
    [ti3410_open], whatever the host answers and wherever it stops, makes
    calls whose observations the machine accepts from Unconfigured.  Device
    lookups come first; firmware packets, if any, come next; after them,
    no port-configuration request is made before the device list has been
    read again; and no lookup or firmware packet follows the port
    configuration. *)
Theorem ti3410_open_bringup fuel lib_dir devpath serial (s : sys W Ti3410.ti3410_transport) :
  exists d, sys_trace (snd (Ti3410.ti3410_open fuel lib_dir devpath serial s)) = sys_trace s ++ d /\
    exists p, reach Unconfigured (observations d) p.
Proof.
  destruct (Ti3410.ti3410_open fuel lib_dir devpath serial s) as [o s'] eqn:Hrun. cbn [snd].
  unfold Ti3410.ti3410_open in Hrun. run_in Hrun.
  all: blocks.
  all: try unfold out_of_fuel in Hrun; injection Hrun as <- <-.
  all: cbn [sys_trace] in *.
  all: repeat match goal with E : sys_trace ?x = _ |- context [sys_trace ?x] => rewrite E end.
  all: eexists; split; [rewrite <- ?app_assoc; reflexivity|].
  all: rewrite ?observations_app; cbn [observations observe].
  all: cbn [app].
  all: walk.
Qed.
End Blocks.

(** A boot device goes through every phase: found, one firmware packet,
    looked up again, then the ten requests of [setup_port]. *)
Example bringup_boot_device :
  let r := Ti3410.ti3410_open 3 "/usr/lib" (Some "001:007") None
             (start boot_world Ti3410.ti3410_zero) in
  fst r = Done tt /\
  observations (sys_trace (snd r)) =
    [OResolve; OFirmware; OResolve] ++ repeat OPort 10 /\
  reach Unconfigured (observations (sys_trace (snd r))) Active.
Proof.
  intros r. assert (E : observations (sys_trace (snd r)) =
                          [OResolve; OFirmware; OResolve] ++ repeat OPort 10) by (vm_compute; reflexivity).
  split; [vm_compute; reflexivity|]. split; [exact E|]. rewrite E. repeat econstructor.
Qed.

End Ti3410Bringup.
