(* ===== verification/Transport.v ===== *)
(** * The transport contract: [struct transport_class]

    Every backend fills one [static const struct transport_class] with its
    [destroy], [send], [recv], [flush] and [set_modem] (and, for the HID
    backend only, [suspend] and [resume]); the rest of mspdebug drives a
    device only through this table.  [transport_class W T] is the table
    over the backend's struct [T], on a host world [W]; the five tables of the code are its values,
    and [backend] is the closed set of them, with [backend_class] the
    dispatch.  Operations without a loop ignore the fuel argument.

    The contract is stated as three classes of laws on a table:
    [RecvBounded] ([recv] never returns more than [max_len] bytes, the size
    of the caller's [databuf]), [SendWire] (a [send] that returns 0 has put
    exactly the caller's bytes on the wire) and [RecvBytes] ([recv] returns
    [uint8_t] values and keeps the backend's condition [backend_ok]).  Each backend's instance
    discharges them from its own definitions; the client theorems are
    proved against the classes only. *)

From S2P Require Import Prelude Usb FakeHost Ownership Bslhid Ti3410 CdcAcm Cp210x Ftdi.
From stdpp Require Import strings.

Local Open Scope Z_scope.
Local Open Scope usb_scope.

Record transport_class (W T : Type) := mk_transport_class {
  tc_destroy : M (sys W T) unit;
  tc_send : nat -> list Z -> M (sys W T) unit;
  tc_recv : nat -> Z -> M (sys W T) (list Z);
  tc_flush : nat -> M (sys W T) unit;
  tc_set_modem : Z -> M (sys W T) unit;
  tc_suspend : option (M (sys W T) unit);
  tc_resume : option (M (sys W T) unit)
}.
Arguments mk_transport_class {W T}.
Arguments tc_destroy {W T}.
Arguments tc_send {W T}.
Arguments tc_recv {W T}.
Arguments tc_flush {W T}.
Arguments tc_set_modem {W T}.
Arguments tc_suspend {W T}.
Arguments tc_resume {W T}.

Section Contract.
Context {W : Type} `{UsbHost W}.

Definition bslhid_transport_class : transport_class W Bslhid.bslhid_transport :=
  mk_transport_class Bslhid.bslhid_destroy Bslhid.bslhid_send
    (fun _ => Bslhid.bslhid_recv) Bslhid.bslhid_flush Bslhid.bslhid_set_modem
    (Some Bslhid.bslhid_suspend) (Some Bslhid.bslhid_resume).

Definition ti3410_transport_class : transport_class W Ti3410.ti3410_transport :=
  mk_transport_class Ti3410.ti3410_destroy Ti3410.ti3410_send Ti3410.ti3410_recv
    (fun _ => Ti3410.ti3410_flush) Ti3410.ti3410_set_modem None None.

Definition cdc_acm_class : transport_class W CdcAcm.cdc_acm_transport :=
  mk_transport_class CdcAcm.usbtr_destroy CdcAcm.usbtr_send (fun _ => CdcAcm.usbtr_recv)
    CdcAcm.usbtr_flush CdcAcm.usbtr_set_modem None None.

Definition cp210x_class : transport_class W Cp210x.cp210x_transport :=
  mk_transport_class Cp210x.usbtr_destroy Cp210x.usbtr_send Cp210x.usbtr_recv
    Cp210x.usbtr_flush Cp210x.usbtr_set_modem None None.

Definition ftdi_class : transport_class W Ftdi.ftdi_transport :=
  mk_transport_class Ftdi.tr_destroy Ftdi.tr_send Ftdi.tr_recv
    (fun _ => Ftdi.tr_flush) Ftdi.tr_set_modem None None.

(** The backends, and the struct and table of each. *)
Inductive backend := BslHid | Ti3410Bridge | CdcAcmBridge | Cp210xBridge | FtdiBridge.

Definition backend_tr (b : backend) : Type :=
  match b with
  | BslHid => Bslhid.bslhid_transport
  | Ti3410Bridge => Ti3410.ti3410_transport
  | CdcAcmBridge => CdcAcm.cdc_acm_transport
  | Cp210xBridge => Cp210x.cp210x_transport
  | FtdiBridge => Ftdi.ftdi_transport
  end.

Definition backend_class (b : backend) : transport_class W (backend_tr b) :=
  match b with
  | BslHid => bslhid_transport_class
  | Ti3410Bridge => ti3410_transport_class
  | CdcAcmBridge => cdc_acm_class
  | Cp210xBridge => cp210x_class
  | FtdiBridge => ftdi_class
  end.

(** The handle of each backend's struct and the interface it claims. *)
Definition backend_handle (b : backend) : backend_tr b -> option handle :=
  match b as b return backend_tr b -> option handle with
  | BslHid => Bslhid.handle
  | Ti3410Bridge => Ti3410.handle
  | CdcAcmBridge => CdcAcm.handle
  | Cp210xBridge => Cp210x.handle
  | FtdiBridge => Ftdi.handle
  end.

Definition backend_intf (b : backend) : backend_tr b -> Z :=
  match b as b return backend_tr b -> Z with
  | BslHid => Bslhid.int_number
  | Ti3410Bridge => fun _ => Ti3410.USB_FET_INTERFACE
  | CdcAcmBridge => CdcAcm.int_number
  | Cp210xBridge => Cp210x.int_number
  | FtdiBridge => fun _ => Ftdi.USB_INTERFACE
  end.

(** ** The laws *)

Class RecvBounded {T} (tc : transport_class W T) : Prop :=
  recv_bounded : forall fuel max_len (s s' : sys W T) r,
    tc_recv tc fuel max_len s = (Done r, s') -> Z.of_nat (length r) <= Z.max 0 max_len.

Class SendWire {T} (tc : transport_class W T) : Prop :=
  send_wire : forall fuel data (s s' : sys W T),
    tc_send tc fuel data s = (Done tt, s') ->
    wire_out (sys_trace s') = wire_out (sys_trace s) ++ data.

(** [recv] hands out [uint8_t]s: from a state satisfying the backend's
    well-typedness condition [ok], whatever [recv] returns is a list of
    bytes, and the condition holds again afterwards, whatever the outcome. *)
Class RecvBytes {T} (tc : transport_class W T) (ok : T -> Prop) : Prop :=
  recv_bytes : forall fuel max_len (s s' : sys W T) r,
    ok (sys_tr s) -> tc_recv tc fuel max_len s = (r, s') ->
    ok (sys_tr s') /\ forall d, r = Done d -> bytes_ok d = true.

(** [destroy] gives back the handle [hd] of the struct and the interface
    [intf] claimed on it, working on open handles only. *)
Class DestroyReleases {T} (tc : transport_class W T) (hd : T -> option handle)
    (intf : T -> Z) : Prop :=
  destroy_releases : destroy_contract hd intf (tc_destroy tc).

(** A client: send the buffers one after another, stopping at the first
    failure, as a caller that fragments a message does. *)
Definition send_all {T} (tc : transport_class W T) (fuel : nat) (bufs : list (list Z))
    : M (sys W T) unit :=
  mfold (fun _ b => tc_send tc fuel b) tt bufs.

End Contract.

Section Instances.
Context {W : Type} `{UsbHost W}.
Hypothesis Hin : bulk_in_sane (W := W).

Lemma bulk_in_bound {T} h ep len tmo (s s1 : sys W T) rc buf :
  usb (BulkIn h ep len tmo) s = (Done (rc, buf), s1) -> Z.of_nat (length buf) <= Z.max 0 len.
Proof.
  rewrite usb_run. intros [= E _]. pose proof (Hin h ep len tmo (sys_world s)) as Hb.
  now rewrite E in Hb.
Qed.

Lemma bslhid_check_bound inbuf max_len d :
  Bslhid.bslhid_check inbuf max_len = Done d -> Z.of_nat (length d) <= Z.max 0 max_len.
Proof.
  unfold Bslhid.bslhid_check. intros E.
  repeat match type of E with context [if ?b then _ else _] => destruct b eqn:?; [try discriminate E|] end.
  injection E as <-. apply orb_false_iff in Heqb1 as [Hl _].
  rewrite Z.gtb_ltb, Z.ltb_ge in Hl. rewrite length_take. lia.
Qed.

Lemma recv_count_le tr len : CdcAcm.recv_count tr len <= len.
Proof. unfold CdcAcm.recv_count. zbool; lia. Qed.

Ltac recv_run Hrun :=
  cbn [tc_recv bslhid_transport_class ti3410_transport_class cdc_acm_class cp210x_class
       ftdi_class] in Hrun;
  unfold Bslhid.bslhid_recv, Ti3410.ti3410_recv, Cp210x.usbtr_recv, Ftdi.tr_recv,
    CdcAcm.usbtr_recv in Hrun;
  run_in Hrun.

Ltac read_loop_bound Hrun :=
  apply read_loop_done in Hrun as (s1 & rc & buf & Hx & _ & Ha);
  apply bulk_in_bound in Hx.

#[export] Instance bslhid_recv_bounded : RecvBounded bslhid_transport_class.
Proof.
  intros fuel max_len s s' r Hrun. recv_run Hrun.
  injection Hrun as <- _. eapply bslhid_check_bound; eassumption.
Qed.

#[export] Instance ti3410_recv_bounded : RecvBounded ti3410_transport_class.
Proof.
  intros fuel max_len s s' r Hrun. recv_run Hrun.
  read_loop_bound Hrun. unfold Ti3410.recv_accept in Ha. destruct (0 <? _); congruence.
Qed.

#[export] Instance cp210x_recv_bounded : RecvBounded cp210x_class.
Proof.
  intros fuel max_len s s' r Hrun. recv_run Hrun.
  read_loop_bound Hrun. unfold Cp210x.recv_accept in Ha. destruct (rc =? 0); congruence.
Qed.

#[export] Instance ftdi_recv_bounded : RecvBounded ftdi_class.
Proof.
  intros fuel max_len s s' r Hrun. recv_run Hrun.
  read_loop_bound Hrun. unfold Ftdi.recv_accept in Ha.
  destruct (_ && _) eqn:Hb; [|discriminate]. injection Ha as <-.
  apply andb_true_iff in Hb as [_ Hb]. apply Z.ltb_lt in Hb.
  rewrite length_drop. unfold Ftdi.recv_len, Ftdi.FTDI_PACKET_SIZE in Hx.
  destruct (max_len >? 64 - 2) eqn:Hcap;
    [apply Z.gtb_lt in Hcap | rewrite Z.gtb_ltb, Z.ltb_ge in Hcap]; lia.
Qed.

#[export] Instance cdc_acm_recv_bounded : RecvBounded cdc_acm_class.
Proof.
  intros fuel max_len s s' r Hrun. recv_run Hrun.
  all: injection Hrun as <- _; rewrite length_take.
  all: match goal with |- context [CdcAcm.recv_count ?t ?l] => pose proof (recv_count_le t l) end.
  all: lia.
Qed.
End Instances.

Section SendInstances.
Context {W : Type} `{UsbHost W}.
Hypothesis Hout : bulk_out_sane (W := W).

Ltac send_run :=
  intros fuel data s s' Hrun;
  cbn [tc_send bslhid_transport_class ti3410_transport_class cdc_acm_class cp210x_class
       ftdi_class] in Hrun;
  unfold Bslhid.bslhid_send, Ti3410.ti3410_send, Cp210x.usbtr_send, Ftdi.tr_send,
    CdcAcm.usbtr_send in Hrun;
  rewrite bind_get_tr in Hrun.

#[export] Instance bslhid_send_wire : SendWire bslhid_transport_class.
Proof.
  send_run. destruct (Bslhid.handle _); [|discriminate].
  destruct (_ >? _); [discriminate|]. exact (send_loop_done_wire Hout _ _ _ _ _ _ _ _ Hrun).
Qed.

#[export] Instance ti3410_send_wire : SendWire ti3410_transport_class.
Proof. send_run. exact (send_loop_done_wire Hout _ _ _ _ _ _ _ _ Hrun). Qed.

#[export] Instance cdc_acm_send_wire : SendWire cdc_acm_class.
Proof. send_run. exact (send_loop_done_wire Hout _ _ _ _ _ _ _ _ Hrun). Qed.

#[export] Instance cp210x_send_wire : SendWire cp210x_class.
Proof. send_run. exact (send_loop_done_wire Hout _ _ _ _ _ _ _ _ Hrun). Qed.

#[export] Instance ftdi_send_wire : SendWire ftdi_class.
Proof. send_run. exact (send_loop_done_wire Hout _ _ _ _ _ _ _ _ Hrun). Qed.
End SendInstances.

(** The state each backend keeps bytes in: only CDC-ACM buffers what it
    received, in [rbuf]. *)
Definition backend_ok (b : backend) : backend_tr b -> Prop :=
  match b return backend_tr b -> Prop with
  | CdcAcmBridge => fun tr => bytes_ok (CdcAcm.rbuf tr) = true
  | _ => fun _ => True
  end.

Section ByteInstances.
Context {W : Type} `{UsbHost W}.
Hypothesis Hb : bulk_in_bytes (W := W).

Lemma bulk_in_bytes_at {T} h ep len tmo (s s1 : sys W T) rc buf :
  usb (BulkIn h ep len tmo) s = (Done (rc, buf), s1) -> bytes_ok buf = true.
Proof.
  rewrite usb_run. intros [= E _]. pose proof (Hb h ep len tmo (sys_world s)) as Hx.
  now rewrite E in Hx.
Qed.

(** The bytes of the transfer a [host_step] equation [Hc] answered. *)
Ltac bulk_bytes :=
  try match goal with
  | Hc : host_step (BulkIn ?h ?ep ?l ?t) ?w = ((?rc, ?d), _) |- _ =>
      let Hx := fresh "Hx" in
      pose proof (Hb h ep l t w) as Hx; rewrite Hc in Hx; cbn [fst snd] in Hx
  end.

Ltac recv_bytes_run :=
  intros fuel max_len s s' r Hok Hrun; split; [exact I|]; intros d ->;
  cbn [tc_recv bslhid_transport_class ti3410_transport_class cp210x_class ftdi_class] in Hrun;
  unfold Bslhid.bslhid_recv, Ti3410.ti3410_recv, Cp210x.usbtr_recv, Ftdi.tr_recv in Hrun;
  run_in Hrun;
  try (apply read_loop_done in Hrun as (s1 & rc & buf & Hx & _ & Ha);
       apply bulk_in_bytes_at in Hx).

#[export] Instance bslhid_recv_bytes : RecvBytes bslhid_transport_class (fun _ => True).
Proof.
  recv_bytes_run. injection Hrun as <- _.
  match goal with E : Bslhid.bslhid_check _ _ = Done _ |- _ => rename E into Ec end.
  unfold Bslhid.bslhid_check in Ec.
  repeat match type of Ec with context [if ?b then _ else _] => destruct b; [try discriminate Ec|] end.
  injection Ec as <-. bulk_bytes. auto with usb.
Qed.

#[export] Instance ti3410_recv_bytes : RecvBytes ti3410_transport_class (fun _ => True).
Proof. recv_bytes_run. unfold Ti3410.recv_accept in Ha. destruct (0 <? _); congruence. Qed.

#[export] Instance cp210x_recv_bytes : RecvBytes cp210x_class (fun _ => True).
Proof. recv_bytes_run. unfold Cp210x.recv_accept in Ha. destruct (rc =? 0); congruence. Qed.

#[export] Instance ftdi_recv_bytes : RecvBytes ftdi_class (fun _ => True).
Proof.
  recv_bytes_run. unfold Ftdi.recv_accept in Ha.
  destruct (_ && _); [|discriminate]. injection Ha as <-. auto with usb.
Qed.

#[export] Instance cdc_acm_recv_bytes :
  RecvBytes cdc_acm_class (fun tr => bytes_ok (CdcAcm.rbuf tr) = true).
Proof.
  intros fuel max_len s s' r Hok Hrun. cbn [tc_recv cdc_acm_class] in Hrun.
  unfold CdcAcm.usbtr_recv, CdcAcm.refill in Hrun. run_in Hrun.
  all: injection Hrun as <- <-; cbn [sys_tr CdcAcm.rbuf CdcAcm.set_rbuf_ptr CdcAcm.set_rbuf
                                    CdcAcm.set_rbuf_len] in *.
  all: bulk_bytes.
  all: split; [|intros ? [= <-]]; auto with usb.
Qed.
End ByteInstances.

Section ReleaseInstances.
Context {W : Type} `{UsbHost W}.

Ltac destroy_run Hh Hrun :=
  intros ? ? Hh; cbn zeta;
  match goal with |- context [snd (?m ?s)] => destruct (m s) as [? ?] eqn:Hrun end;
  cbn [snd]; cbn [tc_destroy bslhid_transport_class cdc_acm_class cp210x_class ftdi_class] in Hrun.

#[export] Instance bslhid_releases :
  DestroyReleases bslhid_transport_class Bslhid.handle Bslhid.int_number.
Proof.
  destroy_run Hh Hrun. unfold Bslhid.bslhid_destroy in Hrun. run_in Hrun.
  all: destroy_close Hh Hrun.
Qed.

#[export] Instance cdc_acm_releases :
  DestroyReleases cdc_acm_class CdcAcm.handle CdcAcm.int_number.
Proof.
  destroy_run Hh Hrun. unfold CdcAcm.usbtr_destroy in Hrun. run_in Hrun. destroy_close Hh Hrun.
Qed.

#[export] Instance cp210x_releases :
  DestroyReleases cp210x_class Cp210x.handle Cp210x.int_number.
Proof.
  destroy_run Hh Hrun. unfold Cp210x.usbtr_destroy in Hrun. run_in Hrun. destroy_close Hh Hrun.
Qed.

(** [libusb_close] alone gives back the handle and the interface claimed
    on it. *)
#[export] Instance ftdi_releases :
  DestroyReleases ftdi_class Ftdi.handle (fun _ => Ftdi.USB_INTERFACE).
Proof.
  destroy_run Hh Hrun. unfold Ftdi.tr_destroy in Hrun. run_in Hrun. destroy_close Hh Hrun.
Qed.
End ReleaseInstances.

Section Clients.
Context {W : Type} `{UsbHost W}.

(** Sends that all return 0 put the concatenation of their buffers on the
    wire, for any table whose [send] satisfies [SendWire]. *)
Lemma send_all_wire {T} (tc : transport_class W T) `{!SendWire tc} fuel bufs (s s' : sys W T) :
  send_all tc fuel bufs s = (Done tt, s') ->
  wire_out (sys_trace s') = wire_out (sys_trace s) ++ concat bufs.
Proof.
  unfold send_all. revert s. induction bufs as [|b bufs IH]; intros s Hrun; cbn [mfold] in Hrun.
  - injection Hrun as <-. now rewrite app_nil_r.
  - unfold bind in Hrun. destruct (tc_send tc fuel b s) as [[[]| |] s1] eqn:E; try discriminate.
    rewrite (IH _ Hrun), (send_wire fuel b s s1 E). cbn. now rewrite app_assoc.
Qed.

(** C5. No backend's [recv] returns more bytes than the caller's
    [max_len], the size of its [databuf]: the HID backend checks the
    declared length, CDC-ACM caps the count at [len], FTDI strips two
    status bytes from a transfer of at most [max_len + 2], and the others
    return what one transfer of [max_len] bytes received. *)
Theorem backend_recv_bounded (Hin : bulk_in_sane (W := W)) b : RecvBounded (backend_class b).
Proof.
  destruct b; [apply bslhid_recv_bounded | apply ti3410_recv_bounded | apply cdc_acm_recv_bounded
              | apply cp210x_recv_bounded | apply ftdi_recv_bounded]; exact Hin.
Qed.

(** C6. For every backend, a sequence of [send] calls that all return 0
    puts exactly the concatenation of their buffers on the wire, in order;
    proved for any table whose [send] satisfies [SendWire], which every
    backend's does. *)
Theorem backend_send_all_wire (Hout : bulk_out_sane (W := W)) b fuel bufs
    (s s' : sys W (backend_tr b)) :
  send_all (backend_class b) fuel bufs s = (Done tt, s') ->
  wire_out (sys_trace s') = wire_out (sys_trace s) ++ concat bufs.
Proof.
  apply send_all_wire.
  destruct b; [apply bslhid_send_wire | apply ti3410_send_wire | apply cdc_acm_send_wire
              | apply cp210x_send_wire | apply ftdi_send_wire]; exact Hout.
Qed.
(** Every backend's [recv] respects the [uint8_t] type of its
    [databuf]: when libusb delivers bytes, whatever [recv] returns is a
    list of bytes, and CDC-ACM's buffer [rbuf], from which it serves later
    calls, holds only bytes again after every call, the failed ones
    included. *)
Theorem backend_recv_bytes (Hb : bulk_in_bytes (W := W)) b :
  RecvBytes (backend_class b) (backend_ok b).
Proof.
  destruct b; [apply bslhid_recv_bytes | apply ti3410_recv_bytes | apply cdc_acm_recv_bytes
              | apply cp210x_recv_bytes | apply ftdi_recv_bytes]; exact Hb.
Qed.

(** C13. Open then destroy gives everything back, for the HID, CDC-ACM and
    FTDI backends: on a host whose [libusb_open] returns a handle exactly
    when it succeeds, each backend's [open] works on open handles only,
    leaves nothing open or claimed when it fails and exactly the struct's
    handle with its interface claimed when it succeeds; the table's
    [destroy] then gives both back.  (The TI3410 [destroy] does not:
    [ti3410_open_destroy_leaks].) *)
Theorem open_destroy_releases (Hos : open_sane W) :
  (forall fuel dev_path serial,
     let op := Bslhid.bslhid_open fuel dev_path serial in
     open_contract (backend_handle BslHid) (backend_intf BslHid) op /\
     releases_all op (tc_destroy (backend_class BslHid))) /\
  (forall fuel devpath serial baud_rate vendor product,
     let op := CdcAcm.cdc_acm_open fuel devpath serial baud_rate vendor product in
     open_contract (backend_handle CdcAcmBridge) (backend_intf CdcAcmBridge) op /\
     releases_all op (tc_destroy (backend_class CdcAcmBridge))) /\
  (forall devpath serial vendor product baud_rate,
     let op := Ftdi.ftdi_open devpath serial vendor product baud_rate in
     open_contract (backend_handle FtdiBridge) (backend_intf FtdiBridge) op /\
     releases_all op (tc_destroy (backend_class FtdiBridge))).
Proof.
  split; [|split]; intros; cbn zeta.
  - pose proof (Bslhid.bslhid_open_contract Hos fuel dev_path serial) as Ho.
    split; [exact Ho | eapply open_then_destroy; [exact Ho | apply bslhid_releases]].
  - pose proof (CdcAcm.cdc_acm_open_contract Hos fuel devpath serial baud_rate vendor product) as Ho.
    split; [exact Ho | eapply open_then_destroy; [exact Ho | apply cdc_acm_releases]].
  - pose proof (Ftdi.ftdi_open_contract Hos devpath serial vendor product baud_rate) as Ho.
    split; [exact Ho | eapply open_then_destroy; [exact Ho | apply ftdi_releases]].
Qed.
End Clients.

(** ** Witnesses *)

Lemma backend_recv_bounded_witness : RecvBounded (W := fake) (backend_class Cp210xBridge).
Proof. apply (backend_recv_bounded fake_bulk_in_sane). Defined.

Lemma backend_send_all_wire_witness :
  let s := start (W := fake) (T := backend_tr CdcAcmBridge) (fake_world [] [])
             (CdcAcm.cdc_live 0 0 []) in
  let s1 := snd (send_all (backend_class CdcAcmBridge) 3 [[1; 2]; [3]] s) in
  send_all (backend_class CdcAcmBridge) 3 [[1; 2]; [3]] s = (Done tt, s1) /\
  wire_out (sys_trace s1) = wire_out (sys_trace s) ++ concat [[1; 2]; [3]].
Proof.
  intros s s1. split; [vm_compute; reflexivity|].
  apply (backend_send_all_wire fake_bulk_out_sane CdcAcmBridge 3 [[1; 2]; [3]] s s1).
  vm_compute. reflexivity.
Defined.

Lemma open_destroy_releases_witness :
  open_sane fake /\
  releases_all (Bslhid.bslhid_open (W := fake) 3%nat None (Some "HID0001"))
    (tc_destroy (backend_class BslHid)).
Proof.
  split; [exact fake_open_sane|].
  exact (proj2 (proj1 (open_destroy_releases fake_open_sane) 3%nat None (Some "HID0001"))).
Defined.
